(** * System Command Center: the sampling-and-derivation layer

    A shallow embedding of the telemetry samplers of the dashboard
    ([system_command_center.py] and [system_command_center_v4.py]):
    the rate samplers for network, disk and CPU tick counters, the
    temperature classifier, the rolling history buffers and the tick
    scheduler, together with the properties the specification states
    about them.

    Python integers are [Z]; Python floats are IEEE-754 binary64 values,
    taken from the Standard Library's executable specification
    [SpecFloat] (precision 53, maximal exponent 1024), so every
    arithmetic step rounds as it does in the interpreter. *)

From Stdlib Require Import ZArith List Bool Lia QArith Ascii String
  Permutation.
From Stdlib Require Import Floats.SpecFloat.
Import ListNotations.

Local Open Scope Z_scope.

(* ================================================================== *)
(** * Python numbers *)
(* ================================================================== *)

Module Py.

(** Exceptions the modelled code can raise. *)
Inductive exn : Type :=
| IndexError
| ZeroDivisionError
| OverflowError
| ValueError
| StructError
| OSError
| TypeError
| TclError.

(** The outcome of evaluating an expression or a statement. *)
Inductive outcome (A : Type) : Type :=
| Ok (a : A)
| Raise (e : exn).
Arguments Ok {A} a.
Arguments Raise {A} e.

Definition prec : Z := 53.
Definition emax : Z := 1024.

(** A Python [float]. *)
Definition float : Type := spec_float.

(** A Python number: an [int] or a [float]. *)
Inductive num : Type :=
| PInt (z : Z)
| PFloat (f : float).

(** [float(z)]: the nearest double, ties to even.  The interpreter
    raises [OverflowError] when the rounded value would not be finite,
    that is from [2^1024 - 2^970] on. *)
Definition overflow_bound : Z := 2 ^ 1024 - 2 ^ 970.

(** The double nearest to an integer. *)
Definition double (z : Z) : float := binary_normalize prec emax z 0 false.

Definition float_of_int (z : Z) : outcome float :=
  if Z.abs z <? overflow_bound
  then Ok (double z)
  else Raise OverflowError.

Definition to_float (n : num) : outcome float :=
  match n with
  | PInt z => float_of_int z
  | PFloat f => Ok f
  end.

Definition is_zero (f : float) : bool :=
  match f with
  | S754_zero _ => true
  | _ => false
  end.

(** [a / b] on two ints: the correctly rounded quotient. *)
Definition int_truediv (a b : Z) : outcome float :=
  if b =? 0 then Raise ZeroDivisionError
  else
    let s := xorb (a <? 0) (b <? 0) in
    if a =? 0 then Ok (S754_zero s)
    else
      let '(mz, ez, lz) :=
        SFdiv_core_binary prec emax (Z.abs a) 0 (Z.abs b) 0 in
      match binary_round_aux prec emax s mz ez lz with
      | S754_infinity _ => Raise OverflowError
      | f => Ok f
      end.

Definition float_truediv (x y : float) : outcome float :=
  if is_zero y then Raise ZeroDivisionError
  else Ok (SFdiv prec emax x y).

(** [a / b]. *)
Definition truediv (a b : num) : outcome num :=
  match a, b with
  | PInt x, PInt y =>
      match int_truediv x y with
      | Ok f => Ok (PFloat f)
      | Raise e => Raise e
      end
  | _, _ =>
      match to_float a with
      | Raise e => Raise e
      | Ok x =>
          match to_float b with
          | Raise e => Raise e
          | Ok y =>
              match float_truediv x y with
              | Ok f => Ok (PFloat f)
              | Raise e => Raise e
              end
          end
      end
  end.

(** A binary operator that is exact on ints and rounds on floats. *)
Definition arith (fz : Z -> Z -> Z) (ff : float -> float -> float)
           (a b : num) : outcome num :=
  match a, b with
  | PInt x, PInt y => Ok (PInt (fz x y))
  | _, _ =>
      match to_float a with
      | Raise e => Raise e
      | Ok x =>
          match to_float b with
          | Raise e => Raise e
          | Ok y => Ok (PFloat (ff x y))
          end
      end
  end.

(** [a - b] and [a * b]. *)
Definition sub : num -> num -> outcome num :=
  arith Z.sub (SFsub prec emax).
Definition mul : num -> num -> outcome num :=
  arith Z.mul (SFmul prec emax).

(** [a + b]. *)
Definition add : num -> num -> outcome num :=
  arith Z.add (SFadd prec emax).

(** The value a number denotes: Python compares numbers by value,
    also an int with a float. *)
Inductive xreal : Type :=
| XNaN
| XNegInf
| XFin (q : Q)
| XPosInf.

Definition float_value (f : float) : xreal :=
  match f with
  | S754_nan => XNaN
  | S754_infinity true => XNegInf
  | S754_infinity false => XPosInf
  | S754_zero _ => XFin 0%Q
  | S754_finite s m e =>
      let v := cond_Zopp s (Zpos m) in
      match e with
      | Zneg k => XFin (Qmake v (2 ^ k)%positive)
      | _ => XFin (inject_Z (v * 2 ^ e))
      end
  end.

Definition value (n : num) : xreal :=
  match n with
  | PInt z => XFin (inject_Z z)
  | PFloat f => float_value f
  end.

Definition xcompare (a b : xreal) : option comparison :=
  match a, b with
  | XNaN, _ | _, XNaN => None
  | XNegInf, XNegInf => Some Eq
  | XNegInf, _ => Some Lt
  | _, XNegInf => Some Gt
  | XPosInf, XPosInf => Some Eq
  | XPosInf, _ => Some Gt
  | _, XPosInf => Some Lt
  | XFin p, XFin q => Some (Qcompare p q)
  end.

Definition compare (a b : num) : option comparison :=
  xcompare (value a) (value b).

(** [a < b], [a > b], [a <= b], [a >= b]: all false on a NaN. *)
Definition lt (a b : num) : bool :=
  match compare a b with Some Lt => true | _ => false end.
Definition gt (a b : num) : bool :=
  match compare a b with Some Gt => true | _ => false end.
Definition le (a b : num) : bool :=
  match compare a b with Some (Lt | Eq) => true | _ => false end.
Definition ge (a b : num) : bool :=
  match compare a b with Some (Gt | Eq) => true | _ => false end.

(** [max(a, b)] keeps [a] unless [b > a]; [min(a, b)] keeps [a]
    unless [b < a]. *)
Definition max2 (a b : num) : num := if gt b a then b else a.
Definition min2 (a b : num) : num := if lt b a then b else a.

(** [max(l)] on a non-empty list. *)
Definition max_list (l : list num) : outcome num :=
  match l with
  | [] => Raise ValueError
  | x :: t => Ok (fold_left max2 t x)
  end.

(** [int(x)]: truncation towards zero. *)
Definition int_of (n : num) : outcome Z :=
  match n with
  | PInt z => Ok z
  | PFloat f =>
      match f with
      | S754_nan => Raise ValueError
      | S754_infinity _ => Raise OverflowError
      | S754_zero _ => Ok 0
      | S754_finite s m e =>
          Ok (cond_Zopp s (match e with
                           | Zneg k => Zpos m / 2 ^ Zpos k
                           | _ => Zpos m * 2 ^ e
                           end))
      end
  end.

End Py.

(* ================================================================== *)
(** * The operating system as the samplers see it *)
(* ================================================================== *)

Module Sys.

(** A whitespace-separated field of a [/proc] text file: a decimal
    integer, or any other word. *)
Inductive token : Type :=
| TNum (z : Z)
| TWord (s : string).

Definition line : Type := list token.

(** [int(tok)]. *)
Definition int_of_token (t : token) : Py.outcome Z :=
  match t with
  | TNum z => Py.Ok z
  | TWord _ => Py.Raise Py.ValueError
  end.

(** [tok.startswith(p)]. *)
Definition token_startswith (p : string) (t : token) : bool :=
  match t with
  | TWord s => String.prefix p s
  | TNum _ => false
  end.

(** A sysfs file that should hold one integer. *)
Inductive file : Type :=
| Absent
| Unreadable
| Holds (z : Z).

(** An entry of [/sys/class/net] with its two byte counters. *)
Record iface : Type := {
  iface_name : string;
  rx_bytes : file;
  tx_bytes : file
}.

(** A line of [/proc/cpuinfo]: whether it contains ["MHz"], and the
    digits the pattern [:\s*(\d+)] captures, if it matches. *)
Record cpuinfo_line : Type := {
  has_MHz : bool;
  colon_digits : option Z
}.

(** The sources a sampler reads. *)
Inductive source : Type :=
| Clock
| NetDir
| DiskStats
| ProcStat
| CpuInfo
| PmtTelem
| CpuTemp
| NvmeTemp
| GpuTemp
| Fan (i : nat)
| GpuActFreq
| GpuMaxFreq
| VramUsed
| VramTotal
| Shell
| Stdout
| Tk.

(** What each source holds at each instant.  [None] is a read that
    fails (missing file, permission denied). *)
Record environment : Type := {
  time_time : nat -> Py.float;
  sys_class_net : nat -> option (list iface);
  proc_diskstats : nat -> option (list line);
  proc_stat : nat -> option (list line);
  proc_cpuinfo : nat -> option (list cpuinfo_line);
  pmt_telem : nat -> option (list Byte.byte);
  hwmon2_temp1_input : nat -> file;
  hwmon1_temp1_input : nat -> file;
  hwmon3_fan_input : nat -> nat -> file;
  gt0_act_freq : nat -> file;
  gt0_max_freq : nat -> file;
  mem_info_vram_used : nat -> file;
  mem_info_vram_total : nat -> file;
  tk_error : nat -> bool;
  (** The width Tk reports for a canvas. *)
  winfo_width : nat -> Z;
  (** What a panel that formats the output of a command raises, if
      anything. *)
  shell_error : nat -> option Py.exn;
  (** Whether writing to the standard output fails. *)
  stdout_error : nat -> bool;
  (** The GPU sensor file of the temperature monitor and what the
      [sensors] command reports. *)
  hwmon3_temp1_input : nat -> file;
  sensors_temp : nat -> option Py.float
}.

End Sys.

(* ================================================================== *)
(** * Statements: state, exceptions, reads *)
(* ================================================================== *)

Module Run.
Import Py Sys.

(** Callbacks the programs register with [root.after]. *)
Inductive callback : Type :=
| CB_update_all.

(** A running program: its object [self], the system around it, the
    current instant, the reads made so far (latest last), the timers
    pending in the Tk root and the messages printed. *)
Record machine (S : Type) : Type := {
  self : S;
  env : environment;
  instant : nat;
  trace : list (source * nat);
  timers : list (Z * callback);
  printed : list exn
}.
Arguments self {S} m.
Arguments env {S} m.
Arguments instant {S} m.
Arguments trace {S} m.
Arguments timers {S} m.
Arguments printed {S} m.

Definition M (S A : Type) : Type := machine S -> outcome A * machine S.

Definition ret {S A} (a : A) : M S A := fun m => (Ok a, m).

Definition raise {S A} (e : exn) : M S A := fun m => (Raise e, m).

Definition bind {S A B} (c : M S A) (k : A -> M S B) : M S B :=
  fun m =>
    match c m with
    | (Ok a, m') => k a m'
    | (Raise e, m') => (Raise e, m')
    end.

(** [try: c  except: h] -- what [c] changed before it raised stays. *)
Definition try_except {S A} (c : M S A) (h : exn -> M S A) : M S A :=
  fun m =>
    match c m with
    | (Ok a, m') => (Ok a, m')
    | (Raise e, m') => h e m'
    end.

Definition lift {S A} (o : outcome A) : M S A := fun m => (o, m).

Definition get_self {S} : M S S := fun m => (Ok (self m), m).

Definition with_self {S} (f : S -> S) (m : machine S) : machine S :=
  {| self := f (self m); env := env m; instant := instant m;
     trace := trace m; timers := timers m; printed := printed m |}.

Definition modify_self {S} (f : S -> S) : M S unit :=
  fun m => (Ok tt, with_self f m).

(** Every read takes place at an instant of its own. *)
Definition advance {S} (src : source) (m : machine S) : machine S :=
  {| self := self m; env := env m; instant := Datatypes.S (instant m);
     trace := trace m ++ [(src, instant m)]; timers := timers m;
     printed := printed m |}.

Definition observe {S A} (src : source)
           (f : environment -> nat -> A) : M S A :=
  fun m => (Ok (f (env m) (instant m)), advance src m).

(** [Path(p).read_text()] where the whole content is modelled. *)
Definition read_text {S A} (src : source)
           (f : environment -> nat -> option A) : M S A :=
  fun m =>
    match f (env m) (instant m) with
    | Some a => (Ok a, advance src m)
    | None => (Raise OSError, advance src m)
    end.

(** [int(Path(p).read_text().strip())]. *)
Definition read_int {S} (src : source)
           (f : environment -> nat -> file) : M S Z :=
  fun m =>
    match f (env m) (instant m) with
    | Holds z => (Ok z, advance src m)
    | Unreadable => (Raise ValueError, advance src m)
    | Absent => (Raise OSError, advance src m)
    end.

(** A call into Tk: it may raise [TclError]. *)
Definition tk {S} : M S unit :=
  fun m =>
    if tk_error (env m) (instant m)
    then (Raise TclError, advance Tk m)
    else (Ok tt, advance Tk m).

(** A call into Tk that answers with an int. *)
Definition tk_int {S} (f : environment -> nat -> Z) : M S Z :=
  fun m =>
    if tk_error (env m) (instant m)
    then (Raise TclError, advance Tk m)
    else (Ok (f (env m) (instant m)), advance Tk m).

(** The part of a panel that runs a command and formats its output:
    only whether it raises is kept. *)
Definition shell {S} : M S unit :=
  fun m =>
    match shell_error (env m) (instant m) with
    | Some e => (Raise e, advance Shell m)
    | None => (Ok tt, advance Shell m)
    end.

(** [print(e)]: it raises when the standard output cannot be written
    (a closed pipe), and then nothing is printed. *)
Definition print {S} (e : exn) : M S unit :=
  fun m =>
    if stdout_error (env m) (instant m)
    then (Raise OSError, advance Stdout m)
    else
      (Ok tt,
       advance Stdout
         {| self := self m; env := env m; instant := instant m;
            trace := trace m; timers := timers m;
            printed := printed m ++ [e] |}).

(** [root.after(ms, cb)]: a call into Tk; when it raises, no timer is
    registered. *)
Definition root_after {S} (ms : Z) (cb : callback) : M S unit :=
  fun m =>
    if tk_error (env m) (instant m)
    then (Raise TclError, advance Tk m)
    else
      (Ok tt,
       advance Tk
         {| self := self m; env := env m; instant := instant m;
            trace := trace m; timers := timers m ++ [(ms, cb)];
            printed := printed m |}).

(** A program that has made no read yet. *)
Definition boot {S} (a : S) (e : environment) : machine S :=
  {| self := a; env := e; instant := 0; trace := []; timers := [];
     printed := [] |}.

(** The instants at which [/proc/stat] was read. *)
Definition stat_reads (t : list (source * nat)) : list nat :=
  flat_map (fun ev => match fst ev with
                      | ProcStat => [snd ev]
                      | _ => []
                      end) t.

Declare Scope run_scope.
Delimit Scope run_scope with run.
Notation "x <- c ;; k" := (bind c (fun x => k))
  (at level 61, c at next level, right associativity) : run_scope.
Notation "c ;; k" := (bind c (fun _ => k))
  (at level 61, right associativity) : run_scope.

(** [for x in l: body] *)
Fixpoint for_each {S A} (l : list A) (body : A -> M S unit) : M S unit :=
  match l with
  | [] => ret tt
  | x :: t => bind (body x) (fun _ => for_each t body)
  end.

End Run.

(* ================================================================== *)
(** * system_command_center_v4.py *)
(* ================================================================== *)

Module V4.
Import Py Sys Run.
Local Open Scope run_scope.

(** Keys of [self.colors] used by the status labels. *)
Inductive color : Type :=
| text_dim
| nominal
| warning
| critical
| accent_teal.

(** Texts of the status labels (each is shown after a bullet). *)
Inductive status : Type :=
| NOMINAL
| ELEVATED
| CRITICAL
| OFFLINE
| NO_ACCESS
| STANDBY
| ACTIVE
| IDLE.

(** The status labels and the gauges of the GPU and CPU panels. *)
Inductive label : Type :=
| gpu_temp_status
| gpu_hotspot_status
| cpu_temp_status
| fan_status.

Inductive gauge : Type :=
| gpu_temp_canvas
| gpu_hotspot_canvas
| cpu_usage_canvas
| cpu_temp_canvas.

Definition label_eqb (a b : label) : bool :=
  match a, b with
  | gpu_temp_status, gpu_temp_status
  | gpu_hotspot_status, gpu_hotspot_status
  | cpu_temp_status, cpu_temp_status
  | fan_status, fan_status => true
  | _, _ => false
  end.

Definition gauge_eqb (a b : gauge) : bool :=
  match a, b with
  | gpu_temp_canvas, gpu_temp_canvas
  | gpu_hotspot_canvas, gpu_hotspot_canvas
  | cpu_usage_canvas, cpu_usage_canvas
  | cpu_temp_canvas, cpu_temp_canvas => true
  | _, _ => false
  end.

(** The attributes of [SystemCommandCenter] the samplers use.
    [last_cpu] holds [last_cpu_idle] and [last_cpu_total], which are
    created together by the first CPU sample ([hasattr]).
    [last_core_stats] maps the key ["core<i>"] (here [i]) to the
    pair [idle], [total]. *)
Record SystemCommandCenter : Type := {
  cpu_history : list num;
  gpu_temp_history : list num;
  net_rx_history : list num;
  net_tx_history : list num;
  disk_read_history : list num;
  disk_write_history : list num;
  last_net_rx : Z;
  last_net_tx : Z;
  last_net_time : float;
  last_disk_read : Z;
  last_disk_write : Z;
  last_disk_time : float;
  num_cores : nat;
  last_core_stats : nat -> option (Z * Z);
  last_cpu : option (Z * Z);
  has_root : bool;
  current_gpu_temp : num;
  current_cpu_temp : num;
  current_cpu_usage : num;
  is_critical : bool;
  labels : label -> status * color;
  gauges : gauge -> option num
}.

Definition app : Type := M SystemCommandCenter unit.

(** ** Assignments to attributes *)

Definition set_histories (c g rx tx dr dw : list num)
           (a : SystemCommandCenter) : SystemCommandCenter :=
  {| cpu_history := c; gpu_temp_history := g; net_rx_history := rx;
     net_tx_history := tx; disk_read_history := dr;
     disk_write_history := dw;
     last_net_rx := last_net_rx a; last_net_tx := last_net_tx a;
     last_net_time := last_net_time a;
     last_disk_read := last_disk_read a;
     last_disk_write := last_disk_write a;
     last_disk_time := last_disk_time a;
     num_cores := num_cores a; last_core_stats := last_core_stats a;
     last_cpu := last_cpu a; has_root := has_root a;
     current_gpu_temp := current_gpu_temp a;
     current_cpu_temp := current_cpu_temp a;
     current_cpu_usage := current_cpu_usage a;
     is_critical := is_critical a; labels := labels a;
     gauges := gauges a |}.

Definition set_cpu_history (h : list num) a :=
  set_histories h (gpu_temp_history a) (net_rx_history a)
    (net_tx_history a) (disk_read_history a) (disk_write_history a) a.
Definition set_gpu_temp_history (h : list num) a :=
  set_histories (cpu_history a) h (net_rx_history a)
    (net_tx_history a) (disk_read_history a) (disk_write_history a) a.
Definition set_net_rx_history (h : list num) a :=
  set_histories (cpu_history a) (gpu_temp_history a) h
    (net_tx_history a) (disk_read_history a) (disk_write_history a) a.
Definition set_net_tx_history (h : list num) a :=
  set_histories (cpu_history a) (gpu_temp_history a) (net_rx_history a)
    h (disk_read_history a) (disk_write_history a) a.
Definition set_disk_read_history (h : list num) a :=
  set_histories (cpu_history a) (gpu_temp_history a) (net_rx_history a)
    (net_tx_history a) h (disk_write_history a) a.
Definition set_disk_write_history (h : list num) a :=
  set_histories (cpu_history a) (gpu_temp_history a) (net_rx_history a)
    (net_tx_history a) (disk_read_history a) h a.

Definition set_samples (nrx ntx : Z) (nt : float) (dr dw : Z)
           (dt : float) (cs : nat -> option (Z * Z))
           (cpu : option (Z * Z))
           (a : SystemCommandCenter) : SystemCommandCenter :=
  {| cpu_history := cpu_history a;
     gpu_temp_history := gpu_temp_history a;
     net_rx_history := net_rx_history a;
     net_tx_history := net_tx_history a;
     disk_read_history := disk_read_history a;
     disk_write_history := disk_write_history a;
     last_net_rx := nrx; last_net_tx := ntx; last_net_time := nt;
     last_disk_read := dr; last_disk_write := dw;
     last_disk_time := dt;
     num_cores := num_cores a; last_core_stats := cs;
     last_cpu := cpu; has_root := has_root a;
     current_gpu_temp := current_gpu_temp a;
     current_cpu_temp := current_cpu_temp a;
     current_cpu_usage := current_cpu_usage a;
     is_critical := is_critical a; labels := labels a;
     gauges := gauges a |}.

Definition set_last_net (rx tx : Z) (t : float) a :=
  set_samples rx tx t (last_disk_read a) (last_disk_write a)
    (last_disk_time a) (last_core_stats a) (last_cpu a) a.
Definition set_last_disk (r w : Z) (t : float) a :=
  set_samples (last_net_rx a) (last_net_tx a) (last_net_time a)
    r w t (last_core_stats a) (last_cpu a) a.
Definition set_last_cpu (idle total : Z) a :=
  set_samples (last_net_rx a) (last_net_tx a) (last_net_time a)
    (last_disk_read a) (last_disk_write a) (last_disk_time a)
    (last_core_stats a) (Some (idle, total)) a.
Definition set_last_core (i : nat) (idle total : Z) a :=
  set_samples (last_net_rx a) (last_net_tx a) (last_net_time a)
    (last_disk_read a) (last_disk_write a) (last_disk_time a)
    (fun k => if Nat.eqb k i then Some (idle, total)
              else last_core_stats a k)
    (last_cpu a) a.

Definition set_display (g c u : num) (crit : bool)
           (ls : label -> status * color) (gs : gauge -> option num)
           (a : SystemCommandCenter) : SystemCommandCenter :=
  {| cpu_history := cpu_history a;
     gpu_temp_history := gpu_temp_history a;
     net_rx_history := net_rx_history a;
     net_tx_history := net_tx_history a;
     disk_read_history := disk_read_history a;
     disk_write_history := disk_write_history a;
     last_net_rx := last_net_rx a; last_net_tx := last_net_tx a;
     last_net_time := last_net_time a;
     last_disk_read := last_disk_read a;
     last_disk_write := last_disk_write a;
     last_disk_time := last_disk_time a;
     num_cores := num_cores a; last_core_stats := last_core_stats a;
     last_cpu := last_cpu a; has_root := has_root a;
     current_gpu_temp := g; current_cpu_temp := c;
     current_cpu_usage := u; is_critical := crit; labels := ls;
     gauges := gs |}.

Definition set_current_gpu_temp (v : num) a :=
  set_display v (current_cpu_temp a) (current_cpu_usage a)
    (is_critical a) (labels a) (gauges a) a.
Definition set_current_cpu_temp (v : num) a :=
  set_display (current_gpu_temp a) v (current_cpu_usage a)
    (is_critical a) (labels a) (gauges a) a.
Definition set_current_cpu_usage (v : num) a :=
  set_display (current_gpu_temp a) (current_cpu_temp a) v
    (is_critical a) (labels a) (gauges a) a.
Definition set_is_critical (b : bool) a :=
  set_display (current_gpu_temp a) (current_cpu_temp a)
    (current_cpu_usage a) b (labels a) (gauges a) a.
Definition set_label (l : label) (v : status * color) a :=
  set_display (current_gpu_temp a) (current_cpu_temp a)
    (current_cpu_usage a) (is_critical a)
    (fun k => if label_eqb k l then v else labels a k) (gauges a) a.
Definition set_gauge (g : gauge) (v : num) a :=
  set_display (current_gpu_temp a) (current_cpu_temp a)
    (current_cpu_usage a) (is_critical a) (labels a)
    (fun k => if gauge_eqb k g then Some v else gauges a k) a.

(** ** Widgets *)

(** [lbl.config(text=..., fg=...)] on a status label. *)
Definition config (l : label) (s : status) (c : color) : app :=
  tk ;; modify_self (set_label l (s, c)).

(** [self.draw_gauge(canvas, value, 100, label=...)]. *)
Definition draw_gauge (g : gauge) (v : num) : app :=
  tk ;; modify_self (set_gauge g v).

(** Any other drawing or label update: only its failure matters. *)
Definition render : app := tk.

(** ** [__init__]: the data attributes and the initial labels *)

Definition history_capacity : nat := 60.

Definition initial_labels (l : label) : status * color :=
  match l with
  | gpu_temp_status => (STANDBY, text_dim)
  | gpu_hotspot_status => (STANDBY, text_dim)
  | cpu_temp_status => (NOMINAL, nominal)
  | fan_status => (IDLE, text_dim)
  end.

Definition init (t_net t_disk : float) (nproc : nat) (root : bool)
  : SystemCommandCenter :=
  {| cpu_history := repeat (PInt 0) history_capacity;
     gpu_temp_history := repeat (PInt 0) history_capacity;
     net_rx_history := repeat (PInt 0) history_capacity;
     net_tx_history := repeat (PInt 0) history_capacity;
     disk_read_history := repeat (PInt 0) history_capacity;
     disk_write_history := repeat (PInt 0) history_capacity;
     last_net_rx := 0; last_net_tx := 0; last_net_time := t_net;
     last_disk_read := 0; last_disk_write := 0;
     last_disk_time := t_disk;
     num_cores := nproc; last_core_stats := fun _ => None;
     last_cpu := None; has_root := root;
     current_gpu_temp := PInt 0; current_cpu_temp := PInt 0;
     current_cpu_usage := PInt 0; is_critical := false;
     labels := initial_labels; gauges := fun _ => None |}.

(** ** History buffers: [h.pop(0); h.append(v)] *)

Definition push (h : list num) (v : num) : outcome (list num) :=
  match h with
  | [] => Raise IndexError
  | _ :: t => Ok (t ++ [v])
  end.

(** One push after the other. *)
Fixpoint push_all (h : list num) (vs : list num) : outcome (list num) :=
  match vs with
  | [] => Ok h
  | v :: rest =>
      match push h v with
      | Ok h' => push_all h' rest
      | Raise e => Raise e
      end
  end.

(** ** Data fetching *)

(** [data[lo:hi]]. *)
Definition slice {A} (lo hi : nat) (l : list A) : list A :=
  firstn (hi - lo) (skipn lo l).

(** [struct.unpack('<I', b)[0]]. *)
Definition unpack_u32_le (b : list Byte.byte) : outcome Z :=
  match b with
  | [b0; b1; b2; b3] =>
      Ok (Z.of_N (Byte.to_N b0)
          + 256 * (Z.of_N (Byte.to_N b1)
                   + 256 * (Z.of_N (Byte.to_N b2)
                            + 256 * Z.of_N (Byte.to_N b3))))
  | _ => Raise StructError
  end.

Definition get_gpu_temps
  : M SystemCommandCenter (option num * option num) :=
  self <- get_self ;;
  if negb (has_root self) then ret (None, None)
  else
    try_except
      (data <- read_text PmtTelem pmt_telem ;;
       t1 <- lift (unpack_u32_le (slice 164 168 data)) ;;
       t2 <- lift (unpack_u32_le (slice 168 172 data)) ;;
       if (0 <? t1) && (t1 <? 120) && ((0 <? t2) && (t2 <? 120))
       then ret (Some (PInt t1), Some (PInt t2))
       else ret (None, None))
      (fun _ => ret (None, None)).

Definition get_gpu_frequency
  : M SystemCommandCenter (option num * option num) :=
  try_except
    (cur <- read_int GpuActFreq gt0_act_freq ;;
     max_f <- read_int GpuMaxFreq gt0_max_freq ;;
     ret (Some (PInt cur), Some (PInt max_f)))
    (fun _ => ret (None, None)).

Definition get_gpu_vram
  : M SystemCommandCenter (option num * option num) :=
  try_except
    (used <- read_int VramUsed mem_info_vram_used ;;
     total <- read_int VramTotal mem_info_vram_total ;;
     ret (Some (PInt used), Some (PInt total)))
    (fun _ => ret (None, None)).

(** The loop of [get_gpu_fans] over [fan1_input] .. [fan3_input]. *)
Fixpoint read_fans (ids : list nat) (fans : list num)
  : M SystemCommandCenter (list num) :=
  match ids with
  | [] => ret fans
  | i :: rest =>
      fans' <- try_except
                 (rpm <- read_int (Fan i)
                           (fun e => hwmon3_fan_input e i) ;;
                  ret (fans ++ [PInt rpm]))
                 (fun _ => ret fans) ;;
      read_fans rest fans'
  end.

Definition get_gpu_fans : M SystemCommandCenter num :=
  try_except
    (fans <- read_fans [1; 2; 3]%nat [] ;;
     match fans with
     | [] => ret (PInt 0)
     | _ => lift (max_list fans)
     end)
    (fun _ => ret (PInt 0)).

Definition get_cpu_temp : M SystemCommandCenter (option num) :=
  try_except
    (raw <- read_int CpuTemp hwmon2_temp1_input ;;
     t <- lift (truediv (PInt raw) (PInt 1000)) ;;
     ret (Some t))
    (fun _ => ret None).

Definition get_nvme_temp : M SystemCommandCenter (option num) :=
  try_except
    (raw <- read_int NvmeTemp hwmon1_temp1_input ;;
     t <- lift (truediv (PInt raw) (PInt 1000)) ;;
     ret (Some t))
    (fun _ => ret None).

(** [int(parts[i])]. *)
Definition int_at (parts : line) (i : nat) : outcome Z :=
  match nth_error parts i with
  | Some t => int_of_token t
  | None => Raise IndexError
  end.

(** [sum(int(p) for p in parts)]. *)
Fixpoint sum_ints (parts : line) (acc : Z) : outcome Z :=
  match parts with
  | [] => Ok acc
  | t :: rest =>
      match int_of_token t with
      | Ok z => sum_ints rest (acc + z)
      | Raise e => Raise e
      end
  end.

(** [100 * (1 - d_idle / d_total) if d_total > 0 else 0]. *)
Definition usage_of (d_idle d_total : Z) : outcome num :=
  if d_total >? 0 then
    match truediv (PInt d_idle) (PInt d_total) with
    | Raise e => Raise e
    | Ok q =>
        match sub (PInt 1) q with
        | Raise e => Raise e
        | Ok r => mul (PInt 100) r
        end
    end
  else Ok (PInt 0).

(** [max(0, min(100, usage))]. *)
Definition clamp_percent (usage : num) : num :=
  max2 (PInt 0) (min2 (PInt 100) usage).

Definition get_cpu_usage : M SystemCommandCenter num :=
  try_except
    (lines <- read_text ProcStat proc_stat ;;
     let parts := nth 0 lines [] in
     idle <- lift (int_at parts 4) ;;
     total <- lift (sum_ints (tl parts) 0) ;;
     self <- get_self ;;
     usage <- lift (match last_cpu self with
                    | Some (last_cpu_idle, last_cpu_total) =>
                        usage_of (idle - last_cpu_idle)
                                 (total - last_cpu_total)
                    | None => Ok (PInt 0)
                    end) ;;
     modify_self (set_last_cpu idle total) ;;
     ret (clamp_percent usage))
    (fun _ => ret (PInt 0)).

(** The loop of [get_per_core_usage] over [range(self.num_cores)]. *)
Fixpoint core_loop (lines : list line) (cores : list nat)
         (usages : list num) : M SystemCommandCenter (list num) :=
  match cores with
  | [] => ret usages
  | i :: rest =>
      parts <- lift (match nth_error lines (i + 1) with
                     | Some l => Ok l
                     | None => Raise IndexError
                     end) ;;
      idle <- lift (int_at parts 4) ;;
      total <- lift (sum_ints (tl parts) 0) ;;
      self <- get_self ;;
      usage <- lift (match last_core_stats self i with
                     | Some (last_idle, last_total) =>
                         usage_of (idle - last_idle) (total - last_total)
                     | None => Ok (PInt 0)
                     end) ;;
      modify_self (set_last_core i idle total) ;;
      core_loop lines rest (usages ++ [clamp_percent usage])
  end.

Definition get_per_core_usage : M SystemCommandCenter (list num) :=
  try_except
    (lines <- read_text ProcStat proc_stat ;;
     self <- get_self ;;
     core_loop lines (seq 0 (num_cores self)) [])
    (fun _ =>
       self <- get_self ;;
       ret (repeat (PInt 0) (num_cores self))).

(** The loop of [get_cpu_freq] over the lines of [/proc/cpuinfo]. *)
Fixpoint mhz_values (lines : list cpuinfo_line) (freqs : list Z)
  : outcome (list Z) :=
  match lines with
  | [] => Ok freqs
  | l :: rest =>
      if has_MHz l then
        match colon_digits l with
        | Some d =>
            match float_of_int d with
            | Raise e => Raise e
            | Ok f =>
                match int_of (PFloat f) with
                | Raise e => Raise e
                | Ok z => mhz_values rest (freqs ++ [z])
                end
            end
        | None => mhz_values rest freqs
        end
      else mhz_values rest freqs
  end.

Definition get_cpu_freq : M SystemCommandCenter num :=
  try_except
    (lines <- read_text CpuInfo proc_cpuinfo ;;
     freqs <- lift (mhz_values lines []) ;;
     match freqs with
     | [] => ret (PInt 0)
     | _ =>
         q <- lift (truediv (PInt (fold_left Z.add freqs 0))
                            (PInt (Z.of_nat (List.length freqs)))) ;;
         z <- lift (int_of q) ;;
         ret (PInt z)
     end)
    (fun _ => ret (PInt 0)).

(** [get_cpu_info] runs two shell commands; its result is only
    shown. *)
Definition get_cpu_info : app :=
  observe Shell (fun _ _ => tt) ;; observe Shell (fun _ _ => tt).

(** [(total - last) / elapsed if elapsed > 0 and last > 0 else 0]. *)
Definition speed (total last : Z) (elapsed : float) : outcome num :=
  if gt (PFloat elapsed) (PInt 0) && (last >? 0)
  then truediv (PInt (total - last)) (PFloat elapsed)
  else Ok (PInt 0).

(** The loop of [get_disk_io] over the lines of [/proc/diskstats]. *)
Fixpoint disk_totals (lines : list line) (read_bytes write_bytes : Z)
  : outcome (Z * Z) :=
  match lines with
  | [] => Ok (read_bytes, write_bytes)
  | parts :: rest =>
      if (14 <=? List.length parts)%nat
         && token_startswith "nvme" (nth 2 parts (TNum 0))
      then
        match int_at parts 5 with
        | Raise e => Raise e
        | Ok r =>
            match int_at parts 9 with
            | Raise e => Raise e
            | Ok w =>
                disk_totals rest (read_bytes + r * 512)
                            (write_bytes + w * 512)
            end
        end
      else disk_totals rest read_bytes write_bytes
  end.

Definition get_disk_io : M SystemCommandCenter (num * num) :=
  try_except
    (stats <- read_text DiskStats proc_diskstats ;;
     totals <- lift (disk_totals stats 0 0) ;;
     let '(read_bytes, write_bytes) := totals in
     now <- observe Clock time_time ;;
     self <- get_self ;;
     let elapsed := SFsub prec emax now (last_disk_time self) in
     read_speed <- lift (speed read_bytes (last_disk_read self)
                               elapsed) ;;
     write_speed <- lift (speed write_bytes (last_disk_write self)
                                elapsed) ;;
     modify_self (set_last_disk read_bytes write_bytes now) ;;
     ret (max2 (PInt 0) read_speed, max2 (PInt 0) write_speed))
    (fun _ => ret (PInt 0, PInt 0)).

(** The interfaces [get_network_speed] counts. *)
Definition counted (name : string) : bool :=
  negb (String.eqb name "lo") && negb (String.eqb name "docker0")
  && negb (String.prefix "veth" name).

(** The loop of [get_network_speed]: a counter that cannot be read
    is skipped; a readable [rx_bytes] is counted even when [tx_bytes]
    of the same interface then fails. *)
Fixpoint net_totals (ifaces : list iface) (rx_total tx_total : Z)
  : Z * Z :=
  match ifaces with
  | [] => (rx_total, tx_total)
  | i :: rest =>
      if counted (iface_name i) then
        match rx_bytes i with
        | Holds rx =>
            match tx_bytes i with
            | Holds tx => net_totals rest (rx_total + rx) (tx_total + tx)
            | _ => net_totals rest (rx_total + rx) tx_total
            end
        | _ => net_totals rest rx_total tx_total
        end
      else net_totals rest rx_total tx_total
  end.

Definition get_network_speed : M SystemCommandCenter (num * num) :=
  try_except
    (ifaces <- read_text NetDir sys_class_net ;;
     let '(rx_total, tx_total) := net_totals ifaces 0 0 in
     now <- observe Clock time_time ;;
     self <- get_self ;;
     let elapsed := SFsub prec emax now (last_net_time self) in
     rx_speed <- lift (speed rx_total (last_net_rx self) elapsed) ;;
     tx_speed <- lift (speed tx_total (last_net_tx self) elapsed) ;;
     modify_self (set_last_net rx_total tx_total now) ;;
     ret (max2 (PInt 0) rx_speed, max2 (PInt 0) tx_speed))
    (fun _ => ret (PInt 0, PInt 0)).

Definition get_temp_color_status (temp : option num)
           (thresholds : num * num) : color * status :=
  match temp with
  | None => (text_dim, OFFLINE)
  | Some temp =>
      let '(low, high) := thresholds in
      if lt temp low then (nominal, NOMINAL)
      else if lt temp high then (warning, ELEVATED)
      else (critical, CRITICAL)
  end.

(** ** UI updates *)

(** [h.pop(0); h.append(v)] on one of the history attributes. *)
Definition pop_append (get : SystemCommandCenter -> list num)
           (set : list num -> SystemCommandCenter -> SystemCommandCenter)
           (v : num) : app :=
  self <- get_self ;;
  h <- lift (push (get self) v) ;;
  modify_self (set h).

(** [int(base + span * ratio)], a colour channel of the VRAM bar. *)
Definition channel (base span : Z) (ratio : num) : outcome Z :=
  match mul (PInt span) ratio with
  | Raise e => Raise e
  | Ok x =>
      match add (PInt base) x with
      | Raise e => Raise e
      | Ok y => int_of y
      end
  end.

(** [self.draw_vram_bar(canvas, used, total)].  The calls into Tk
    are [delete], [winfo_width], [winfo_height] and one
    [create_line] for each column of the bar. *)
Definition draw_vram_bar (used total : num) : app :=
  tk ;;
  w <- tk_int winfo_width ;;
  tk ;;
  if le (PInt w) (PInt 1) || le total (PInt 0) then ret tt
  else
    pct <- lift (truediv used total) ;;
    scaled <- lift (mul (PInt w) pct) ;;
    fill_w <- lift (int_of scaled) ;;
    for_each (map Z.of_nat (seq 0 (Z.to_nat fill_w)))
             (fun i =>
                ratio <- lift (truediv (PInt i) (PInt w)) ;;
                lift (channel 168 (255 - 168) ratio) ;;
                lift (channel 85 (107 - 85) ratio) ;;
                lift (channel 247 (157 - 247) ratio) ;;
                render).

Definition update_gpu : app :=
  temps <- get_gpu_temps ;;
  let '(t1, t2) := temps in
  modify_self (set_is_critical false) ;;
  match t1 with
  | Some t1 =>
      modify_self (set_current_gpu_temp t1) ;;
      draw_gauge gpu_temp_canvas t1 ;;
      (let '(c, s) := get_temp_color_status (Some t1)
                        (PInt 55, PInt 80) in
       config gpu_temp_status s c) ;;
      pop_append gpu_temp_history set_gpu_temp_history t1 ;;
      if gt t1 (PInt 80) then modify_self (set_is_critical true)
      else ret tt
  | None =>
      draw_gauge gpu_temp_canvas (PInt 0) ;;
      config gpu_temp_status NO_ACCESS text_dim
  end ;;
  match t2 with
  | Some t2 =>
      draw_gauge gpu_hotspot_canvas t2 ;;
      (let '(c, s) := get_temp_color_status (Some t2)
                        (PInt 60, PInt 85) in
       config gpu_hotspot_status s c) ;;
      if gt t2 (PInt 85) then modify_self (set_is_critical true)
      else ret tt
  | None =>
      draw_gauge gpu_hotspot_canvas (PInt 0) ;;
      config gpu_hotspot_status NO_ACCESS text_dim
  end ;;
  freq <- get_gpu_frequency ;;
  match fst freq with
  | Some _ => render ;; render
  | None => ret tt
  end ;;
  vram <- get_gpu_vram ;;
  match vram with
  | (Some used, Some total) =>
      lift (truediv used (PInt (1024 ^ 3))) ;;
      lift (truediv total (PInt (1024 ^ 3))) ;;
      render ;;
      draw_vram_bar used total
  | (Some _, None) => raise TypeError
  | (None, _) => ret tt
  end ;;
  rpm <- get_gpu_fans ;;
  render ;;
  (if gt rpm (PInt 0) then config fan_status ACTIVE accent_teal
   else config fan_status IDLE text_dim) ;;
  render.

Definition update_cpu : app :=
  usage <- get_cpu_usage ;;
  temp <- get_cpu_temp ;;
  nvme <- get_nvme_temp ;;
  freq <- get_cpu_freq ;;
  get_cpu_info ;;
  pop_append cpu_history set_cpu_history usage ;;
  modify_self (set_current_cpu_usage usage) ;;
  draw_gauge cpu_usage_canvas usage ;;
  match temp with
  | Some temp =>
      modify_self (set_current_cpu_temp temp) ;;
      draw_gauge cpu_temp_canvas temp ;;
      (let '(c, s) := get_temp_color_status (Some temp)
                        (PInt 55, PInt 75) in
       config cpu_temp_status s c) ;;
      if gt temp (PInt 75) then modify_self (set_is_critical true)
      else ret tt
  | None => ret tt
  end ;;
  match nvme with
  | Some _ => render
  | None => ret tt
  end ;;
  render ;;
  render ;;
  render.

Definition update_cpu_cores : app :=
  usages <- get_per_core_usage ;;
  for_each usages (fun _ => render ;; render).

Definition update_disk_io : app :=
  io <- get_disk_io ;;
  let '(read, write) := io in
  render ;;
  render ;;
  pop_append disk_read_history set_disk_read_history read ;;
  pop_append disk_write_history set_disk_write_history write ;;
  render.

Definition update_network : app :=
  speeds <- get_network_speed ;;
  let '(rx, tx) := speeds in
  render ;;
  render ;;
  pop_append net_rx_history set_net_rx_history rx ;;
  pop_append net_tx_history set_net_tx_history tx ;;
  render.

(** The clock panel shows the time.  The memory, storage, process
    and status panels are kept as what can go wrong in them: the
    formatting of a command's output, which may raise, then the
    widget calls. *)
Definition update_time : app := render ;; render.
Definition update_memory : app := shell ;; render.
Definition update_storage : app := shell ;; render.
Definition update_processes : app := shell ;; render.
Definition update_system_status : app := shell ;; render ;; render.

(** The body of the [try] block of [update_all]. *)
Definition sampling_pass : app :=
  update_time ;;
  update_gpu ;;
  update_cpu ;;
  update_cpu_cores ;;
  update_memory ;;
  update_storage ;;
  update_disk_io ;;
  update_network ;;
  update_processes ;;
  update_system_status.

Definition update_all : app :=
  try_except sampling_pass (fun e => print e) ;;
  root_after 1000 CB_update_all.

(** ** The Tk main loop, as far as the timers go *)

Definition run_callback (cb : callback) : app :=
  match cb with
  | CB_update_all => update_all
  end.

(** Fire the oldest pending timer, if there is one. *)
Definition fire (m : machine SystemCommandCenter)
  : machine SystemCommandCenter :=
  match timers m with
  | [] => m
  | (_, cb) :: rest =>
      snd (run_callback cb
             {| self := self m; env := env m; instant := instant m;
                trace := trace m; timers := rest;
                printed := printed m |})
  end.

(** [n] timer firings of [root.mainloop()]. *)
Fixpoint mainloop (n : nat) (m : machine SystemCommandCenter)
  : machine SystemCommandCenter :=
  match n with
  | O => m
  | S k => mainloop k (fire m)
  end.

End V4.

(* ================================================================== *)
(** * system_command_center.py (the first version) *)
(* ================================================================== *)

Module V1.
Import Py Sys Run.
Local Open Scope run_scope.

(** The attributes of its [SystemCommandCenter] the network sampler
    uses. *)
Record SystemCommandCenter : Type := {
  net_rx_history : list num;
  net_tx_history : list num;
  last_net_rx : Z;
  last_net_tx : Z;
  last_net_time : float
}.

Definition set_last_net (rx tx : Z) (t : float)
           (a : SystemCommandCenter) : SystemCommandCenter :=
  {| net_rx_history := net_rx_history a;
     net_tx_history := net_tx_history a;
     last_net_rx := rx; last_net_tx := tx; last_net_time := t |}.

Definition init (t_net : float) : SystemCommandCenter :=
  {| net_rx_history := repeat (PInt 0) 60;
     net_tx_history := repeat (PInt 0) 60;
     last_net_rx := 0; last_net_tx := 0; last_net_time := t_net |}.

(** [rx_total += int(f.read_text().strip())] under [if f.exists()]. *)
Definition add_counter (total : Z) (f : file) : outcome Z :=
  match f with
  | Absent => Ok total
  | Unreadable => Raise ValueError
  | Holds z => Ok (total + z)
  end.

Fixpoint net_totals (ifaces : list iface) (rx_total tx_total : Z)
  : outcome (Z * Z) :=
  match ifaces with
  | [] => Ok (rx_total, tx_total)
  | i :: rest =>
      if negb (String.eqb (iface_name i) "lo") then
        match add_counter rx_total (rx_bytes i) with
        | Raise e => Raise e
        | Ok rx =>
            match add_counter tx_total (tx_bytes i) with
            | Raise e => Raise e
            | Ok tx => net_totals rest rx tx
            end
        end
      else net_totals rest rx_total tx_total
  end.

(** [(total - last) / elapsed if elapsed > 0 else 0]. *)
Definition speed (total last : Z) (elapsed : float) : outcome num :=
  if gt (PFloat elapsed) (PInt 0)
  then truediv (PInt (total - last)) (PFloat elapsed)
  else Ok (PInt 0).

Definition get_network_speed : M SystemCommandCenter (num * num) :=
  try_except
    (ifaces <- read_text NetDir sys_class_net ;;
     totals <- lift (net_totals ifaces 0 0) ;;
     let '(rx_total, tx_total) := totals in
     now <- observe Clock time_time ;;
     self <- get_self ;;
     let elapsed := SFsub prec emax now (last_net_time self) in
     rx_speed <- lift (speed rx_total (last_net_rx self) elapsed) ;;
     tx_speed <- lift (speed tx_total (last_net_tx self) elapsed) ;;
     modify_self (set_last_net rx_total tx_total now) ;;
     ret (max2 (PInt 0) rx_speed, max2 (PInt 0) tx_speed))
    (fun _ => ret (PInt 0, PInt 0)).

(** ** UI updates *)

Definition app : Type := M SystemCommandCenter unit.

Definition set_net_histories (rx tx : list num)
           (a : SystemCommandCenter) : SystemCommandCenter :=
  {| net_rx_history := rx; net_tx_history := tx;
     last_net_rx := last_net_rx a; last_net_tx := last_net_tx a;
     last_net_time := last_net_time a |}.

Definition update_network : app :=
  speeds <- get_network_speed ;;
  let '(rx, tx) := speeds in
  tk ;;
  tk ;;
  self <- get_self ;;
  h_rx <- lift (V4.push (net_rx_history self) rx) ;;
  modify_self (set_net_histories h_rx (net_tx_history self)) ;;
  h_tx <- lift (V4.push (net_tx_history self) tx) ;;
  modify_self (set_net_histories h_rx h_tx) ;;
  tk.

(** The other panels of this version are kept as what can fail in
    them: a command or file read, then the widget calls. *)
Definition panel : app := shell ;; tk.

(** The body of the [try] block of [update_all]. *)
Definition sampling_pass : app :=
  tk ;;        (* update_time *)
  panel ;;     (* update_thermal *)
  panel ;;     (* update_cpu *)
  panel ;;     (* update_memory *)
  panel ;;     (* update_storage *)
  update_network ;;
  panel ;;     (* update_processes *)
  panel ;;     (* update_system_status *)
  tk.          (* blink_status *)

Definition update_all : app :=
  try_except sampling_pass (fun e => print e) ;;
  root_after 1000 CB_update_all.

End V1.

(* ================================================================== *)
(** * system_command_center_v4.py: the animation loop *)
(* ================================================================== *)

Module V4Animation.
Import Py Sys Run.
Local Open Scope run_scope.

(** Keys of [self.colors] given to the status dot and text. *)
Inductive color : Type :=
| critical
| bg_panel
| nominal
| glow_green.

(** Callbacks registered with [self.root.after] by the animation. *)
Inductive callback : Type :=
| CB_animate.

(** The attributes [animate] reads and writes: its three counters,
    the flag the panels set, the foreground of [status_dot] and of
    [status_text], and the timers pending in [self.root]. *)
Record SystemCommandCenter : Type := {
  pulse_state : Z;
  alert_flash : bool;
  scan_line_pos : Z;
  is_critical : bool;
  status_dot : color;
  status_text : color;
  root : list (Z * callback)
}.

Definition set_pulse_state (v : Z) a :=
  {| pulse_state := v; alert_flash := alert_flash a;
     scan_line_pos := scan_line_pos a; is_critical := is_critical a;
     status_dot := status_dot a; status_text := status_text a;
     root := root a |}.
Definition set_alert_flash (v : bool) a :=
  {| pulse_state := pulse_state a; alert_flash := v;
     scan_line_pos := scan_line_pos a; is_critical := is_critical a;
     status_dot := status_dot a; status_text := status_text a;
     root := root a |}.
Definition set_scan_line_pos (v : Z) a :=
  {| pulse_state := pulse_state a; alert_flash := alert_flash a;
     scan_line_pos := v; is_critical := is_critical a;
     status_dot := status_dot a; status_text := status_text a;
     root := root a |}.
Definition set_status_dot (v : color) a :=
  {| pulse_state := pulse_state a; alert_flash := alert_flash a;
     scan_line_pos := scan_line_pos a; is_critical := is_critical a;
     status_dot := v; status_text := status_text a;
     root := root a |}.
Definition set_status_text (v : color) a :=
  {| pulse_state := pulse_state a; alert_flash := alert_flash a;
     scan_line_pos := scan_line_pos a; is_critical := is_critical a;
     status_dot := status_dot a; status_text := v;
     root := root a |}.

(** One more timer pending in [self.root]. *)
Definition after (ms : Z) (cb : callback) a :=
  {| pulse_state := pulse_state a; alert_flash := alert_flash a;
     scan_line_pos := scan_line_pos a; is_critical := is_critical a;
     status_dot := status_dot a; status_text := status_text a;
     root := root a ++ [(ms, cb)] |}.

(** [self.root.after(ms, cb)]: a call into Tk, then the timer. *)
Definition root_after (ms : Z) (cb : callback)
  : M SystemCommandCenter unit :=
  tk ;; modify_self (after ms cb).

(** The attributes as [__init__] and [create_header] leave them. *)
Definition init : SystemCommandCenter :=
  {| pulse_state := 0; alert_flash := false; scan_line_pos := 0;
     is_critical := false; status_dot := nominal;
     status_text := nominal; root := [] |}.

(** [a % b] on two ints. *)
Definition mod_ (a b : Z) : outcome Z :=
  if b =? 0 then Raise ZeroDivisionError else Ok (a mod b).

(** The literal [0.5]. *)
Definition half : num :=
  PFloat (S754_finite false 4503599627370496 (-53)).

(** [animate], where [winfo_width] is what
    [self.header_canvas.winfo_width()] returns.  The calls into Tk
    are, in order: [winfo_width], [delete], [create_line], one
    [config] for each widget recoloured and [after]. *)
Definition animate (winfo_width : Z) : M SystemCommandCenter unit :=
  modify_self (fun a => set_pulse_state ((pulse_state a + 1) mod 20) a) ;;
  modify_self (fun a => set_alert_flash (negb (alert_flash a)) a) ;;
  self <- get_self ;;
  tk ;;
  pos <- lift (mod_ (scan_line_pos self + 3) (winfo_width + 100)) ;;
  modify_self (set_scan_line_pos pos) ;;
  tk ;;
  tk ;;
  self <- get_self ;;
  (if is_critical self && alert_flash self then
     tk ;;
     modify_self (set_status_dot critical) ;;
     tk ;;
     modify_self (set_status_text critical)
   else if is_critical self then
     tk ;;
     modify_self (set_status_dot bg_panel)
   else
     pulse <- lift (truediv (PInt (Z.abs (10 - pulse_state self)))
                            (PInt 10)) ;;
     if gt pulse half then
       tk ;;
       modify_self (set_status_dot nominal)
     else
       tk ;;
       modify_self (set_status_dot glow_green)) ;;
  root_after 50 CB_animate.

End V4Animation.

(* ================================================================== *)
(** * system_command_center_v4.py: the storage panel *)
(* ================================================================== *)

Module V4Storage.
Import Py.

(** One entry of the list [get_storage_info] returns. *)
Record disk : Type := {
  device : string;
  total : Z;
  used : Z;
  mount : string;
  percent : Z
}.

(** [s.split('/')[-1]]: what follows the last slash. *)
Fixpoint last_component (acc s : string) : string :=
  match s with
  | EmptyString => acc
  | String c rest =>
      if Ascii.eqb c "/"%char then last_component EmptyString rest
      else last_component (acc ++ String c EmptyString)%string rest
  end.

(** [s.replace('%', '')]. *)
Fixpoint strip_percent (s : string) : string :=
  match s with
  | EmptyString => EmptyString
  | String c rest =>
      if Ascii.eqb c "%"%char then strip_percent rest
      else String c (strip_percent rest)
  end.

(** [x in seen]. *)
Definition mem (x : string) (seen : list string) : bool :=
  existsb (String.eqb x) seen.

(** [p[i]] on a line that has the field. *)
Definition field (i : nat) (p : list string) : string :=
  nth i p EmptyString.

(** Keys of [self.colors] given to a usage percentage. *)
Inductive color : Type :=
| accent_green
| warning
| critical.

Section Parsing.

(** [int(s)]: the number a string denotes, [None] where the
    interpreter raises [ValueError]. *)
Variable int : string -> option Z.

(** The loop of [get_storage_info] over the lines of the [df]
    output, each one given by its fields ([line.split()]). *)
Fixpoint scan (lines : list (list string)) (seen : list string)
         (disks : list disk) : outcome (list disk) :=
  match lines with
  | [] => Ok disks
  | p :: rest =>
      if (6 <=? List.length p)%nat && negb (mem (field 5 p) seen)
      then
        match int (field 1 p), int (field 2 p),
              int (strip_percent (field 4 p)) with
        | Some t, Some u, Some pct =>
            scan rest (field 5 p :: seen)
                 (disks ++ [{| device :=
                                 last_component EmptyString (field 0 p);
                               total := t; used := u;
                               mount := field 5 p;
                               percent := pct |}])
        | _, _, _ => Raise ValueError
        end
      else scan rest seen disks
  end.

Definition get_storage_info (output : list (list string))
  : list disk :=
  match scan output [] [] with
  | Ok disks => disks
  | Raise _ => []
  end.

End Parsing.

(** The text of a row's mount label in [update_storage]. *)
Definition mount_text (m : string) : string :=
  if (String.length m <=? 15)%nat then m
  else (substring 0 12 m ++ "...")%string.

Definition percent_color (pct : Z) : color :=
  if pct <? 70 then accent_green
  else if pct <? 90 then warning
  else critical.

(** The rows [update_storage] builds: the mount label, the percentage
    and its colour. *)
Definition rows (disks : list disk) : list (string * Z * color) :=
  map (fun d => (mount_text (mount d), percent d,
                 percent_color (percent d)))
      (firstn 4 disks).

End V4Storage.

(* ================================================================== *)
(** * temp_monitor.py *)
(* ================================================================== *)

Module TempMonitor.
Import Py Sys Run.
Local Open Scope run_scope.

(** Keys of [self.colors] given to a status label. *)
Inductive color : Type :=
| text_dim
| cool
| warm
| hot.

(** Texts of a status label (each is shown after a bullet). *)
Inductive status : Type :=
| Reading
| Not_detected
| No_temp_sensor_exposed
| Cool
| Normal
| Hot.

(** Callbacks registered with [self.root.after]. *)
Inductive callback : Type :=
| CB_update_temperatures.

(** The two cards -- the temperature shown ([None] for the dashes)
    and the status label -- and the timers pending in [self.root]. *)
Record TemperatureMonitor : Type := {
  gpu_temp_label : option num;
  gpu_status_label : status * color;
  cpu_temp_label : option num;
  cpu_status_label : status * color;
  root : list (Z * callback)
}.

Definition set_gpu_temp_label (v : option num) a :=
  {| gpu_temp_label := v; gpu_status_label := gpu_status_label a;
     cpu_temp_label := cpu_temp_label a;
     cpu_status_label := cpu_status_label a; root := root a |}.
Definition set_gpu_status_label (v : status * color) a :=
  {| gpu_temp_label := gpu_temp_label a; gpu_status_label := v;
     cpu_temp_label := cpu_temp_label a;
     cpu_status_label := cpu_status_label a; root := root a |}.
Definition set_cpu_temp_label (v : option num) a :=
  {| gpu_temp_label := gpu_temp_label a;
     gpu_status_label := gpu_status_label a;
     cpu_temp_label := v;
     cpu_status_label := cpu_status_label a; root := root a |}.
Definition set_cpu_status_label (v : status * color) a :=
  {| gpu_temp_label := gpu_temp_label a;
     gpu_status_label := gpu_status_label a;
     cpu_temp_label := cpu_temp_label a;
     cpu_status_label := v; root := root a |}.
Definition after (ms : Z) (cb : callback) a :=
  {| gpu_temp_label := gpu_temp_label a;
     gpu_status_label := gpu_status_label a;
     cpu_temp_label := cpu_temp_label a;
     cpu_status_label := cpu_status_label a;
     root := root a ++ [(ms, cb)] |}.

(** The cards as [create_card] builds them. *)
Definition init : TemperatureMonitor :=
  {| gpu_temp_label := None; gpu_status_label := (Reading, text_dim);
     cpu_temp_label := None; cpu_status_label := (Reading, text_dim);
     root := [] |}.

(** [get_gpu_temp] and [get_cpu_temp]: the sensor file divided by
    1000 when it exists, else what the [sensors] command shows, and
    [None] on any exception. *)
Definition get_temp (src : source) (f : environment -> nat -> file)
  : M TemperatureMonitor (option num) :=
  try_except
    (file <- observe src f ;;
     match file with
     | Holds z =>
         t <- lift (truediv (PInt z) (PInt 1000)) ;;
         ret (Some t)
     | Unreadable => raise ValueError
     | Absent =>
         t <- observe Shell sensors_temp ;;
         ret (option_map PFloat t)
     end)
    (fun _ => ret None).

Definition get_gpu_temp : M TemperatureMonitor (option num) :=
  get_temp GpuTemp hwmon3_temp1_input.

Definition get_cpu_temp : M TemperatureMonitor (option num) :=
  get_temp CpuTemp hwmon2_temp1_input.

Definition get_temp_status (temp : option num) (is_gpu : bool)
  : status * color :=
  match temp with
  | None => (Not_detected, text_dim)
  | Some temp =>
      if is_gpu then
        if lt temp (PInt 50) then (Cool, cool)
        else if lt temp (PInt 75) then (Normal, warm)
        else (Hot, hot)
      else
        if lt temp (PInt 55) then (Cool, cool)
        else if lt temp (PInt 75) then (Normal, warm)
        else (Hot, hot)
  end.

(** [self.root.after(ms, cb)]: a call into Tk, then the timer. *)
Definition root_after (ms : Z) (cb : callback)
  : M TemperatureMonitor unit :=
  tk ;; modify_self (after ms cb).

(** [update_temperatures]: there is no [try] in it. *)
Definition update_temperatures : M TemperatureMonitor unit :=
  gpu_temp <- get_gpu_temp ;;
  match gpu_temp with
  | Some t =>
      tk ;;
      modify_self (set_gpu_temp_label (Some t)) ;;
      tk ;;
      modify_self (set_gpu_status_label (get_temp_status (Some t) true))
  | None =>
      tk ;;
      modify_self (set_gpu_temp_label None) ;;
      tk ;;
      modify_self (set_gpu_status_label
                     (No_temp_sensor_exposed, text_dim))
  end ;;
  cpu_temp <- get_cpu_temp ;;
  match cpu_temp with
  | Some t =>
      tk ;;
      modify_self (set_cpu_temp_label (Some t)) ;;
      tk ;;
      modify_self (set_cpu_status_label (get_temp_status (Some t) false))
  | None =>
      tk ;;
      modify_self (set_cpu_temp_label None) ;;
      tk ;;
      modify_self (set_cpu_status_label (Not_detected, text_dim))
  end ;;
  root_after 2000 CB_update_temperatures.

End TempMonitor.

(* ================================================================== *)
(** * Concrete systems *)
(* ================================================================== *)

Module Scenario.
Import Py Sys Run.

(** A system where only the clock, the network directory, the disk
    statistics and [/proc/stat] are given; every other source is
    missing and Tk never fails. *)
Definition env_of (clock : nat -> float)
           (net : nat -> option (list iface))
           (disk stat : nat -> option (list line)) : environment :=
  {| time_time := clock;
     sys_class_net := net;
     proc_diskstats := disk;
     proc_stat := stat;
     proc_cpuinfo := fun _ => None;
     pmt_telem := fun _ => None;
     hwmon2_temp1_input := fun _ => Absent;
     hwmon1_temp1_input := fun _ => Absent;
     hwmon3_fan_input := fun _ _ => Absent;
     gt0_act_freq := fun _ => Absent;
     gt0_max_freq := fun _ => Absent;
     mem_info_vram_used := fun _ => Absent;
     mem_info_vram_total := fun _ => Absent;
     tk_error := fun _ => false;
     winfo_width := fun _ => 400;
     shell_error := fun _ => None;
     stdout_error := fun _ => false;
     hwmon3_temp1_input := fun _ => Absent;
     sensors_temp := fun _ => None |}.

Definition nothing {A} : nat -> option A := fun _ => None.

(** One Ethernet interface with the given counters. *)
Definition eth0 (rx tx : Z) : iface :=
  {| iface_name := "eth0"; rx_bytes := Holds rx; tx_bytes := Holds tx |}.

(** The first version, constructed at time 1000; one second later
    the interface has received 1000000 and sent 500000 bytes. *)
Definition v1_first_sample : machine V1.SystemCommandCenter :=
  boot (V1.init (double 1000))
       (env_of (fun _ => double 1001)
               (fun _ => Some [eth0 1000000 500000])
               nothing nothing).

(** The same system under the fourth version. *)
Definition v4_first_sample : machine V4.SystemCommandCenter :=
  boot (V4.init (double 1000) (double 1000) 1 false)
       (env_of (fun _ => double 1001)
               (fun _ => Some [eth0 1000000 500000])
               nothing nothing).

(** Three network samples: at 1001 s the counters read 1000 and 500,
    at 1002 s they read 3000 and 1500, and the third sample is taken
    while the clock still shows 1002 s, with counters 5000 and 2500.
    (A sample reads the directory at an even instant and the clock at
    the next one.) *)
Definition stalled_clock : machine V4.SystemCommandCenter :=
  boot (V4.init (double 1000) (double 1000) 1 false)
       (env_of (fun n => if (n <=? 1)%nat then double 1001
                         else double 1002)
               (fun n => if (n <=? 1)%nat then Some [eth0 1000 500]
                         else if (n <=? 3)%nat then Some [eth0 3000 1500]
                         else Some [eth0 5000 2500])
               nothing nothing).

Definition stalled_clock_1 : machine V4.SystemCommandCenter :=
  snd (V4.get_network_speed stalled_clock).
Definition stalled_clock_2 : machine V4.SystemCommandCenter :=
  snd (V4.get_network_speed stalled_clock_1).

(** One NVMe line of [/proc/diskstats] with the given sector
    counts. *)
Definition nvme0n1 (sectors_read sectors_written : Z) : line :=
  [TNum 259; TNum 0; TWord "nvme0n1"; TNum 10; TNum 0;
   TNum sectors_read; TNum 5; TNum 20; TNum 0; TNum sectors_written;
   TNum 7; TNum 0; TNum 12; TNum 12].

(** Counters that fall back: the first samples (at 1001 s) read 5000
    and 7000 bytes on the network and 50 and 70 sectors on the disk;
    the second ones (at 1002 s) read 100 and 200 bytes, 1 and 2
    sectors. *)
Definition counter_reset : machine V4.SystemCommandCenter :=
  boot (V4.init (double 1000) (double 1000) 1 false)
       (env_of (fun n => if (n <=? 1)%nat then double 1001
                         else double 1002)
               (fun n => if (n <=? 1)%nat then Some [eth0 5000 7000]
                         else Some [eth0 100 200])
               (fun n => if (n <=? 1)%nat then Some [nvme0n1 50 70]
                         else Some [nvme0n1 1 2])
               nothing).

Definition counter_reset_net : machine V4.SystemCommandCenter :=
  snd (V4.get_network_speed counter_reset).
Definition counter_reset_disk : machine V4.SystemCommandCenter :=
  snd (V4.get_disk_io counter_reset).

(** The aggregate line of [/proc/stat], with [idle] as its fourth
    number. *)
Definition cpu_line (name : string) (user nice system idle : Z) : line :=
  [TWord name; TNum user; TNum nice; TNum system; TNum idle].

(** CPU tick counters (idle 1000, total 2000), then (idle 1400, total
    2500); one read of [/proc/stat] per sample. *)
Definition cpu_ticks : machine V4.SystemCommandCenter :=
  boot (V4.init (double 1000) (double 1000) 1 false)
       (env_of (fun _ => double 1001) nothing nothing
               (fun n => if (n <=? 0)%nat
                         then Some [cpu_line "cpu" 600 0 400 1000]
                         else Some [cpu_line "cpu" 650 0 450 1400])).

Definition cpu_ticks_1 : machine V4.SystemCommandCenter :=
  snd (V4.get_cpu_usage cpu_ticks).

(** A one-core system whose [/proc/stat] moves on with every
    instant: at instant [n] both the aggregate line and the line of
    core 0 show [1000 + n] idle ticks out of [2000 + 2 n]. *)
Definition moving_stat (n : nat) : option (list line) :=
  let k := Z.of_nat n in
  Some [cpu_line "cpu" (600 + k) 0 400 (1000 + k);
        cpu_line "cpu0" (600 + k) 0 400 (1000 + k)].

Definition moving_ticks : machine V4.SystemCommandCenter :=
  boot (V4.init (double 1000) (double 1000) 1 false)
       (env_of (fun _ => double 1001) nothing nothing moving_stat).

Definition moving_ticks_1 : machine V4.SystemCommandCenter :=
  snd (V4.update_all moving_ticks).

(** A system in which the fourth call into Tk of every tick run
    here fails, started by the call of [update_all] that ends
    [__init__]. *)
Definition tk_fails : machine V4.SystemCommandCenter :=
  boot (V4.init (double 1000) (double 1000) 1 false)
       {| time_time := fun _ => double 1001;
          sys_class_net := nothing;
          proc_diskstats := nothing;
          proc_stat := nothing;
          proc_cpuinfo := nothing;
          pmt_telem := nothing;
          hwmon2_temp1_input := fun _ => Absent;
          hwmon1_temp1_input := fun _ => Absent;
          hwmon3_fan_input := fun _ _ => Absent;
          gt0_act_freq := fun _ => Absent;
          gt0_max_freq := fun _ => Absent;
          mem_info_vram_used := fun _ => Absent;
          mem_info_vram_total := fun _ => Absent;
          tk_error := fun n => (n mod 4 =? 3)%nat;
          winfo_width := fun _ => 400;
          shell_error := fun _ => None;
          stdout_error := fun _ => false;
          hwmon3_temp1_input := fun _ => Absent;
          sensors_temp := fun _ => None |}.

Definition tk_fails_started : machine V4.SystemCommandCenter :=
  snd (V4.update_all tk_fails).

(** A system given by its CPU temperature file, its
    [/proc/cpuinfo] and its fan files; nothing else can be read. *)
Definition sensors_of (cpu_temp : nat -> file)
           (cpuinfo : nat -> option (list cpuinfo_line))
           (fan : nat -> nat -> file) : environment :=
  {| time_time := fun _ => double 1001;
     sys_class_net := nothing;
     proc_diskstats := nothing;
     proc_stat := nothing;
     proc_cpuinfo := cpuinfo;
     pmt_telem := nothing;
     hwmon2_temp1_input := cpu_temp;
     hwmon1_temp1_input := fun _ => Absent;
     hwmon3_fan_input := fan;
     gt0_act_freq := fun _ => Absent;
     gt0_max_freq := fun _ => Absent;
     mem_info_vram_used := fun _ => Absent;
     mem_info_vram_total := fun _ => Absent;
     tk_error := fun _ => false;
     winfo_width := fun _ => 400;
     shell_error := fun _ => None;
     stdout_error := fun _ => false;
     hwmon3_temp1_input := fun _ => Absent;
     sensors_temp := fun _ => None |}.

(** No [/proc/cpuinfo] and no fan file at all. *)
Definition no_sensors : machine V4.SystemCommandCenter :=
  boot (V4.init (double 1000) (double 1000) 1 false)
       (sensors_of (fun _ => Absent) nothing (fun _ _ => Absent)).

(** A [cpu MHz : 0.000] line, and three fans that stand still. *)
Definition zero_readings : machine V4.SystemCommandCenter :=
  boot (V4.init (double 1000) (double 1000) 1 false)
       (sensors_of (fun _ => Absent)
                   (fun _ => Some [{| has_MHz := true;
                                      colon_digits := Some 0 |}])
                   (fun _ _ => Holds 0)).

(** The CPU sensor reads 40000 millidegrees until instant 40 and its
    file is missing from then on: the first tick reads it at instant
    15, the second tick looks for it at instant 62. *)
Definition cpu_sensor_lost : machine V4.SystemCommandCenter :=
  boot (V4.init (double 1000) (double 1000) 1 false)
       (sensors_of (fun n => if (n <? 40)%nat then Holds 40000
                             else Absent)
                   nothing (fun _ _ => Absent)).

Definition cpu_sensor_lost_1 : machine V4.SystemCommandCenter :=
  snd (V4.update_all cpu_sensor_lost).
Definition cpu_sensor_lost_2 : machine V4.SystemCommandCenter :=
  snd (V4.update_all cpu_sensor_lost_1).

(** A privileged program whose telemetry region holds the given
    bytes. *)
Definition telemetry (data : list Byte.byte)
  : machine V4.SystemCommandCenter :=
  boot (V4.init (double 1000) (double 1000) 1 true)
       {| time_time := fun _ => double 1001;
          sys_class_net := nothing;
          proc_diskstats := nothing;
          proc_stat := nothing;
          proc_cpuinfo := nothing;
          pmt_telem := fun _ => Some data;
          hwmon2_temp1_input := fun _ => Absent;
          hwmon1_temp1_input := fun _ => Absent;
          hwmon3_fan_input := fun _ _ => Absent;
          gt0_act_freq := fun _ => Absent;
          gt0_max_freq := fun _ => Absent;
          mem_info_vram_used := fun _ => Absent;
          mem_info_vram_total := fun _ => Absent;
          tk_error := fun _ => false;
          winfo_width := fun _ => 400;
          shell_error := fun _ => None;
          stdout_error := fun _ => false;
          hwmon3_temp1_input := fun _ => Absent;
          sensors_temp := fun _ => None |}.

(** A region of only 100 bytes. *)
Definition short_telemetry : machine V4.SystemCommandCenter :=
  telemetry (repeat Byte.x00 100).

(** A telemetry region whose fields at 0xa4 and 0xa8 hold 80 and
    70. *)
Definition hot_gpu : machine V4.SystemCommandCenter :=
  telemetry (repeat Byte.x00 164
             ++ [Byte.x50; Byte.x00; Byte.x00; Byte.x00;
                 Byte.x46; Byte.x00; Byte.x00; Byte.x00]).

(** Three fans at 1200, 0 and 900 RPM, the second file unreadable. *)
Definition three_fans : machine V4.SystemCommandCenter :=
  boot (V4.init (double 1000) (double 1000) 1 false)
       (sensors_of (fun _ => Absent) nothing
                   (fun i _ => match i with
                               | 1%nat => Holds 1200
                               | 2%nat => Unreadable
                               | _ => Holds 900
                               end)).

(** A disk statistics file whose NVMe line has a word where the
    sectors read should be, in a program that already holds a
    sample. *)
Definition garbled_diskstats : machine V4.SystemCommandCenter :=
  snd (V4.get_disk_io
         (boot (V4.init (double 1000) (double 1000) 1 false)
               (env_of (fun _ => double 1001) nothing
                       (fun n => if (n <=? 1)%nat
                                 then Some [nvme0n1 50 70]
                                 else Some [[TNum 259; TNum 0;
                                             TWord "nvme0n1"; TNum 10;
                                             TNum 0; TWord "?"; TNum 5;
                                             TNum 20; TNum 0; TNum 70;
                                             TNum 7; TNum 0; TNum 12;
                                             TNum 12]])
                       nothing))).

(** The header just built, in a system whose Tk works. *)
Definition header : machine V4Animation.SystemCommandCenter :=
  boot V4Animation.init
       (env_of (fun _ => double 1000) nothing nothing nothing).

(** The same header once its window is gone: every call into Tk
    fails. *)
Definition header_destroyed
  : machine V4Animation.SystemCommandCenter :=
  boot V4Animation.init
       {| time_time := fun _ => double 1000;
          sys_class_net := nothing;
          proc_diskstats := nothing;
          proc_stat := nothing;
          proc_cpuinfo := nothing;
          pmt_telem := nothing;
          hwmon2_temp1_input := fun _ => Absent;
          hwmon1_temp1_input := fun _ => Absent;
          hwmon3_fan_input := fun _ _ => Absent;
          gt0_act_freq := fun _ => Absent;
          gt0_max_freq := fun _ => Absent;
          mem_info_vram_used := fun _ => Absent;
          mem_info_vram_total := fun _ => Absent;
          tk_error := fun _ => true;
          winfo_width := fun _ => 400;
          shell_error := fun _ => None;
          stdout_error := fun _ => false;
          hwmon3_temp1_input := fun _ => Absent;
          sensors_temp := fun _ => None |}.

(** [int] on strings of decimal digits; anything else is refused. *)
Definition digit (c : ascii) : option Z :=
  let n := Z.of_nat (nat_of_ascii c) in
  if (48 <=? n) && (n <=? 57) then Some (n - 48) else None.

Fixpoint decimal_from (acc : Z) (s : string) : option Z :=
  match s with
  | EmptyString => Some acc
  | String c rest =>
      match digit c with
      | Some d => decimal_from (10 * acc + d) rest
      | None => None
      end
  end.

Definition decimal (s : string) : option Z :=
  match s with
  | EmptyString => None
  | _ => decimal_from 0 s
  end.

(** Three lines of [df] output: the root file system, a second
    line for the same mount point and a home partition. *)
Definition df_output : list (list string) :=
  [["/dev/nvme0n1p2"; "500000"; "200000"; "300000"; "40%"; "/"];
   ["/dev/nvme0n1p2"; "500000"; "450000"; "50000"; "90%"; "/"];
   ["/dev/sda1"; "900000"; "855000"; "45000"; "95%"; "/home"]]%string.

(** The same output with a dash where a size should be. *)
Definition df_output_garbled : list (list string) :=
  [["/dev/nvme0n1p2"; "500000"; "200000"; "300000"; "40%"; "/"];
   ["/dev/sda1"; "-"; "855000"; "45000"; "95%"; "/home"]]%string.

(** The network counters fall from 5000 and 7000 to zero, and one
    second later they read 700 and 300. *)
Definition reset_to_zero : machine V4.SystemCommandCenter :=
  boot (V4.init (double 1000) (double 1000) 1 false)
       (env_of (fun n => if (n <=? 1)%nat then double 1001
                         else if (n <=? 3)%nat then double 1002
                         else double 1003)
               (fun n => if (n <=? 1)%nat then Some [eth0 5000 7000]
                         else if (n <=? 3)%nat then Some [eth0 0 0]
                         else Some [eth0 700 300])
               nothing nothing).

Definition reset_to_zero_1 : machine V4.SystemCommandCenter :=
  snd (V4.get_network_speed reset_to_zero).
Definition reset_to_zero_2 : machine V4.SystemCommandCenter :=
  snd (V4.get_network_speed reset_to_zero_1).

(** The system [e] with another Tk. *)
Definition with_tk (err : nat -> bool) (e : environment)
  : environment :=
  {| time_time := time_time e;
     sys_class_net := sys_class_net e;
     proc_diskstats := proc_diskstats e;
     proc_stat := proc_stat e;
     proc_cpuinfo := proc_cpuinfo e;
     pmt_telem := pmt_telem e;
     hwmon2_temp1_input := hwmon2_temp1_input e;
     hwmon1_temp1_input := hwmon1_temp1_input e;
     hwmon3_fan_input := hwmon3_fan_input e;
     gt0_act_freq := gt0_act_freq e;
     gt0_max_freq := gt0_max_freq e;
     mem_info_vram_used := mem_info_vram_used e;
     mem_info_vram_total := mem_info_vram_total e;
     tk_error := err;
     winfo_width := winfo_width e;
     shell_error := shell_error e;
     stdout_error := stdout_error e;
     hwmon3_temp1_input := hwmon3_temp1_input e;
     sensors_temp := sensors_temp e |}.

(** The system [e] with the given VRAM files. *)
Definition with_vram (used total : Z) (e : environment)
  : environment :=
  {| time_time := time_time e;
     sys_class_net := sys_class_net e;
     proc_diskstats := proc_diskstats e;
     proc_stat := proc_stat e;
     proc_cpuinfo := proc_cpuinfo e;
     pmt_telem := pmt_telem e;
     hwmon2_temp1_input := hwmon2_temp1_input e;
     hwmon1_temp1_input := hwmon1_temp1_input e;
     hwmon3_fan_input := hwmon3_fan_input e;
     gt0_act_freq := gt0_act_freq e;
     gt0_max_freq := gt0_max_freq e;
     mem_info_vram_used := fun _ => Holds used;
     mem_info_vram_total := fun _ => Holds total;
     tk_error := tk_error e;
     winfo_width := winfo_width e;
     shell_error := shell_error e;
     stdout_error := stdout_error e;
     hwmon3_temp1_input := hwmon3_temp1_input e;
     sensors_temp := sensors_temp e |}.

(** A quiet system: nothing can be read and nothing fails. *)
Definition quiet_system : environment :=
  env_of (fun _ => double 1001) nothing nothing nothing.

(** The application has been destroyed: every call into Tk fails. *)
Definition tk_gone : machine V4.SystemCommandCenter :=
  boot (V4.init (double 1000) (double 1000) 1 false)
       (with_tk (fun _ => true) quiet_system).

Definition v1_tk_gone : machine V1.SystemCommandCenter :=
  boot (V1.init (double 1000)) (with_tk (fun _ => true) quiet_system).

(** A VRAM counter that reads [10 ** 320] bytes of 16 GiB. *)
Definition huge_vram : machine V4.SystemCommandCenter :=
  boot (V4.init (double 1000) (double 1000) 1 false)
       (with_vram (10 ^ 320) (16 * 1024 ^ 3) quiet_system).

(** The temperature monitor with a CPU sensor at 45 degrees and no
    GPU sensor, and the same once its window is gone. *)
Definition monitor : machine TempMonitor.TemperatureMonitor :=
  boot TempMonitor.init
       (sensors_of (fun _ => Holds 45000) nothing (fun _ _ => Absent)).

Definition monitor_destroyed
  : machine TempMonitor.TemperatureMonitor :=
  boot TempMonitor.init
       (with_tk (fun _ => true)
                (sensors_of (fun _ => Holds 45000) nothing
                            (fun _ _ => Absent))).

End Scenario.

(* ================================================================== *)
(** * Facts about Python numbers *)
(* ================================================================== *)

Module PyFacts.
Import Py.

Lemma xcompare_antisym (a b : xreal) (c : comparison) :
  xcompare a b = Some c -> xcompare b a = Some (CompOpp c).
Proof.
  destruct a, b; simpl; intros H; try discriminate;
    injection H as H; subst; try reflexivity.
  now rewrite <- Qcompare_antisym.
Qed.

Lemma xcompare_refl (a : xreal) :
  xcompare a a = None \/ xcompare a a = Some Eq.
Proof.
  destruct a; simpl; auto.
  right. f_equal. apply Qeq_alt. reflexivity.
Qed.

Lemma xcompare_lt_trans (a b c : xreal) :
  xcompare a b = Some Lt -> xcompare b c = Some Lt ->
  xcompare a c = Some Lt.
Proof.
  destruct a, b, c; simpl; intros H1 H2;
    try discriminate; try reflexivity.
  injection H1 as H1. injection H2 as H2.
  f_equal. apply Qlt_alt. apply Qlt_alt in H1. apply Qlt_alt in H2.
  eapply Qlt_trans; eauto.
Qed.

Lemma lt_irrefl (a : num) : lt a a = false.
Proof.
  unfold lt, compare.
  destruct (xcompare_refl (value a)) as [H | H]; now rewrite H.
Qed.

Lemma lt_asym (a b : num) : lt a b = true -> lt b a = false.
Proof.
  unfold lt, compare. intros H.
  destruct (xcompare (value a) (value b)) as [[ | | ] | ] eqn:E;
    try discriminate.
  now rewrite (xcompare_antisym _ _ _ E).
Qed.

Lemma le_not_lt (a b : num) : le a b = true -> lt b a = false.
Proof.
  unfold le, lt, compare. intros H.
  destruct (xcompare (value a) (value b)) as [[ | | ] | ] eqn:E;
    try discriminate; now rewrite (xcompare_antisym _ _ _ E).
Qed.

Lemma ge_not_lt (a b : num) : ge a b = true -> lt a b = false.
Proof.
  unfold ge, lt. now destruct (compare a b) as [[ | | ] | ].
Qed.

Lemma gt_lt (a b : num) : gt a b = lt b a.
Proof.
  unfold gt, lt, compare.
  destruct (xcompare (value a) (value b)) as [[ | | ] | ] eqn:E.
  - now rewrite (xcompare_antisym _ _ _ E).
  - now rewrite (xcompare_antisym _ _ _ E).
  - now rewrite (xcompare_antisym _ _ _ E).
  - destruct (xcompare (value b) (value a)) as [c | ] eqn:E'; auto.
    apply xcompare_antisym in E'. congruence.
Qed.

(** Below the low threshold of an ordered pair is below the high one:
    [low < high <= v] leaves [v < low] false. *)
Lemma lt_ge_not_lt (low high v : num) :
  lt low high = true -> ge v high = true -> lt v low = false.
Proof.
  unfold lt, ge, compare. intros H1 H2.
  destruct (xcompare (value low) (value high)) as [[ | | ] | ] eqn:E1;
    try discriminate.
  destruct (xcompare (value v) (value high)) as [[ | | ] | ] eqn:E2;
    try discriminate.
  - destruct (xcompare (value v) (value low)) as [[ | | ] | ] eqn:E3;
      auto.
    pose proof (xcompare_lt_trans _ _ _ E3 E1). congruence.
  - destruct (xcompare (value v) (value low)) as [[ | | ] | ] eqn:E3;
      auto.
    pose proof (xcompare_lt_trans _ _ _ E3 E1). congruence.
Qed.
End PyFacts.

(** ** Signs of quotients *)

Module SignFacts.
Import Py.

(** A float that carries the minus sign, or is not a number. *)
Definition minus_signed (f : float) : Prop :=
  match f with
  | S754_nan => True
  | S754_zero s | S754_infinity s | S754_finite s _ _ => s = true
  end.

Lemma minus_signed_not_gt_0 (f : float) :
  minus_signed f -> gt (PFloat f) (PInt 0) = false.
Proof.
  destruct f as [s | s | | s m e]; simpl; intros H; subst;
    try reflexivity.
  unfold gt, compare. cbn [value float_value cond_Zopp Z.opp].
  destruct e as [ | p | p]; try reflexivity.
  cbn [xcompare]. unfold Qcompare. cbn [Qnum Qden inject_Z].
  assert (0 < 2 ^ Z.pos p) by (apply Z.pow_pos_nonneg; lia).
  destruct (Z.compare_spec (Z.neg m * 2 ^ Z.pos p * 1) (0 * 1));
    try reflexivity; nia.
Qed.

Lemma gt_0_positive (f : float) :
  gt (PFloat f) (PInt 0) = true ->
  f = S754_infinity false \/ exists m e, f = S754_finite false m e.
Proof.
  destruct f as [s | s | | s m e]; try discriminate.
  - destruct s; [discriminate | auto].
  - destruct s; [ | eauto].
    intros H. now rewrite minus_signed_not_gt_0 in H.
Qed.

Lemma binary_round_aux_sign (s : bool) (m e : Z) (l : location) :
  match binary_round_aux prec emax s m e l with
  | S754_nan => True
  | S754_zero s' | S754_infinity s' | S754_finite s' _ _ => s' = s
  end.
Proof.
  unfold binary_round_aux.
  destruct (shr_fexp prec emax m e l) as [mrs' e'].
  destruct (shr_fexp prec emax _ e' loc_Exact) as [mrs'' e''].
  destruct (shr_m mrs''); auto.
  destruct (e'' <=? emax - prec); auto.
Qed.

Lemma float_of_int_neg (z : Z) (f : float) :
  z < 0 -> float_of_int z = Ok f -> minus_signed f.
Proof.
  unfold float_of_int. intros Hz.
  destruct (Z.abs z <? overflow_bound); [ | discriminate].
  intros H. injection H as <-.
  destruct z as [ | p | p]; try lia.
  unfold double, binary_normalize, binary_round.
  destruct (shl_align _ _ _) as [mz ez].
  pose proof (binary_round_aux_sign true (Z.pos mz) ez loc_Exact) as A.
  destruct (binary_round_aux _ _ _ _ _ _); simpl; auto.
Qed.

Lemma SFdiv_minus_signed (x y : float) :
  minus_signed x -> gt (PFloat y) (PInt 0) = true ->
  minus_signed (SFdiv prec emax x y).
Proof.
  intros Hx Hy.
  destruct (gt_0_positive _ Hy) as [-> | (m & e & ->)].
  - destruct x; simpl in *; subst; auto.
  - destruct x as [s | s | | s mx ex]; simpl in Hx; subst;
      try exact I; try reflexivity.
    unfold SFdiv.
    destruct (SFdiv_core_binary _ _ _ _ _ _) as [[mz ez] lz].
    pose proof (binary_round_aux_sign (xorb true false) mz ez lz) as A.
    destruct (binary_round_aux _ _ _ _ _ _); simpl in *; auto.
Qed.

(** A rate computed from a negative delta is reported as 0. *)
Lemma negative_delta_rate (delta : Z) (elapsed : float) (r : num) :
  delta < 0 -> gt (PFloat elapsed) (PInt 0) = true ->
  truediv (PInt delta) (PFloat elapsed) = Ok r ->
  max2 (PInt 0) r = PInt 0.
Proof.
  intros Hd He. unfold truediv, to_float.
  destruct (float_of_int delta) as [x | ] eqn:Ex; [ | discriminate].
  unfold float_truediv. destruct (is_zero elapsed); [discriminate | ].
  intros H. injection H as <-.
  unfold max2.
  rewrite minus_signed_not_gt_0; auto.
  apply SFdiv_minus_signed; auto.
  eapply float_of_int_neg; eauto.
Qed.

Lemma truediv_int_float_ok (delta : Z) (elapsed : float) :
  Z.abs delta < overflow_bound ->
  gt (PFloat elapsed) (PInt 0) = true ->
  exists r, truediv (PInt delta) (PFloat elapsed) = Ok r.
Proof.
  intros Hd He. unfold truediv, to_float, float_of_int.
  apply Z.ltb_lt in Hd. rewrite Hd.
  unfold float_truediv.
  destruct (gt_0_positive _ He) as [-> | (m & e & ->)]; simpl; eauto.
Qed.
End SignFacts.

(* ================================================================== *)
(** * Facts about statements *)
(* ================================================================== *)

Module RunFacts.
Import Py Sys Run.
Local Open Scope nat_scope.

Section Frames.
Context {S : Type}.

(** What no sampler changes: the system, the timers and the printed
    messages stay; time only advances; the trace only grows. *)
Definition evolves (m m' : machine S) : Prop :=
  env m' = env m /\ timers m' = timers m /\ printed m' = printed m
  /\ instant m <= instant m'
  /\ exists l, trace m' = trace m ++ l.

Lemma evolves_refl (m : machine S) : evolves m m.
Proof.
  repeat split; auto. exists []. now rewrite app_nil_r.
Qed.

Lemma evolves_trans (a b c : machine S) :
  evolves a b -> evolves b c -> evolves a c.
Proof.
  intros (E1 & T1 & P1 & I1 & l1 & L1) (E2 & T2 & P2 & I2 & l2 & L2).
  repeat split; try congruence; try lia.
  exists (l1 ++ l2). rewrite L2, L1. now rewrite app_assoc.
Qed.

Lemma evolves_advance (src : source) (m : machine S) :
  evolves m (advance src m).
Proof.
  repeat split; cbn; auto. eexists; reflexivity.
Qed.

Lemma evolves_with_self (f : S -> S) (m : machine S) :
  evolves m (with_self f m).
Proof.
  repeat split; cbn; auto. exists []. now rewrite app_nil_r.
Qed.

Definition steady {A} (c : M S A) : Prop :=
  forall m, evolves m (snd (c m)).

Lemma steady_ret {A} (a : A) : steady (ret a).
Proof. intros m. apply evolves_refl. Qed.

Lemma steady_raise {A} (e : exn) : steady (@raise S A e).
Proof. intros m. apply evolves_refl. Qed.

Lemma steady_lift {A} (o : outcome A) : steady (lift o).
Proof. intros m. apply evolves_refl. Qed.

Lemma steady_get_self : steady (@get_self S).
Proof. intros m. apply evolves_refl. Qed.

Lemma steady_modify_self (f : S -> S) : steady (modify_self f).
Proof. intros m. apply evolves_with_self. Qed.

Lemma steady_observe {A} (src : source) (f : environment -> nat -> A) :
  steady (observe src f).
Proof. intros m. apply evolves_advance. Qed.

Lemma steady_read_text {A} (src : source)
      (f : environment -> nat -> option A) :
  steady (read_text src f).
Proof.
  intros m. unfold read_text.
  destruct (f _ _); apply evolves_advance.
Qed.

Lemma steady_read_int (src : source) (f : environment -> nat -> file) :
  steady (@read_int S src f).
Proof.
  intros m. unfold read_int.
  destruct (f _ _); apply evolves_advance.
Qed.

Lemma steady_tk : steady (@tk S).
Proof.
  intros m. unfold tk.
  destruct (tk_error _ _); apply evolves_advance.
Qed.

Lemma steady_tk_int (f : environment -> nat -> Z) :
  steady (@tk_int S f).
Proof.
  intros m. unfold tk_int.
  destruct (tk_error _ _); apply evolves_advance.
Qed.

Lemma steady_shell : steady (@shell S).
Proof.
  intros m. unfold shell.
  destruct (shell_error _ _); apply evolves_advance.
Qed.

Lemma steady_bind {A B} (c : M S A) (k : A -> M S B) :
  steady c -> (forall a, steady (k a)) -> steady (bind c k).
Proof.
  intros Hc Hk m. unfold bind.
  specialize (Hc m). destruct (c m) as [[a | e] m1]; cbn in *; auto.
  eapply evolves_trans; [exact Hc | apply Hk].
Qed.

Lemma steady_try_except {A} (c : M S A) (h : exn -> M S A) :
  steady c -> (forall e, steady (h e)) -> steady (try_except c h).
Proof.
  intros Hc Hh m. unfold try_except.
  specialize (Hc m). destruct (c m) as [[a | e] m1]; cbn in *; auto.
  eapply evolves_trans; [exact Hc | apply Hh].
Qed.

Lemma steady_for_each {A} (l : list A) (body : A -> M S unit) :
  (forall a, steady (body a)) -> steady (for_each l body).
Proof.
  intros Hb. induction l as [ | x t IH]; cbn [for_each].
  - apply steady_ret.
  - apply steady_bind; auto.
Qed.

(** Whether a tick built the way [update_all] is -- the sampling
    pass under [try]/[except] with a print, then [root.after] --
    gets to schedule the next one: after a pass that returned, the
    call of [root.after] must succeed; after a pass that raised,
    the [print] and then the call of [root.after] must. *)
Definition schedules (pass : M S unit) (m : machine S) : bool :=
  let m1 := snd (pass m) in
  match fst (pass m) with
  | Ok _ => negb (tk_error (env m1) (instant m1))
  | Raise _ =>
      negb (stdout_error (env m1) (instant m1))
      && negb (tk_error (env m1) (Datatypes.S (instant m1)))
  end.

(** Such a tick catches whatever the pass raises; it schedules its
    callback exactly when [schedules] says so, and otherwise it
    raises what [print] or [root.after] raised and leaves the timers
    as they were. *)
Lemma pass_then_after (pass : M S unit) (ms : Z) (cb : callback)
      (m : machine S) :
  steady pass ->
  let r := bind (try_except pass (fun e => print e))
                (fun _ => root_after ms cb) m in
  (schedules pass m = true ->
   fst r = Ok tt
   /\ timers (snd r) = timers m ++ [(ms, cb)]
   /\ (fst (pass m) = Ok tt /\ printed (snd r) = printed m
       \/ exists e, fst (pass m) = Raise e
                    /\ printed (snd r) = printed m ++ [e]))
  /\ (schedules pass m = false ->
      (fst r = Raise TclError \/ fst r = Raise OSError)
      /\ timers (snd r) = timers m).
Proof.
  intros Hp r. subst r. specialize (Hp m).
  unfold schedules, bind, try_except, print, root_after.
  destruct (pass m) as [[[] | e] m1]; cbn in *;
    destruct Hp as (_ & T & P & _).
  - destruct (tk_error (env m1) (instant m1)); cbn; split;
      intros H; try discriminate H; rewrite ?T, ?P; auto.
  - destruct (stdout_error (env m1) (instant m1)); cbn.
    + split; intros H; [discriminate H | ]. rewrite T. auto.
    + destruct (tk_error (env m1) (Datatypes.S (instant m1))); cbn;
        split; intros H; try discriminate H; rewrite ?T, ?P; auto.
      split; [reflexivity | ]. split; [reflexivity | ].
      right. eauto.
Qed.

(** Statements that only compute on [self]: they read nothing,
    and their result and the new [self] are functions of the old
    [self]. *)
Definition quiet (m m' : machine S) : Prop :=
  env m' = env m /\ instant m' = instant m /\ trace m' = trace m
  /\ timers m' = timers m /\ printed m' = printed m.

Definition selfish {A} (c : M S A) : Prop :=
  forall m,
    quiet m (snd (c m))
    /\ forall m', self m' = self m ->
                  fst (c m') = fst (c m)
                  /\ self (snd (c m')) = self (snd (c m)).

Lemma quiet_refl (m : machine S) : quiet m m.
Proof. repeat split. Qed.

Lemma quiet_trans (a b c : machine S) :
  quiet a b -> quiet b c -> quiet a c.
Proof.
  intros (E1 & I1 & T1 & R1 & P1) (E2 & I2 & T2 & R2 & P2).
  repeat split; congruence.
Qed.

Lemma selfish_ret {A} (a : A) : selfish (ret a).
Proof. intros m. split; [apply quiet_refl | auto]. Qed.

Lemma selfish_raise {A} (e : exn) : selfish (@raise S A e).
Proof. intros m. split; [apply quiet_refl | auto]. Qed.

Lemma selfish_lift {A} (o : outcome A) : selfish (lift o).
Proof. intros m. split; [apply quiet_refl | auto]. Qed.

Lemma selfish_get_self : selfish (@get_self S).
Proof.
  intros m. split; [apply quiet_refl | ].
  intros m' H. cbn. now rewrite H.
Qed.

Lemma selfish_modify_self (f : S -> S) : selfish (modify_self f).
Proof.
  intros m. split; [repeat split | ].
  intros m' H. cbn. now rewrite H.
Qed.

Lemma selfish_bind {A B} (c : M S A) (k : A -> M S B) :
  selfish c -> (forall a, selfish (k a)) -> selfish (bind c k).
Proof.
  intros Hc Hk m. destruct (Hc m) as [Q D]. unfold bind. split.
  - destruct (c m) as [[a | e] m1]; cbn in *; auto.
    eapply quiet_trans; [exact Q | apply Hk].
  - intros m' Hs. destruct (D m' Hs) as [F G].
    destruct (c m) as [[a | e] m1], (c m') as [[a' | e'] m1'];
      cbn in *; try discriminate;
      [ | split; [congruence | assumption]].
    injection F as ->. apply (Hk a m1). exact G.
Qed.

Lemma selfish_try_except {A} (c : M S A) (h : exn -> M S A) :
  selfish c -> (forall e, selfish (h e)) -> selfish (try_except c h).
Proof.
  intros Hc Hh m. destruct (Hc m) as [Q D]. unfold try_except. split.
  - destruct (c m) as [[a | e] m1]; cbn in *; auto.
    eapply quiet_trans; [exact Q | apply Hh].
  - intros m' Hs. destruct (D m' Hs) as [F G].
    destruct (c m) as [[a | e] m1], (c m') as [[a' | e'] m1'];
      cbn in *; try discriminate; [split; assumption | ].
    injection F as ->. apply (Hh e m1). exact G.
Qed.

(** A sampler that reads one source and then only computes: it
    makes exactly that one read, at the instant it is called, and
    what it returns and stores is determined by what the source
    held at that instant. *)
Lemma one_read {A B} (src : source)
      (f : environment -> nat -> option A)
      (k : A -> M S B) (h : exn -> M S B) (m : machine S) :
  (forall a, selfish (k a)) -> (forall e, selfish (h e)) ->
  let c := try_except (bind (read_text src f) k) h in
  trace (snd (c m)) = trace m ++ [(src, instant m)]
  /\ instant (snd (c m)) = Datatypes.S (instant m)
  /\ forall m', self m' = self m ->
                f (env m') (instant m') = f (env m) (instant m) ->
                fst (c m') = fst (c m)
                /\ self (snd (c m')) = self (snd (c m)).
Proof.
  intros Hk Hh c.
  assert (Hsplit : forall x : machine S,
             c x = match f (env x) (instant x) with
                   | Some a => try_except (k a) h (advance src x)
                   | None => h OSError (advance src x)
                   end).
  { intros x. unfold c, try_except, bind, read_text.
    destruct (f (env x) (instant x)); reflexivity. }
  assert (Hq : quiet (advance src m) (snd (c m))).
  { rewrite Hsplit. destruct (f (env m) (instant m)) as [a | ].
    - apply (selfish_try_except (k a) h (Hk a) Hh).
    - apply Hh. }
  destruct Hq as (_ & I & T & _).
  split; [exact T | split; [exact I | ]].
  intros m' Hs Hf. rewrite !Hsplit, Hf.
  destruct (f (env m) (instant m)) as [a | ].
  - apply (selfish_try_except (k a) h (Hk a) Hh). exact Hs.
  - apply (Hh OSError). exact Hs.
Qed.

End Frames.
End RunFacts.

(* ================================================================== *)
(** * Invariants of [self] and statements that complete *)
(* ================================================================== *)

Module InvFacts.
Import Py Sys Run RunFacts.

Section Invariants.
Context {S : Type}.
Variable P : S -> Prop.

(** [c] keeps the property [P] of [self], also when it raises. *)
Definition keeps {A} (c : M S A) : Prop :=
  forall m, P (self m) -> P (self (snd (c m))).

Lemma keeps_ret {A} (a : A) : keeps (ret a).
Proof. intros m H; exact H. Qed.

Lemma keeps_raise {A} (e : exn) : keeps (@raise S A e).
Proof. intros m H; exact H. Qed.

Lemma keeps_lift {A} (o : outcome A) : keeps (lift o).
Proof. intros m H; exact H. Qed.

Lemma keeps_get_self : keeps (@get_self S).
Proof. intros m H; exact H. Qed.

Lemma keeps_modify_self (f : S -> S) :
  (forall a, P a -> P (f a)) -> keeps (modify_self f).
Proof. intros Hf m H. now apply Hf. Qed.

Lemma keeps_observe {A} (src : source) (f : environment -> nat -> A) :
  keeps (observe src f).
Proof. intros m H; exact H. Qed.

Lemma keeps_read_text {A} (src : source)
      (f : environment -> nat -> option A) :
  keeps (read_text src f).
Proof. intros m H. unfold read_text. now destruct (f _ _). Qed.

Lemma keeps_read_int (src : source) (f : environment -> nat -> file) :
  keeps (@read_int S src f).
Proof. intros m H. unfold read_int. now destruct (f _ _). Qed.

Lemma keeps_tk : keeps (@tk S).
Proof. intros m H. unfold tk. now destruct (tk_error _ _). Qed.

Lemma keeps_tk_int (f : environment -> nat -> Z) :
  keeps (@tk_int S f).
Proof. intros m H. unfold tk_int. now destruct (tk_error _ _). Qed.

Lemma keeps_shell : keeps (@shell S).
Proof. intros m H. unfold shell. now destruct (shell_error _ _). Qed.

Lemma keeps_print (e : exn) : keeps (@print S e).
Proof. intros m H. unfold print. now destruct (stdout_error _ _). Qed.

Lemma keeps_root_after (ms : Z) (cb : callback) :
  keeps (@root_after S ms cb).
Proof.
  intros m H. unfold root_after. now destruct (tk_error _ _).
Qed.

Lemma keeps_bind {A B} (c : M S A) (k : A -> M S B) :
  keeps c -> (forall a, keeps (k a)) -> keeps (bind c k).
Proof.
  intros Hc Hk m H. unfold bind. specialize (Hc m H).
  destruct (c m) as [[a | e] m1]; cbn in *; auto. now apply Hk.
Qed.

Lemma keeps_try_except {A} (c : M S A) (h : exn -> M S A) :
  keeps c -> (forall e, keeps (h e)) -> keeps (try_except c h).
Proof.
  intros Hc Hh m H. unfold try_except. specialize (Hc m H).
  destruct (c m) as [[a | e] m1]; cbn in *; auto. now apply Hh.
Qed.

Lemma keeps_for_each {A} (l : list A) (body : A -> M S unit) :
  (forall a, keeps (body a)) -> keeps (for_each l body).
Proof.
  intros Hb. induction l as [ | x t IH]; cbn [for_each].
  - apply keeps_ret.
  - apply keeps_bind; auto.
Qed.

(** A system whose Tk never fails. *)
Definition calm (m : machine S) : Prop :=
  forall n, tk_error (env m) n = false.

(** In a calm system and from a [self] with [P], [c] returns
    normally, in the same system and with [P] again. *)
Definition completes {A} (c : M S A) : Prop :=
  forall m, calm m -> P (self m) ->
            env (snd (c m)) = env m /\ P (self (snd (c m)))
            /\ exists a, fst (c m) = Ok a.

Lemma completes_ret {A} (a : A) : completes (ret a).
Proof. intros m _ H. cbn. eauto. Qed.

Lemma completes_lift_ok {A} (a : A) : completes (lift (Ok a)).
Proof. intros m _ H. cbn. eauto. Qed.

Lemma completes_get_self : completes (@get_self S).
Proof. intros m _ H. cbn. eauto. Qed.

Lemma completes_modify_self (f : S -> S) :
  (forall a, P a -> P (f a)) -> completes (modify_self f).
Proof. intros Hf m _ H. cbn. eauto. Qed.

Lemma completes_observe {A} (src : source)
      (f : environment -> nat -> A) :
  completes (observe src f).
Proof. intros m _ H. cbn. eauto. Qed.

Lemma completes_tk : completes (@tk S).
Proof. intros m Hc H. unfold tk. rewrite Hc. cbn. eauto. Qed.

Lemma completes_tk_int (f : environment -> nat -> Z) :
  completes (@tk_int S f).
Proof. intros m Hc H. unfold tk_int. rewrite Hc. cbn. eauto. Qed.

Lemma completes_bind {A B} (c : M S A) (k : A -> M S B) :
  completes c -> (forall a, completes (k a)) -> completes (bind c k).
Proof.
  intros Hc Hk m Hcalm H. unfold bind.
  destruct (Hc m Hcalm H) as (E & HP & a & Ha).
  destruct (c m) as [[a' | e] m1]; cbn in *; [ | discriminate].
  destruct (Hk a' m1) as (E' & HP' & b & Hb); auto.
  - intros n. rewrite E. apply Hcalm.
  - split; [congruence | eauto].
Qed.

(** A [try] whose handler completes: the body may raise, as long as
    it keeps [P] and the system. *)
Lemma completes_try_except {A} (c : M S A) (h : exn -> M S A) :
  keeps c -> steady c -> (forall e, completes (h e)) ->
  completes (try_except c h).
Proof.
  intros Hk Hs Hh m Hcalm H. unfold try_except.
  specialize (Hk m H). destruct (Hs m) as (E & _).
  destruct (c m) as [[a | e] m1]; cbn in *; eauto.
  destruct (Hh e m1) as (E' & HP' & b & Hb); auto.
  - intros n. rewrite E. apply Hcalm.
  - split; [congruence | eauto].
Qed.

Lemma completes_for_each {A} (l : list A) (body : A -> M S unit) :
  (forall a, completes (body a)) -> completes (for_each l body).
Proof.
  intros Hb. induction l as [ | x t IH]; cbn [for_each].
  - apply completes_ret.
  - apply completes_bind; auto.
Qed.

(** [c] keeps [P] whenever it raises. *)
Definition on_raise {A} (c : M S A) : Prop :=
  forall m e, P (self m) -> fst (c m) = Raise e ->
              P (self (snd (c m))).

Lemma on_raise_bind {A B} (c : M S A) (k : A -> M S B) :
  keeps c -> (forall a, on_raise (k a)) -> on_raise (bind c k).
Proof.
  intros Hc Hk m e HP. unfold bind. specialize (Hc m HP).
  destruct (c m) as [[a | e'] m1]; cbn in *.
  - now apply Hk.
  - intros _. exact Hc.
Qed.

Lemma on_raise_modify_self (f : S -> S) : on_raise (modify_self f).
Proof. intros m e _ H. discriminate H. Qed.

End Invariants.

Section InEnvironment.
Context {S : Type}.
Variable E : environment -> Prop.
Variable P : S -> Prop.
Hypothesis E_calm : forall e, E e -> forall n, tk_error e n = false.

(** In a system with [E] (in which Tk works) and from a [self]
    with [P], [c] returns normally, in the same system and with
    [P] again. *)
Definition completes_in {A} (c : M S A) : Prop :=
  forall m, E (env m) -> P (self m) ->
            env (snd (c m)) = env m /\ P (self (snd (c m)))
            /\ exists a, fst (c m) = Ok a.

Lemma completes_in_calm {A} (c : M S A) :
  completes P c -> completes_in c.
Proof. intros Hc m HE HP. apply Hc; [ | exact HP]. exact (E_calm _ HE). Qed.

Lemma completes_in_bind {A B} (c : M S A) (k : A -> M S B) :
  completes_in c -> (forall a, completes_in (k a)) ->
  completes_in (bind c k).
Proof.
  intros Hc Hk m HE HP. unfold bind.
  destruct (Hc m HE HP) as (E1 & HP1 & a & Ha).
  destruct (c m) as [[a' | e] m1]; cbn in *; [ | discriminate].
  destruct (Hk a' m1) as (E2 & HP2 & b & Hb); auto.
  - now rewrite E1.
  - split; [congruence | eauto].
Qed.

Lemma completes_in_shell :
  (forall e, E e -> forall n, shell_error e n = None) ->
  completes_in (@shell S).
Proof.
  intros Hs m HE HP. unfold shell. rewrite (Hs _ HE). cbn. eauto.
Qed.

(** The next statement of a sequence, run. *)
Lemma run_in {A B} (c : M S A) (k : A -> M S B) (m : machine S) :
  completes_in c -> E (env m) -> P (self m) ->
  exists a m1, bind c k m = k a m1 /\ E (env m1) /\ P (self m1).
Proof.
  intros Hc HE HP. destruct (Hc m HE HP) as (E1 & HP1 & a & Ha).
  unfold bind. destruct (c m) as [[a' | e] m1]; cbn in *;
    [ | discriminate].
  exists a', m1. split; [reflexivity | ]. split; [ | exact HP1].
  now rewrite E1.
Qed.

End InEnvironment.

(** Walk through a statement that keeps a property every assignment
    of which keeps it by computation. *)
Ltac kept :=
  repeat first
    [ apply keeps_get_self
    | apply keeps_tk
    | apply keeps_tk_int
    | apply keeps_shell
    | apply keeps_lift
    | apply keeps_ret
    | apply keeps_raise
    | apply keeps_observe
    | apply keeps_read_text
    | apply keeps_read_int
    | apply keeps_modify_self; intros ? ?; assumption
    | apply keeps_bind; [ | intros ? ]
    | apply keeps_try_except; [ | intros ? ]
    | apply keeps_for_each; intros ?
    | match goal with
      | |- keeps _ (match ?x with _ => _ end) => destruct x
      end ].

End InvFacts.

(* ================================================================== *)
(** * The severity classifier *)
(* ================================================================== *)

Section Classifier.
Import Py PyFacts V4.

Lemma classify_nominal (v low high : num) :
  lt v low = true ->
  get_temp_color_status (Some v) (low, high) = (nominal, NOMINAL).
Proof. intros H. simpl. now rewrite H. Qed.

Lemma classify_elevated (v low high : num) :
  le low v = true -> lt v high = true ->
  get_temp_color_status (Some v) (low, high) = (warning, ELEVATED).
Proof.
  intros H1 H2. simpl. now rewrite (le_not_lt _ _ H1), H2.
Qed.

Lemma classify_critical (v low high : num) :
  lt low high = true -> ge v high = true ->
  get_temp_color_status (Some v) (low, high) = (critical, CRITICAL).
Proof.
  intros H1 H2. simpl.
  now rewrite (lt_ge_not_lt _ _ _ H1 H2), (ge_not_lt _ _ H2).
Qed.

End Classifier.

(** C6.  A temperature that is absent is OFFLINE whatever the
    thresholds.  For thresholds [low < high], a value below [low] is
    NOMINAL, a value with [low <= value < high] is ELEVATED and a value
    with [value >= high] is CRITICAL; so [low] itself is ELEVATED and
    [high] itself is CRITICAL. *)
Theorem classifier_bands :
  (forall thresholds : Py.num * Py.num,
      V4.get_temp_color_status None thresholds
      = (V4.text_dim, V4.OFFLINE))
  /\ (forall low high : Py.num,
         Py.lt low high = true ->
         (forall v, Py.lt v low = true ->
                    snd (V4.get_temp_color_status (Some v) (low, high))
                    = V4.NOMINAL)
         /\ (forall v, Py.le low v = true -> Py.lt v high = true ->
                       snd (V4.get_temp_color_status (Some v) (low, high))
                       = V4.ELEVATED)
         /\ (forall v, Py.ge v high = true ->
                       snd (V4.get_temp_color_status (Some v) (low, high))
                       = V4.CRITICAL)
         /\ snd (V4.get_temp_color_status (Some low) (low, high))
            = V4.ELEVATED
         /\ snd (V4.get_temp_color_status (Some high) (low, high))
            = V4.CRITICAL).
Proof.
  split; [reflexivity | ].
  intros low high Hlh. split; [ | split; [ | split; [ | split]]].
  - intros v H. now rewrite classify_nominal.
  - intros v H1 H2. now rewrite classify_elevated.
  - intros v H. now rewrite classify_critical.
  - simpl. now rewrite PyFacts.lt_irrefl, Hlh.
  - simpl. now rewrite (PyFacts.lt_asym _ _ Hlh), PyFacts.lt_irrefl.
Qed.

(** The CPU thresholds (55, 75) at 54.9, 55, 74 and 75 degrees. *)
Lemma classifier_bands_witness :
  snd (V4.get_temp_color_status
         (Some (Py.PFloat (S754_finite false 549 0)))
         (Py.PInt 550, Py.PInt 750)) = V4.NOMINAL
  /\ snd (V4.get_temp_color_status (Some (Py.PInt 74))
            (Py.PInt 55, Py.PInt 75)) = V4.ELEVATED
  /\ snd (V4.get_temp_color_status (Some (Py.PInt 75))
            (Py.PInt 55, Py.PInt 75)) = V4.CRITICAL
  /\ snd (V4.get_temp_color_status (Some (Py.PInt 55))
            (Py.PInt 55, Py.PInt 75)) = V4.ELEVATED.
Proof.
  pose proof (proj2 classifier_bands (Py.PInt 55) (Py.PInt 75)
                    eq_refl) as (_ & He & Hc & Hl & _).
  pose proof (proj2 classifier_bands (Py.PInt 550) (Py.PInt 750)
                    eq_refl) as (Hn & _).
  split; [ | split; [ | split]].
  - apply Hn. reflexivity.
  - apply He; reflexivity.
  - apply Hc. reflexivity.
  - exact Hl.
Defined.

(* ================================================================== *)
(** * History buffers *)
(* ================================================================== *)

Section History.
Import Py V4.

Lemma push_length (h h' : list num) (v : num) :
  push h v = Ok h' -> List.length h' = List.length h.
Proof.
  destruct h as [ | x t]; simpl; [discriminate | ].
  intros H. injection H as <-.
  rewrite length_app. simpl. lia.
Qed.

(** Pushing onto a non-empty buffer never fails: the result is the old
    content followed by the pushed values, without its first
    entries. *)
Lemma push_all_skipn (vs h : list num) :
  h <> [] ->
  push_all h vs = Ok (skipn (List.length vs) (h ++ vs)).
Proof.
  revert h. induction vs as [ | v vs IH]; intros h Hh.
  - simpl. now rewrite app_nil_r.
  - destruct h as [ | x t]; [contradiction | ].
    cbn [push_all push].
    rewrite IH by (destruct t; discriminate).
    cbn [List.length skipn app]. now rewrite <- app_assoc.
Qed.

End History.

Module RollFacts.
Import Py Sys Run RunFacts InvFacts.
Local Open Scope run_scope.

(** The attribute read by [get] and written by [set] is a rolling
    buffer under the code's [pop(0)]/[append] pair: one push leaves
    in [self] the old content without its first entry, followed by
    the pushed value; and any pushes, one after the other, leave the
    old content followed by the pushed values, without as many
    entries at the front. *)
Definition buffer_rolls
           (get : V4.SystemCommandCenter -> list num)
           (set : list num -> V4.SystemCommandCenter
                  -> V4.SystemCommandCenter) : Prop :=
  (forall (m : machine V4.SystemCommandCenter) x h v,
      get (self m) = x :: h ->
      fst (V4.pop_append get set v m) = Ok tt
      /\ get (self (snd (V4.pop_append get set v m))) = h ++ [v])
  /\ (forall (m : machine V4.SystemCommandCenter) vs,
         get (self m) <> [] ->
         let m' := snd (for_each vs (V4.pop_append get set) m) in
         fst (for_each vs (V4.pop_append get set) m) = Ok tt
         /\ get (self m')
            = skipn (List.length vs) (get (self m) ++ vs)).

Lemma pop_append_run get set v (m : machine V4.SystemCommandCenter)
      x h :
  get (self m) = x :: h ->
  V4.pop_append get set v m
  = (Ok tt, with_self (set (h ++ [v])) m).
Proof.
  intros H. unfold V4.pop_append, bind, get_self, lift, modify_self.
  now rewrite H.
Qed.

Lemma buffer_rolls_of get set :
  (forall h a, get (set h a) = h) -> buffer_rolls get set.
Proof.
  intros Hgs. split.
  - intros m x h v H. rewrite (pop_append_run get set v m x h H).
    split; [reflexivity | apply Hgs].
  - intros m vs. revert m.
    induction vs as [ | v vs IH]; intros m Hne; cbv zeta.
    + cbn. now rewrite app_nil_r.
    + destruct (get (self m)) as [ | x h] eqn:G; [contradiction | ].
      cbn [for_each]. unfold bind.
      rewrite (pop_append_run get set v m x h G).
      destruct (IH (with_self (set (h ++ [v])) m)) as [Hok Hget].
      { cbn. rewrite Hgs. destruct h; discriminate. }
      split; [exact Hok | ].
      rewrite Hget. cbn [self with_self]. rewrite Hgs.
      cbn [List.length skipn app]. now rewrite <- app_assoc.
Qed.

(** *** The push of [update_cpu] *)

Lemma stateless {A B} (c : M V4.SystemCommandCenter A)
      (k : A -> M V4.SystemCommandCenter B)
      (m : machine V4.SystemCommandCenter) :
  (forall a0, keeps (fun a => a = a0) c) ->
  (exists a, fst (c m) = Ok a) ->
  exists a m1, bind c k m = k a m1 /\ self m1 = self m.
Proof.
  intros Hk [a Ha]. specialize (Hk (self m) m eq_refl).
  unfold bind. destruct (c m) as [[a' | e] m1]; cbn in *;
    [ | discriminate].
  exists a', m1. split; [reflexivity | exact Hk].
Qed.

Lemma try_returns {S A} (c : M S A) (x : A) (m : machine S) :
  exists a, fst (try_except c (fun _ => ret x) m) = Ok a.
Proof.
  unfold try_except, ret. destruct (c m) as [[a | e] m1]; cbn; eauto.
Qed.

Lemma get_cpu_usage_keeps_history l :
  keeps (fun a => V4.cpu_history a = l) V4.get_cpu_usage.
Proof. unfold V4.get_cpu_usage. kept. Qed.

Ltac next_sampler m0 :=
  match goal with
  | |- context [bind ?c ?k m0] =>
      let a := fresh "a" in
      let m1 := fresh "m" in
      let E := fresh "E" in
      destruct (stateless c k m0) as (a & m1 & -> & E);
      [ intros ?; first [unfold V4.get_cpu_temp | unfold V4.get_nvme_temp
                        | unfold V4.get_cpu_freq | unfold V4.get_cpu_info];
        kept
      | first [apply try_returns | cbn; eauto]
      | cbv beta ]
  end.

Lemma update_cpu_pushes (m : machine V4.SystemCommandCenter) u x h :
  fst (V4.get_cpu_usage m) = Ok u ->
  V4.cpu_history (self m) = x :: h ->
  V4.cpu_history (self (snd (V4.update_cpu m))) = h ++ [u].
Proof.
  intros Hget Hh. unfold V4.update_cpu. unfold bind at 1.
  pose proof (get_cpu_usage_keeps_history (x :: h) m Hh) as H1.
  destruct (V4.get_cpu_usage m) as [[u' | e] m1]; cbn in Hget, H1;
    [ | discriminate].
  injection Hget as ->.
  next_sampler m1. next_sampler m0. next_sampler m2. next_sampler m3.
  assert (H4 : V4.cpu_history (self m4) = x :: h) by congruence.
  unfold bind at 1.
  rewrite (pop_append_run V4.cpu_history V4.set_cpu_history u m4 x h H4).
  match goal with
  | |- V4.cpu_history (self (snd (?rest ?mm))) = _ =>
      apply (fun K : keeps (fun a => V4.cpu_history a = h ++ [u]) rest
             => K mm)
  end.
  - unfold V4.draw_gauge, V4.config, V4.render. kept.
  - reflexivity.
Qed.

End RollFacts.

(** C7.  Every history buffer starts as 60 zeros.  A push -- the
    code's [pop(0)] followed by [append] on an attribute of [self] --
    leaves in that attribute the old content without its entry at
    index 0, followed by the new value; so after any pushes the
    attribute holds the old content followed by the pushed values
    without as many entries at the front: from the initial buffer it
    still has 60 entries, and after at least 60 pushes it holds the
    last 60 pushed values, oldest first.  This holds for each of the
    six history attributes, and [update_cpu] does such a push of the
    usage it sampled, also when a call into Tk fails in it. *)
Theorem history_buffer_rolls :
  (forall t_net t_disk nproc root,
      let a := V4.init t_net t_disk nproc root in
      V4.cpu_history a = repeat (Py.PInt 0) 60
      /\ V4.gpu_temp_history a = repeat (Py.PInt 0) 60
      /\ V4.net_rx_history a = repeat (Py.PInt 0) 60
      /\ V4.net_tx_history a = repeat (Py.PInt 0) 60
      /\ V4.disk_read_history a = repeat (Py.PInt 0) 60
      /\ V4.disk_write_history a = repeat (Py.PInt 0) 60)
  /\ (RollFacts.buffer_rolls V4.cpu_history V4.set_cpu_history
      /\ RollFacts.buffer_rolls V4.gpu_temp_history
                                V4.set_gpu_temp_history
      /\ RollFacts.buffer_rolls V4.net_rx_history V4.set_net_rx_history
      /\ RollFacts.buffer_rolls V4.net_tx_history V4.set_net_tx_history
      /\ RollFacts.buffer_rolls V4.disk_read_history
                                V4.set_disk_read_history
      /\ RollFacts.buffer_rolls V4.disk_write_history
                                V4.set_disk_write_history)
  /\ (forall (content vs : list Py.num),
         List.length content = 60%nat ->
         List.length (skipn (List.length vs) (content ++ vs)) = 60%nat
         /\ ((60 <= List.length vs)%nat ->
             skipn (List.length vs) (content ++ vs)
             = skipn (List.length vs - 60) vs))
  /\ (forall (m : Run.machine V4.SystemCommandCenter) u x h,
         fst (V4.get_cpu_usage m) = Py.Ok u ->
         V4.cpu_history (Run.self m) = x :: h ->
         V4.cpu_history (Run.self (snd (V4.update_cpu m))) = h ++ [u]).
Proof.
  split; [ | split; [ | split]].
  - intros; cbv zeta; repeat (split; [reflexivity | ]); reflexivity.
  - do 5 (split; [apply RollFacts.buffer_rolls_of; reflexivity | ]).
    apply RollFacts.buffer_rolls_of; reflexivity.
  - intros content vs Hc. split.
    + rewrite length_skipn, length_app. lia.
    + intros Hn. rewrite skipn_app, Hc.
      rewrite skipn_all2 by lia. reflexivity.
  - exact RollFacts.update_cpu_pushes.
Qed.

(** Sixty-one pushes of 1, 2, ..., 61 onto the CPU history of a
    program just started leave 2, ..., 61 in it. *)
Lemma history_buffer_rolls_witness :
  V4.cpu_history
    (Run.self
       (snd (Run.for_each
               (map (fun n => Py.PInt (Z.of_nat n)) (seq 1 61))
               (V4.pop_append V4.cpu_history V4.set_cpu_history)
               Scenario.v4_first_sample)))
  = map (fun n => Py.PInt (Z.of_nat n)) (seq 2 60).
Proof.
  destruct (proj2 (proj1 (proj1 (proj2 history_buffer_rolls)))
              Scenario.v4_first_sample
              (map (fun n => Py.PInt (Z.of_nat n)) (seq 1 61)))
    as [_ H].
  - discriminate.
  - rewrite H. reflexivity.
Defined.

(* ================================================================== *)
(** * The rate samplers *)
(* ================================================================== *)

Module RateFacts.
Import Py Sys Run PyFacts SignFacts.

Lemma max2_0_0 : max2 (PInt 0) (PInt 0) = PInt 0.
Proof. reflexivity. Qed.

Lemma le_not_gt (a b : num) : le a b = true -> gt a b = false.
Proof.
  unfold le, gt. now destruct (compare a b) as [[ | | ] | ].
Qed.

(** *** The speed expression *)

Lemma speed_no_previous (total : Z) (elapsed : float) :
  V4.speed total 0 elapsed = Ok (PInt 0).
Proof. unfold V4.speed. now rewrite andb_false_r. Qed.

Lemma speed_clock_stalled (total last : Z) (elapsed : float) :
  le (PFloat elapsed) (PInt 0) = true ->
  V4.speed total last elapsed = Ok (PInt 0).
Proof. intros H. unfold V4.speed. now rewrite (le_not_gt _ _ H). Qed.

Lemma speed_reset (total last : Z) (elapsed : float) :
  total < last -> Z.abs (total - last) < overflow_bound ->
  gt (PFloat elapsed) (PInt 0) = true ->
  exists r, V4.speed total last elapsed = Ok r
            /\ max2 (PInt 0) r = PInt 0.
Proof.
  intros Hlt Hfit He. unfold V4.speed. rewrite He.
  destruct (last >? 0); cbn [andb].
  - destruct (truediv_int_float_ok _ _ Hfit He) as [r Hr].
    exists r. split; [exact Hr | ].
    eapply negative_delta_rate; eauto. lia.
  - exists (PInt 0). split; reflexivity.
Qed.

Lemma speed_total (total last : Z) (elapsed : float) :
  Z.abs (total - last) < overflow_bound ->
  exists r, V4.speed total last elapsed = Ok r.
Proof.
  intros Hfit. unfold V4.speed.
  destruct (gt (PFloat elapsed) (PInt 0)) eqn:He; cbn [andb]; eauto.
  destruct (last >? 0); eauto.
  now apply truediv_int_float_ok.
Qed.

(** *** One call of a sampler whose reads succeed *)

Lemma get_network_speed_run (m : machine V4.SystemCommandCenter)
      (ifaces : list iface) (rx tx : Z) (r_rx r_tx : num) :
  sys_class_net (env m) (instant m) = Some ifaces ->
  V4.net_totals ifaces 0 0 = (rx, tx) ->
  let now := time_time (env m) (S (instant m)) in
  let elapsed := SFsub prec emax now (V4.last_net_time (self m)) in
  V4.speed rx (V4.last_net_rx (self m)) elapsed = Ok r_rx ->
  V4.speed tx (V4.last_net_tx (self m)) elapsed = Ok r_tx ->
  V4.get_network_speed m
  = (Ok (max2 (PInt 0) r_rx, max2 (PInt 0) r_tx),
     with_self (V4.set_last_net rx tx now)
               (advance Clock (advance NetDir m))).
Proof.
  intros Hread Htot now elapsed Hrx Htx.
  unfold V4.get_network_speed, try_except, bind, read_text.
  rewrite Hread, Htot.
  unfold observe, get_self, lift. cbn [instant advance env self].
  fold now. fold elapsed. rewrite Hrx, Htx.
  reflexivity.
Qed.

Lemma get_disk_io_run (m : machine V4.SystemCommandCenter)
      (stats : list line) (rd wr : Z) (r_rd r_wr : num) :
  proc_diskstats (env m) (instant m) = Some stats ->
  V4.disk_totals stats 0 0 = Ok (rd, wr) ->
  let now := time_time (env m) (S (instant m)) in
  let elapsed := SFsub prec emax now (V4.last_disk_time (self m)) in
  V4.speed rd (V4.last_disk_read (self m)) elapsed = Ok r_rd ->
  V4.speed wr (V4.last_disk_write (self m)) elapsed = Ok r_wr ->
  V4.get_disk_io m
  = (Ok (max2 (PInt 0) r_rd, max2 (PInt 0) r_wr),
     with_self (V4.set_last_disk rd wr now)
               (advance Clock (advance DiskStats m))).
Proof.
  intros Hread Htot now elapsed Hrd Hwr.
  unfold V4.get_disk_io, try_except, bind, read_text.
  rewrite Hread. unfold lift at 1. rewrite Htot.
  unfold observe, get_self, lift. cbn [instant advance env self].
  fold now. fold elapsed. rewrite Hrd, Hwr.
  reflexivity.
Qed.

(** *** First samples in the fourth version *)

Lemma v4_first_network_sample (m : machine V4.SystemCommandCenter) :
  V4.last_net_rx (self m) = 0 -> V4.last_net_tx (self m) = 0 ->
  fst (V4.get_network_speed m) = Ok (PInt 0, PInt 0).
Proof.
  intros Hrx Htx.
  destruct (sys_class_net (env m) (instant m)) as [ifaces | ] eqn:Hread.
  - destruct (V4.net_totals ifaces 0 0) as [rx tx] eqn:Htot.
    rewrite (get_network_speed_run m ifaces rx tx (PInt 0) (PInt 0)
               Hread Htot).
    + reflexivity.
    + rewrite Hrx. apply speed_no_previous.
    + rewrite Htx. apply speed_no_previous.
  - unfold V4.get_network_speed, try_except, bind, read_text.
    now rewrite Hread.
Qed.

Lemma v4_first_disk_sample (m : machine V4.SystemCommandCenter) :
  V4.last_disk_read (self m) = 0 -> V4.last_disk_write (self m) = 0 ->
  fst (V4.get_disk_io m) = Ok (PInt 0, PInt 0).
Proof.
  intros Hrd Hwr.
  destruct (proc_diskstats (env m) (instant m)) as [stats | ] eqn:Hread.
  - destruct (V4.disk_totals stats 0 0) as [[rd wr] | e] eqn:Htot.
    + rewrite (get_disk_io_run m stats rd wr (PInt 0) (PInt 0)
                 Hread Htot).
      * reflexivity.
      * rewrite Hrd. apply speed_no_previous.
      * rewrite Hwr. apply speed_no_previous.
    + unfold V4.get_disk_io, try_except, bind, read_text.
      rewrite Hread. unfold lift at 1. now rewrite Htot.
  - unfold V4.get_disk_io, try_except, bind, read_text.
    now rewrite Hread.
Qed.

Lemma v4_first_cpu_sample (m : machine V4.SystemCommandCenter) :
  V4.last_cpu (self m) = None ->
  fst (V4.get_cpu_usage m) = Ok (PInt 0).
Proof.
  intros Hlast.
  unfold V4.get_cpu_usage, try_except, bind, read_text.
  destruct (proc_stat (env m) (instant m)) as [lines | ]; [ | reflexivity].
  unfold lift, get_self. cbn [self advance].
  destruct (V4.int_at _ 4); [ | reflexivity].
  destruct (V4.sum_ints _ 0); [ | reflexivity].
  rewrite Hlast. reflexivity.
Qed.

(** What [__init__] leaves is a program without a previous sample. *)
Lemma init_no_previous (t_net t_disk : float) (n : nat) (root : bool) :
  let a := V4.init t_net t_disk n root in
  V4.last_net_rx a = 0 /\ V4.last_net_tx a = 0
  /\ V4.last_disk_read a = 0 /\ V4.last_disk_write a = 0
  /\ V4.last_cpu a = None.
Proof. cbv zeta. repeat (split; [reflexivity | ]). reflexivity. Qed.

End RateFacts.

(** C1 (the first version departs from it).  The first network sample
    of [system_command_center.py] is not 0: one second after
    construction, with 1000000 bytes received and 500000 sent so far, it
    reports 1000000.0 and 500000.0 bytes per second, the counters'
    whole values over the time since construction.  The fourth version
    reports 0 and 0 in the same system. *)
Theorem v1_first_network_sample_is_the_whole_counter :
  V1.last_net_rx (Run.self Scenario.v1_first_sample) = 0
  /\ fst (V1.get_network_speed Scenario.v1_first_sample)
     = Py.Ok (Py.PFloat (Py.double 1000000), Py.PFloat (Py.double 500000))
  /\ fst (V4.get_network_speed Scenario.v4_first_sample)
     = Py.Ok (Py.PInt 0, Py.PInt 0).
Proof.
  split; [reflexivity | split]; vm_compute; reflexivity.
Qed.

(** C2 as the specification states it fails: after a sample that
    reported 2000.0 and 1000.0 bytes per second, a sample taken while
    the clock has not advanced (elapsed time 0) reports 0 and 0, not the
    rates reported before. *)
Lemma stalled_clock_forgets_the_rate :
  fst (V4.get_network_speed Scenario.stalled_clock_1)
  = Py.Ok (Py.PFloat (Py.double 2000), Py.PFloat (Py.double 1000))
  /\ SFsub Py.prec Py.emax
       (Sys.time_time (Run.env Scenario.stalled_clock_2)
          (S (Run.instant Scenario.stalled_clock_2)))
       (V4.last_net_time (Run.self Scenario.stalled_clock_2))
     = S754_zero false
  /\ fst (V4.get_network_speed Scenario.stalled_clock_2)
     = Py.Ok (Py.PInt 0, Py.PInt 0)
  /\ fst (V4.get_network_speed Scenario.stalled_clock_2)
     <> fst (V4.get_network_speed Scenario.stalled_clock_1).
Proof.
  split; [vm_compute; reflexivity | ].
  split; [vm_compute; reflexivity | ].
  split; [vm_compute; reflexivity | ].
  vm_compute. intros H. discriminate H.
Qed.

(** C2, amended.  A network or disk sample taken when the elapsed time
    is not above 0 reports the rate 0 for both of its streams, whatever
    was reported before; nothing is divided and nothing is raised, and
    the stored previous sample is overwritten with the counters and the
    time just read. *)
Theorem stalled_clock_rate_is_zero :
  (forall (m : Run.machine V4.SystemCommandCenter) ifaces rx tx,
      Sys.sys_class_net (Run.env m) (Run.instant m) = Some ifaces ->
      V4.net_totals ifaces 0 0 = (rx, tx) ->
      let now := Sys.time_time (Run.env m) (S (Run.instant m)) in
      Py.le (Py.PFloat (SFsub Py.prec Py.emax now
                          (V4.last_net_time (Run.self m))))
            (Py.PInt 0) = true ->
      V4.get_network_speed m
      = (Py.Ok (Py.PInt 0, Py.PInt 0),
         Run.with_self (V4.set_last_net rx tx now)
           (Run.advance Sys.Clock (Run.advance Sys.NetDir m))))
  /\ (forall (m : Run.machine V4.SystemCommandCenter) stats rd wr,
         Sys.proc_diskstats (Run.env m) (Run.instant m) = Some stats ->
         V4.disk_totals stats 0 0 = Py.Ok (rd, wr) ->
         let now := Sys.time_time (Run.env m) (S (Run.instant m)) in
         Py.le (Py.PFloat (SFsub Py.prec Py.emax now
                             (V4.last_disk_time (Run.self m))))
               (Py.PInt 0) = true ->
         V4.get_disk_io m
         = (Py.Ok (Py.PInt 0, Py.PInt 0),
            Run.with_self (V4.set_last_disk rd wr now)
              (Run.advance Sys.Clock (Run.advance Sys.DiskStats m)))).
Proof.
  split.
  - intros m ifaces rx tx Hread Htot now He.
    rewrite (RateFacts.get_network_speed_run m ifaces rx tx
               (Py.PInt 0) (Py.PInt 0) Hread Htot);
      [reflexivity | | ]; now apply RateFacts.speed_clock_stalled.
  - intros m stats rd wr Hread Htot now He.
    rewrite (RateFacts.get_disk_io_run m stats rd wr
               (Py.PInt 0) (Py.PInt 0) Hread Htot);
      [reflexivity | | ]; now apply RateFacts.speed_clock_stalled.
Qed.

(** The third sample of the stalled clock. *)
Lemma stalled_clock_rate_is_zero_witness :
  V4.get_network_speed Scenario.stalled_clock_2
  = (Py.Ok (Py.PInt 0, Py.PInt 0),
     Run.with_self (V4.set_last_net 5000 2500 (Py.double 1002))
       (Run.advance Sys.Clock
          (Run.advance Sys.NetDir Scenario.stalled_clock_2))).
Proof.
  apply (proj1 stalled_clock_rate_is_zero Scenario.stalled_clock_2
               [Scenario.eth0 5000 2500] 5000 2500).
  - vm_compute. reflexivity.
  - reflexivity.
  - vm_compute. reflexivity.
Defined.

Section Resync.
Import Py Sys Run RateFacts.

Lemma network_reset (m : machine V4.SystemCommandCenter)
      (ifaces : list iface) (rx tx : Z) :
  sys_class_net (env m) (instant m) = Some ifaces ->
  V4.net_totals ifaces 0 0 = (rx, tx) ->
  let now := time_time (env m) (S (instant m)) in
  gt (PFloat (SFsub prec emax now (V4.last_net_time (self m))))
     (PInt 0) = true ->
  Z.abs (rx - V4.last_net_rx (self m)) < overflow_bound ->
  Z.abs (tx - V4.last_net_tx (self m)) < overflow_bound ->
  exists rate_rx rate_tx,
    V4.get_network_speed m
    = (Ok (rate_rx, rate_tx),
       with_self (V4.set_last_net rx tx now)
                 (advance Clock (advance NetDir m)))
    /\ (rx < V4.last_net_rx (self m) -> rate_rx = PInt 0)
    /\ (tx < V4.last_net_tx (self m) -> rate_tx = PInt 0).
Proof.
  intros Hread Htot now He Hfr Hft.
  destruct (speed_total rx _ (SFsub prec emax now
                                (V4.last_net_time (self m))) Hfr)
    as [r_rx Hrx].
  destruct (speed_total tx _ (SFsub prec emax now
                                (V4.last_net_time (self m))) Hft)
    as [r_tx Htx].
  exists (max2 (PInt 0) r_rx), (max2 (PInt 0) r_tx).
  split; [ | split].
  - now apply get_network_speed_run with (ifaces := ifaces).
  - intros Hlt.
    destruct (speed_reset _ _ _ Hlt Hfr He) as (r & Hr & Hz).
    fold now in Hr. congruence.
  - intros Hlt.
    destruct (speed_reset _ _ _ Hlt Hft He) as (r & Hr & Hz).
    fold now in Hr. congruence.
Qed.

Lemma disk_reset (m : machine V4.SystemCommandCenter)
      (stats : list line) (rd wr : Z) :
  proc_diskstats (env m) (instant m) = Some stats ->
  V4.disk_totals stats 0 0 = Ok (rd, wr) ->
  let now := time_time (env m) (S (instant m)) in
  gt (PFloat (SFsub prec emax now (V4.last_disk_time (self m))))
     (PInt 0) = true ->
  Z.abs (rd - V4.last_disk_read (self m)) < overflow_bound ->
  Z.abs (wr - V4.last_disk_write (self m)) < overflow_bound ->
  exists rate_rd rate_wr,
    V4.get_disk_io m
    = (Ok (rate_rd, rate_wr),
       with_self (V4.set_last_disk rd wr now)
                 (advance Clock (advance DiskStats m)))
    /\ (rd < V4.last_disk_read (self m) -> rate_rd = PInt 0)
    /\ (wr < V4.last_disk_write (self m) -> rate_wr = PInt 0).
Proof.
  intros Hread Htot now He Hfr Hfw.
  destruct (speed_total rd _ (SFsub prec emax now
                                (V4.last_disk_time (self m))) Hfr)
    as [r_rd Hrd].
  destruct (speed_total wr _ (SFsub prec emax now
                                (V4.last_disk_time (self m))) Hfw)
    as [r_wr Hwr].
  exists (max2 (PInt 0) r_rd), (max2 (PInt 0) r_wr).
  split; [ | split].
  - now apply get_disk_io_run with (stats := stats).
  - intros Hlt.
    destruct (speed_reset _ _ _ Hlt Hfr He) as (r & Hr & Hz).
    fold now in Hr. congruence.
  - intros Hlt.
    destruct (speed_reset _ _ _ Hlt Hfw He) as (r & Hr & Hz).
    fold now in Hr. congruence.
Qed.

End Resync.

(** After a reset of the network counters to zero (they fell from 5000
    and 7000), the sample reports 0 and stores the zeros; one second
    later the counters read 700 and 300, and the sample reports 0 again
    where deltas against the stored sample would give 700.0 and 300.0:
    a stored counter of 0 counts as no previous sample. *)
Lemma reset_to_zero_hides_the_next_delta :
  fst (V4.get_network_speed Scenario.reset_to_zero_1)
  = Py.Ok (Py.PInt 0, Py.PInt 0)
  /\ V4.last_net_rx (Run.self Scenario.reset_to_zero_2) = 0
  /\ V4.last_net_tx (Run.self Scenario.reset_to_zero_2) = 0
  /\ Sys.sys_class_net (Run.env Scenario.reset_to_zero_2)
                       (Run.instant Scenario.reset_to_zero_2)
     = Some [Scenario.eth0 700 300]
  /\ SFsub Py.prec Py.emax
           (Sys.time_time (Run.env Scenario.reset_to_zero_2)
                          (S (Run.instant Scenario.reset_to_zero_2)))
           (V4.last_net_time (Run.self Scenario.reset_to_zero_2))
     = Py.double 1
  /\ fst (V4.get_network_speed Scenario.reset_to_zero_2)
     = Py.Ok (Py.PInt 0, Py.PInt 0).
Proof. vm_compute. repeat split. Qed.

Section NextRate.
Import Py Sys Run RateFacts SignFacts.

(** The speed expression against a stored sample, once time has
    passed: the quotient when the stored counter is positive, 0
    otherwise. *)
Lemma speed_against (total last : Z) (elapsed : float) :
  gt (PFloat elapsed) (PInt 0) = true ->
  Z.abs (total - last) < overflow_bound ->
  exists q,
    truediv (PInt (total - last)) (PFloat elapsed) = Ok q
    /\ V4.speed total last elapsed
       = Ok (if last >? 0 then q else PInt 0).
Proof.
  intros He Hfit.
  destruct (truediv_int_float_ok _ _ Hfit He) as [q Hq].
  exists q. split; [exact Hq | ].
  unfold V4.speed. rewrite He. cbn [andb].
  now destruct (last >? 0).
Qed.

Lemma max2_against (last : Z) (q : num) :
  max2 (PInt 0) (if last >? 0 then q else PInt 0)
  = if last >? 0 then max2 (PInt 0) q else PInt 0.
Proof. now destruct (last >? 0). Qed.

End NextRate.

(** C3.  When a network or disk counter has fallen since the previous
    sample (a reset or a wrap-around) and the clock has advanced, the
    rate reported for that stream is 0, never a negative number, and
    the stored previous sample becomes the counters and the time just
    read.  The next sample, taken after more time has passed, reports
    for each stream [max(0, (v3 - v2) / elapsed)] against the stored
    counter [v2] when [v2 > 0], and 0 when [v2] is 0.  (The deltas are
    small enough to convert to a float, as any differences of 64-bit
    counters are.) *)
Theorem counter_reset_resyncs :
  (forall (m : Run.machine V4.SystemCommandCenter) ifaces rx tx,
      Sys.sys_class_net (Run.env m) (Run.instant m) = Some ifaces ->
      V4.net_totals ifaces 0 0 = (rx, tx) ->
      let now := Sys.time_time (Run.env m) (S (Run.instant m)) in
      Py.gt (Py.PFloat (SFsub Py.prec Py.emax now
                          (V4.last_net_time (Run.self m))))
            (Py.PInt 0) = true ->
      Z.abs (rx - V4.last_net_rx (Run.self m)) < Py.overflow_bound ->
      Z.abs (tx - V4.last_net_tx (Run.self m)) < Py.overflow_bound ->
      exists rate_rx rate_tx m',
        V4.get_network_speed m = (Py.Ok (rate_rx, rate_tx), m')
        /\ (rx < V4.last_net_rx (Run.self m) -> rate_rx = Py.PInt 0)
        /\ (tx < V4.last_net_tx (Run.self m) -> rate_tx = Py.PInt 0)
        /\ V4.last_net_rx (Run.self m') = rx
        /\ V4.last_net_tx (Run.self m') = tx
        /\ V4.last_net_time (Run.self m') = now
        /\ (forall ifaces' rx' tx',
               Sys.sys_class_net (Run.env m') (Run.instant m')
               = Some ifaces' ->
               V4.net_totals ifaces' 0 0 = (rx', tx') ->
               let elapsed' :=
                 SFsub Py.prec Py.emax
                   (Sys.time_time (Run.env m') (S (Run.instant m'))) now in
               Py.gt (Py.PFloat elapsed') (Py.PInt 0) = true ->
               Z.abs (rx' - rx) < Py.overflow_bound ->
               Z.abs (tx' - tx) < Py.overflow_bound ->
               exists q_rx q_tx,
                 Py.truediv (Py.PInt (rx' - rx)) (Py.PFloat elapsed')
                 = Py.Ok q_rx
                 /\ Py.truediv (Py.PInt (tx' - tx)) (Py.PFloat elapsed')
                    = Py.Ok q_tx
                 /\ fst (V4.get_network_speed m')
                    = Py.Ok
                        (if rx >? 0 then Py.max2 (Py.PInt 0) q_rx
                         else Py.PInt 0,
                         if tx >? 0 then Py.max2 (Py.PInt 0) q_tx
                         else Py.PInt 0)))
  /\ (forall (m : Run.machine V4.SystemCommandCenter) stats rd wr,
         Sys.proc_diskstats (Run.env m) (Run.instant m) = Some stats ->
         V4.disk_totals stats 0 0 = Py.Ok (rd, wr) ->
         let now := Sys.time_time (Run.env m) (S (Run.instant m)) in
         Py.gt (Py.PFloat (SFsub Py.prec Py.emax now
                             (V4.last_disk_time (Run.self m))))
               (Py.PInt 0) = true ->
         Z.abs (rd - V4.last_disk_read (Run.self m))
         < Py.overflow_bound ->
         Z.abs (wr - V4.last_disk_write (Run.self m))
         < Py.overflow_bound ->
         exists rate_rd rate_wr m',
           V4.get_disk_io m = (Py.Ok (rate_rd, rate_wr), m')
           /\ (rd < V4.last_disk_read (Run.self m) ->
               rate_rd = Py.PInt 0)
           /\ (wr < V4.last_disk_write (Run.self m) ->
               rate_wr = Py.PInt 0)
           /\ V4.last_disk_read (Run.self m') = rd
           /\ V4.last_disk_write (Run.self m') = wr
           /\ V4.last_disk_time (Run.self m') = now
           /\ (forall stats' rd' wr',
                  Sys.proc_diskstats (Run.env m') (Run.instant m')
                  = Some stats' ->
                  V4.disk_totals stats' 0 0 = Py.Ok (rd', wr') ->
                  let elapsed' :=
                    SFsub Py.prec Py.emax
                      (Sys.time_time (Run.env m') (S (Run.instant m')))
                      now in
                  Py.gt (Py.PFloat elapsed') (Py.PInt 0) = true ->
                  Z.abs (rd' - rd) < Py.overflow_bound ->
                  Z.abs (wr' - wr) < Py.overflow_bound ->
                  exists q_rd q_wr,
                    Py.truediv (Py.PInt (rd' - rd)) (Py.PFloat elapsed')
                    = Py.Ok q_rd
                    /\ Py.truediv (Py.PInt (wr' - wr))
                                  (Py.PFloat elapsed')
                       = Py.Ok q_wr
                    /\ fst (V4.get_disk_io m')
                       = Py.Ok
                           (if rd >? 0 then Py.max2 (Py.PInt 0) q_rd
                            else Py.PInt 0,
                            if wr >? 0 then Py.max2 (Py.PInt 0) q_wr
                            else Py.PInt 0))).
Proof.
  split.
  - intros m ifaces rx tx Hread Htot now He Hfr Hft.
    destruct (network_reset m ifaces rx tx Hread Htot He Hfr Hft)
      as (rate_rx & rate_tx & Hrun & Hrx & Htx).
    eexists rate_rx, rate_tx, _.
    split; [exact Hrun | ].
    split; [exact Hrx | ]. split; [exact Htx | ].
    split; [reflexivity | ]. split; [reflexivity | ].
    split; [reflexivity | ].
    intros ifaces' rx' tx' Hread' Htot' elapsed' He' Hfr' Hft'.
    destruct (speed_against rx' rx elapsed' He' Hfr') as (q_rx & Hq & Hr).
    destruct (speed_against tx' tx elapsed' He' Hft') as (q_tx & Hq' & Ht).
    exists q_rx, q_tx. split; [exact Hq | ]. split; [exact Hq' | ].
    rewrite (RateFacts.get_network_speed_run _ ifaces' rx' tx'
               _ _ Hread' Htot' Hr Ht).
    cbn [fst]. now rewrite !max2_against.
  - intros m stats rd wr Hread Htot now He Hfr Hfw.
    destruct (disk_reset m stats rd wr Hread Htot He Hfr Hfw)
      as (rate_rd & rate_wr & Hrun & Hrd & Hwr).
    eexists rate_rd, rate_wr, _.
    split; [exact Hrun | ].
    split; [exact Hrd | ]. split; [exact Hwr | ].
    split; [reflexivity | ]. split; [reflexivity | ].
    split; [reflexivity | ].
    intros stats' rd' wr' Hread' Htot' elapsed' He' Hfr' Hfw'.
    destruct (speed_against rd' rd elapsed' He' Hfr') as (q_rd & Hq & Hr).
    destruct (speed_against wr' wr elapsed' He' Hfw') as (q_wr & Hq' & Hw).
    exists q_rd, q_wr. split; [exact Hq | ]. split; [exact Hq' | ].
    rewrite (RateFacts.get_disk_io_run _ stats' rd' wr'
               _ _ Hread' Htot' Hr Hw).
    cbn [fst]. now rewrite !max2_against.
Qed.

(** Counters that fell from 5000 and 7000 bytes to 100 and 200, and
    from 50 and 70 sectors to 1 and 2: both samplers report 0 and keep
    the new counters. *)
Lemma counter_reset_resyncs_witness :
  (fst (V4.get_network_speed Scenario.counter_reset_net)
   = Py.Ok (Py.PInt 0, Py.PInt 0)
   /\ V4.last_net_rx
        (Run.self (snd (V4.get_network_speed Scenario.counter_reset_net)))
      = 100)
  /\ (fst (V4.get_disk_io Scenario.counter_reset_disk)
      = Py.Ok (Py.PInt 0, Py.PInt 0)
      /\ V4.last_disk_read
           (Run.self (snd (V4.get_disk_io Scenario.counter_reset_disk)))
         = 512).
Proof.
  split.
  - destruct (proj1 counter_reset_resyncs Scenario.counter_reset_net
                [Scenario.eth0 100 200] 100 200)
      as (rate_rx & rate_tx & m' & Hrun & Hrx & Htx & Hl & _);
      [vm_compute; reflexivity .. | ].
    rewrite Hrun. cbn [fst snd].
    rewrite Hrx, Htx by (vm_compute; reflexivity).
    split; [reflexivity | exact Hl].
  - destruct (proj2 counter_reset_resyncs Scenario.counter_reset_disk
                [Scenario.nvme0n1 1 2] 512 1024)
      as (rate_rd & rate_wr & m' & Hrun & Hrd & Hwr & Hl & _);
      [vm_compute; reflexivity .. | ].
    rewrite Hrun. cbn [fst snd].
    rewrite Hrd, Hwr by (vm_compute; reflexivity).
    split; [reflexivity | exact Hl].
Defined.

(* ================================================================== *)
(** * CPU usage *)
(* ================================================================== *)

Module CpuFacts.
Import Py Sys Run PyFacts.

Lemma gt_le (a b : num) : gt a b = true -> le b a = true.
Proof.
  rewrite gt_lt. unfold lt, le.
  now destruct (compare b a) as [[ | | ] | ].
Qed.

Lemma lt_le (a b : num) : lt a b = true -> le a b = true.
Proof. unfold lt, le. now destruct (compare a b) as [[ | | ] | ]. Qed.

(** The clamp always lands in [0, 100], and keeps what lies strictly
    inside. *)
Lemma clamp_percent_range (u : num) :
  le (PInt 0) (V4.clamp_percent u) = true
  /\ le (V4.clamp_percent u) (PInt 100) = true.
Proof.
  unfold V4.clamp_percent, max2, min2.
  destruct (lt u (PInt 100)) eqn:H100.
  - destruct (gt u (PInt 0)) eqn:H0.
    + split; [now apply gt_le | now apply lt_le].
    + split; reflexivity.
  - change (gt (PInt 100) (PInt 0)) with true. cbv iota.
    split; reflexivity.
Qed.

Lemma clamp_percent_inside (u : num) :
  gt u (PInt 0) = true -> lt u (PInt 100) = true ->
  V4.clamp_percent u = u.
Proof.
  intros H0 H100. unfold V4.clamp_percent, max2, min2.
  now rewrite H100, H0.
Qed.

Lemma float_of_int_1 : float_of_int 1 = Ok (double 1).
Proof. reflexivity. Qed.

Lemma float_of_int_100 : float_of_int 100 = Ok (double 100).
Proof. reflexivity. Qed.

(** The usage expression, once the quotient of the deltas is known. *)
Lemma usage_of_quotient (d_idle d_total : Z) (q : float) :
  0 < d_total -> int_truediv d_idle d_total = Ok q ->
  V4.usage_of d_idle d_total
  = Ok (PFloat (SFmul prec emax (double 100)
                  (SFsub prec emax (double 1) q))).
Proof.
  intros Hpos Hq. unfold V4.usage_of.
  replace (d_total >? 0) with true by (symmetry; apply Z.gtb_lt; lia).
  unfold truediv. rewrite Hq.
  unfold sub, mul, arith, to_float.
  rewrite float_of_int_1, float_of_int_100. reflexivity.
Qed.

Lemma get_cpu_usage_run (m : machine V4.SystemCommandCenter)
      (lines : list line) (idle total : Z) (usage : num) :
  proc_stat (env m) (instant m) = Some lines ->
  V4.int_at (nth 0 lines []) 4 = Ok idle ->
  V4.sum_ints (tl (nth 0 lines [])) 0 = Ok total ->
  match V4.last_cpu (self m) with
  | Some (last_idle, last_total) =>
      V4.usage_of (idle - last_idle) (total - last_total)
  | None => Ok (PInt 0)
  end = Ok usage ->
  V4.get_cpu_usage m
  = (Ok (V4.clamp_percent usage),
     with_self (V4.set_last_cpu idle total) (advance ProcStat m)).
Proof.
  intros Hread Hidle Htotal Husage.
  unfold V4.get_cpu_usage, try_except, bind, read_text.
  rewrite Hread. unfold lift at 1. rewrite Hidle.
  unfold lift at 1. rewrite Htotal.
  unfold get_self, lift. cbn [self advance]. rewrite Husage.
  reflexivity.
Qed.

End CpuFacts.

(** C5 as the specification states it fails: for the tick counters
    (idle 1000, total 2000) followed by (idle 1400, total 2500) the
    reported usage is the double just below 20,
    5629499534213119 * 2^-48 = 19.999999999999996..., which is neither
    the integer 20 nor the float 20.0. *)
Lemma cpu_usage_of_the_scenario_is_not_20 :
  fst (V4.get_cpu_usage Scenario.cpu_ticks_1)
  = Py.Ok (Py.PFloat (S754_finite false 5629499534213119 (-48)))
  /\ fst (V4.get_cpu_usage Scenario.cpu_ticks_1) <> Py.Ok (Py.PInt 20)
  /\ fst (V4.get_cpu_usage Scenario.cpu_ticks_1)
     <> Py.Ok (Py.PFloat (Py.double 20))
  /\ Py.lt (Py.PFloat (S754_finite false 5629499534213119 (-48)))
           (Py.PInt 20) = true.
Proof.
  split; [vm_compute; reflexivity | ].
  split; [vm_compute; intros H; discriminate H | ].
  split; [vm_compute; intros H; discriminate H | ].
  vm_compute; reflexivity.
Qed.

(** C5, amended.  For two consecutive snapshots of the CPU tick
    counters with a positive delta of the total, the reported usage is
    [100 * (1 - d_idle / d_total)] as double arithmetic evaluates it
    (the quotient, the difference and the product each rounded to the
    nearest double), clamped to [0, 100]; the snapshot becomes the
    stored one.  For (idle 1000, total 2000) followed by (idle 1400,
    total 2500) this is 19.999999999999996 (20 less one unit in the last
    place), not exactly 20. *)
Theorem cpu_usage_formula :
  (forall (m : Run.machine V4.SystemCommandCenter) lines
          idle total last_idle last_total q,
      Sys.proc_stat (Run.env m) (Run.instant m) = Some lines ->
      V4.int_at (nth 0 lines []) 4 = Py.Ok idle ->
      V4.sum_ints (tl (nth 0 lines [])) 0 = Py.Ok total ->
      V4.last_cpu (Run.self m) = Some (last_idle, last_total) ->
      0 < total - last_total ->
      Py.int_truediv (idle - last_idle) (total - last_total) = Py.Ok q ->
      let u := Py.PFloat
                 (SFmul Py.prec Py.emax (Py.double 100)
                    (SFsub Py.prec Py.emax (Py.double 1) q)) in
      V4.get_cpu_usage m
      = (Py.Ok (Py.max2 (Py.PInt 0) (Py.min2 (Py.PInt 100) u)),
         Run.with_self (V4.set_last_cpu idle total)
           (Run.advance Sys.ProcStat m))
      /\ Py.le (Py.PInt 0)
               (Py.max2 (Py.PInt 0) (Py.min2 (Py.PInt 100) u)) = true
      /\ Py.le (Py.max2 (Py.PInt 0) (Py.min2 (Py.PInt 100) u))
               (Py.PInt 100) = true
      /\ (Py.gt u (Py.PInt 0) = true -> Py.lt u (Py.PInt 100) = true ->
          Py.max2 (Py.PInt 0) (Py.min2 (Py.PInt 100) u) = u))
  /\ fst (V4.get_cpu_usage Scenario.cpu_ticks_1)
     = Py.Ok (Py.PFloat (S754_finite false 5629499534213119 (-48))).
Proof.
  split; [ | vm_compute; reflexivity].
  intros m lines idle total last_idle last_total q
         Hread Hidle Htotal Hlast Hpos Hq u.
  split; [ | split; [ | split]].
  - apply CpuFacts.get_cpu_usage_run with (lines := lines); auto.
    rewrite Hlast. now apply CpuFacts.usage_of_quotient.
  - apply (CpuFacts.clamp_percent_range u).
  - apply (CpuFacts.clamp_percent_range u).
  - apply CpuFacts.clamp_percent_inside.
Qed.

(** The scenario's second sample, through the formula. *)
Lemma cpu_usage_formula_witness :
  V4.get_cpu_usage Scenario.cpu_ticks_1
  = (Py.Ok (Py.PFloat (S754_finite false 5629499534213119 (-48))),
     Run.with_self (V4.set_last_cpu 1400 2500)
       (Run.advance Sys.ProcStat Scenario.cpu_ticks_1)).
Proof.
  destruct (proj1 cpu_usage_formula Scenario.cpu_ticks_1
              [Scenario.cpu_line "cpu" 650 0 450 1400]
              1400 2500 1000 2000
              (S754_finite false 7205759403792794 (-53)))
    as (Hrun & _ & _ & Hin);
    [vm_compute; reflexivity .. | ].
  rewrite Hrun. rewrite Hin by (vm_compute; reflexivity).
  vm_compute. reflexivity.
Defined.

(* ================================================================== *)
(** * The tick *)
(* ================================================================== *)

Module TickFacts.
Import Py Sys Run RunFacts.

Create HintDb steady discriminated.

#[export] Hint Resolve steady_ret steady_raise steady_lift
  steady_get_self steady_modify_self steady_observe steady_read_text
  steady_read_int steady_tk steady_tk_int steady_shell : steady.

(** Walk through a statement, one construct at a time. *)
Ltac steady :=
  repeat first
    [ solve [auto with steady]
    | apply steady_bind; [ | intros ? ]
    | apply steady_try_except; [ | intros ? ]
    | apply steady_for_each; intros ?
    | match goal with
      | |- steady (match ?x with _ => _ end) => destruct x
      end ].

Lemma steady_config l s c : steady (V4.config l s c).
Proof. unfold V4.config. steady. Qed.

Lemma steady_draw_gauge g v : steady (V4.draw_gauge g v).
Proof. unfold V4.draw_gauge. steady. Qed.

Lemma steady_render : steady V4.render.
Proof. apply steady_tk. Qed.

Lemma steady_pop_append get set v : steady (V4.pop_append get set v).
Proof. unfold V4.pop_append. steady. Qed.

#[export] Hint Resolve steady_config steady_draw_gauge steady_render
  steady_pop_append : steady.

Lemma steady_get_gpu_temps : steady V4.get_gpu_temps.
Proof. unfold V4.get_gpu_temps. steady. Qed.

Lemma steady_get_gpu_frequency : steady V4.get_gpu_frequency.
Proof. unfold V4.get_gpu_frequency. steady. Qed.

Lemma steady_get_gpu_vram : steady V4.get_gpu_vram.
Proof. unfold V4.get_gpu_vram. steady. Qed.

Lemma steady_read_fans ids fans : steady (V4.read_fans ids fans).
Proof.
  revert fans. induction ids as [ | i rest IH]; intros fans;
    cbn [V4.read_fans]; steady.
Qed.

#[export] Hint Resolve steady_read_fans : steady.

Lemma steady_get_gpu_fans : steady V4.get_gpu_fans.
Proof. unfold V4.get_gpu_fans. steady. Qed.

Lemma steady_get_cpu_temp : steady V4.get_cpu_temp.
Proof. unfold V4.get_cpu_temp. steady. Qed.

Lemma steady_get_nvme_temp : steady V4.get_nvme_temp.
Proof. unfold V4.get_nvme_temp. steady. Qed.

Lemma steady_get_cpu_usage : steady V4.get_cpu_usage.
Proof. unfold V4.get_cpu_usage. steady. Qed.

Lemma steady_core_loop lines cores usages :
  steady (V4.core_loop lines cores usages).
Proof.
  revert usages. induction cores as [ | i rest IH]; intros usages;
    cbn [V4.core_loop]; steady.
Qed.

#[export] Hint Resolve steady_core_loop : steady.

Lemma steady_get_per_core_usage : steady V4.get_per_core_usage.
Proof. unfold V4.get_per_core_usage. steady. Qed.

Lemma steady_get_cpu_freq : steady V4.get_cpu_freq.
Proof. unfold V4.get_cpu_freq. steady. Qed.

Lemma steady_get_cpu_info : steady V4.get_cpu_info.
Proof. unfold V4.get_cpu_info. steady. Qed.

Lemma steady_get_disk_io : steady V4.get_disk_io.
Proof. unfold V4.get_disk_io. steady. Qed.

Lemma steady_get_network_speed : steady V4.get_network_speed.
Proof. unfold V4.get_network_speed. steady. Qed.

#[export] Hint Resolve steady_get_gpu_temps steady_get_gpu_frequency
  steady_get_gpu_vram steady_get_gpu_fans steady_get_cpu_temp
  steady_get_nvme_temp steady_get_cpu_usage steady_get_per_core_usage
  steady_get_cpu_freq steady_get_cpu_info steady_get_disk_io
  steady_get_network_speed : steady.

Lemma steady_update_gpu : steady V4.update_gpu.
Proof. unfold V4.update_gpu. steady. Qed.

Lemma steady_update_cpu : steady V4.update_cpu.
Proof. unfold V4.update_cpu. steady. Qed.

Lemma steady_update_cpu_cores : steady V4.update_cpu_cores.
Proof. unfold V4.update_cpu_cores. steady. Qed.

Lemma steady_update_disk_io : steady V4.update_disk_io.
Proof. unfold V4.update_disk_io. steady. Qed.

Lemma steady_update_network : steady V4.update_network.
Proof. unfold V4.update_network. steady. Qed.

Lemma steady_update_time : steady V4.update_time.
Proof. unfold V4.update_time. steady. Qed.

Lemma steady_update_memory : steady V4.update_memory.
Proof. unfold V4.update_memory. steady. Qed.

Lemma steady_update_storage : steady V4.update_storage.
Proof. unfold V4.update_storage. steady. Qed.

Lemma steady_update_processes : steady V4.update_processes.
Proof. unfold V4.update_processes. steady. Qed.

Lemma steady_update_system_status : steady V4.update_system_status.
Proof. unfold V4.update_system_status. steady. Qed.

#[export] Hint Resolve steady_update_gpu steady_update_cpu
  steady_update_cpu_cores steady_update_disk_io steady_update_network
  steady_update_time steady_update_memory steady_update_storage
  steady_update_processes steady_update_system_status : steady.

Lemma steady_pass_v4 : steady V4.sampling_pass.
Proof. unfold V4.sampling_pass. steady. Qed.

Lemma steady_v1_get_network_speed : steady V1.get_network_speed.
Proof. unfold V1.get_network_speed. steady. Qed.

#[export] Hint Resolve steady_v1_get_network_speed : steady.

Lemma steady_v1_update_network : steady V1.update_network.
Proof. unfold V1.update_network. steady. Qed.

Lemma steady_v1_panel : steady V1.panel.
Proof. unfold V1.panel. steady. Qed.

#[export] Hint Resolve steady_v1_update_network steady_v1_panel : steady.

Lemma steady_pass_v1 : steady V1.sampling_pass.
Proof. unfold V1.sampling_pass. steady. Qed.

Lemma update_all_tick (m : machine V4.SystemCommandCenter) :
  (schedules V4.sampling_pass m = true ->
   fst (V4.update_all m) = Ok tt
   /\ timers (snd (V4.update_all m))
      = timers m ++ [(1000, CB_update_all)]
   /\ (fst (V4.sampling_pass m) = Ok tt
       /\ printed (snd (V4.update_all m)) = printed m
       \/ exists e, fst (V4.sampling_pass m) = Raise e
                    /\ printed (snd (V4.update_all m))
                       = printed m ++ [e]))
  /\ (schedules V4.sampling_pass m = false ->
      (fst (V4.update_all m) = Raise TclError
       \/ fst (V4.update_all m) = Raise OSError)
      /\ timers (snd (V4.update_all m)) = timers m).
Proof.
  exact (pass_then_after V4.sampling_pass 1000 CB_update_all m
                         steady_pass_v4).
Qed.

Lemma v1_update_all_tick (m : machine V1.SystemCommandCenter) :
  (schedules V1.sampling_pass m = true ->
   fst (V1.update_all m) = Ok tt
   /\ timers (snd (V1.update_all m))
      = timers m ++ [(1000, CB_update_all)]
   /\ (fst (V1.sampling_pass m) = Ok tt
       /\ printed (snd (V1.update_all m)) = printed m
       \/ exists e, fst (V1.sampling_pass m) = Raise e
                    /\ printed (snd (V1.update_all m))
                       = printed m ++ [e]))
  /\ (schedules V1.sampling_pass m = false ->
      (fst (V1.update_all m) = Raise TclError
       \/ fst (V1.update_all m) = Raise OSError)
      /\ timers (snd (V1.update_all m)) = timers m).
Proof.
  exact (pass_then_after V1.sampling_pass 1000 CB_update_all m
                         steady_pass_v1).
Qed.

(** The machine on which [fire] runs the callback of the oldest
    timer. *)
Definition popped (m : machine V4.SystemCommandCenter)
  : machine V4.SystemCommandCenter :=
  {| self := self m; env := env m; instant := instant m;
     trace := trace m; timers := tl (timers m);
     printed := printed m |}.

(** Each of the next [n] ticks gets to schedule its successor. *)
Fixpoint keeps_ticking (n : nat) (m : machine V4.SystemCommandCenter)
  : bool :=
  match n with
  | O => true
  | S k =>
      schedules V4.sampling_pass (popped m)
      && keeps_ticking k (V4.fire m)
  end.

Lemma fire_popped (m : machine V4.SystemCommandCenter) (d : Z) :
  timers m = [(d, CB_update_all)] ->
  V4.fire m = snd (V4.update_all (popped m))
  /\ timers (popped m) = [].
Proof.
  intros Ht. unfold V4.fire, popped. rewrite Ht.
  split; reflexivity.
Qed.

Lemma fire_reschedules (m : machine V4.SystemCommandCenter)
      (d : Z) :
  timers m = [(d, CB_update_all)] ->
  schedules V4.sampling_pass (popped m) = true ->
  timers (V4.fire m) = [(1000, CB_update_all)].
Proof.
  intros Ht Hs. destruct (fire_popped m d Ht) as [-> Hp].
  destruct (proj1 (update_all_tick (popped m)) Hs) as (_ & T & _).
  now rewrite T, Hp.
Qed.

Lemma fire_stops (m : machine V4.SystemCommandCenter) (d : Z) :
  timers m = [(d, CB_update_all)] ->
  schedules V4.sampling_pass (popped m) = false ->
  timers (V4.fire m) = [].
Proof.
  intros Ht Hs. destruct (fire_popped m d Ht) as [-> Hp].
  destruct (proj2 (update_all_tick (popped m)) Hs) as (_ & T).
  now rewrite T, Hp.
Qed.

Lemma mainloop_reschedules (n : nat)
      (m : machine V4.SystemCommandCenter) (d : Z) :
  timers m = [(d, CB_update_all)] ->
  keeps_ticking n m = true ->
  exists d', timers (V4.mainloop n m) = [(d', CB_update_all)].
Proof.
  revert m d. induction n as [ | n IH]; intros m d Ht Hk.
  - exists d. exact Ht.
  - cbn [V4.mainloop]. cbn [keeps_ticking] in Hk.
    apply andb_true_iff in Hk. destruct Hk as [Hs Hk].
    apply (IH _ 1000); [ | exact Hk].
    now apply fire_reschedules with d.
Qed.

Lemma mainloop_idle (n : nat) (m : machine V4.SystemCommandCenter) :
  timers m = [] -> timers (V4.mainloop n m) = [].
Proof.
  revert m. induction n as [ | n IH]; intros m Ht; [exact Ht | ].
  cbn [V4.mainloop]. apply IH. unfold V4.fire. now rewrite Ht.
Qed.

Lemma mainloop_stops (n : nat) (m : machine V4.SystemCommandCenter)
      (d : Z) :
  timers m = [(d, CB_update_all)] ->
  schedules V4.sampling_pass (popped m) = false ->
  timers (V4.mainloop (S n) m) = [].
Proof.
  intros Ht Hs. cbn [V4.mainloop]. apply mainloop_idle.
  now apply fire_stops with d.
Qed.

End TickFacts.

(* ================================================================== *)
(** * The tick of the temperature monitor *)
(* ================================================================== *)

Module MonitorFacts.
Import Py Sys Run RunFacts InvFacts TickFacts TempMonitor.
Local Open Scope run_scope.

(** Until its last statement [update_temperatures] leaves the timers
    alone, and nothing in it catches an exception. *)
Lemma update_temperatures_failure (r : list (Z * callback)) :
  on_raise (fun a => root a = r) update_temperatures.
Proof.
  unfold update_temperatures, root_after, get_gpu_temp, get_cpu_temp,
    get_temp.
  repeat (apply on_raise_bind; [solve [kept] | intros ?]).
  apply on_raise_modify_self.
Qed.

Ltac completed :=
  repeat first
    [ apply completes_ret
    | apply completes_lift_ok
    | apply completes_get_self
    | apply completes_observe
    | apply completes_tk
    | apply completes_modify_self; intros ? ?; assumption
    | apply completes_bind; [ | intros ? ]
    | apply completes_try_except;
      [ solve [kept] | solve [steady] | intros ? ]
    | match goal with
      | |- completes _ (match ?x with _ => _ end) => destruct x
      end ].

Lemma run_completed {A B} (P : TemperatureMonitor -> Prop)
      (c : M TemperatureMonitor A) (k : A -> M TemperatureMonitor B)
      (m : machine TemperatureMonitor) :
  completes P c -> calm m -> P (self m) ->
  exists a m1, bind c k m = k a m1 /\ calm m1 /\ P (self m1).
Proof.
  intros Hc Hcalm HP. destruct (Hc m Hcalm HP) as (E & HP1 & a & Ha).
  unfold bind. destruct (c m) as [[a' | e] m1]; cbn in *;
    [ | discriminate].
  exists a', m1. split; [reflexivity | ]. split; [ | exact HP1].
  intros n. rewrite E. apply Hcalm.
Qed.

Ltac run_next P m0 tac :=
  match goal with
  | |- context [bind ?c ?k m0] =>
      let a := fresh "a" in
      let m1 := fresh "m" in
      let C := fresh "C" in
      let H := fresh "H" in
      destruct (run_completed P c k m0) as (a & m1 & -> & C & H);
      [ tac | assumption | assumption | cbv beta ]
  end.

Lemma update_temperatures_calm (m : machine TemperatureMonitor) :
  calm m ->
  fst (update_temperatures m) = Ok tt
  /\ root (self (snd (update_temperatures m)))
     = root (self m) ++ [(2000, CB_update_temperatures)].
Proof.
  intros Hcalm. unfold update_temperatures.
  set (P := fun a : TemperatureMonitor => root a = root (self m)).
  assert (P0 : P (self m)) by reflexivity.
  run_next P m ltac:(unfold get_gpu_temp, get_temp; completed).
  run_next P m0 ltac:(completed).
  run_next P m1 ltac:(unfold get_cpu_temp, get_temp; completed).
  run_next P m2 ltac:(completed).
  unfold root_after, bind, tk, modify_self.
  match goal with
  | C : calm ?x |- context [tk_error (env ?x) (instant ?x)] =>
      rewrite C
  end.
  cbn. split; [reflexivity | ].
  match goal with
  | H : P (self ?x) |- context [root (self ?x)] => now rewrite H
  end.
Qed.

Lemma update_temperatures_tk_gone (m : machine TemperatureMonitor) :
  (forall n, tk_error (env m) n = true) ->
  fst (update_temperatures m) = Raise TclError.
Proof.
  intros Hgone. unfold update_temperatures.
  assert (G : forall (src : source) f (m0 : machine TemperatureMonitor),
             exists t m1, get_temp src f m0 = (Ok t, m1)
                          /\ env m1 = env m0).
  { intros src f m0. unfold get_temp, try_except, bind, observe, lift,
      raise, ret.
    destruct (f (env m0) (instant m0)) as [ | | z];
      [cbn; do 2 eexists; split; reflexivity .. | ].
    destruct (truediv (PInt z) (PInt 1000));
      cbn; do 2 eexists; split; reflexivity. }
  destruct (G GpuTemp hwmon3_temp1_input m) as (g & m1 & Eg & E1).
  unfold get_gpu_temp. unfold bind at 1. rewrite Eg.
  assert (T : tk_error (env m1) (instant m1) = true)
    by (rewrite E1; apply Hgone).
  destruct g; unfold bind, tk; rewrite T; reflexivity.
Qed.

End MonitorFacts.

(** A V4 system in which every call into Tk fails: the pass raises at
    its first Tk call, the exception is caught and printed, and then
    [root.after] itself raises [TclError]: the tick ends with an
    exception and no timer is registered, so no further tick runs. *)
Lemma destroyed_tk_stops_the_ticking :
  fst (V4.update_all Scenario.tk_gone) = Py.Raise Py.TclError
  /\ Run.printed (snd (V4.update_all Scenario.tk_gone)) = [Py.TclError]
  /\ Run.timers (snd (V4.update_all Scenario.tk_gone)) = [].
Proof. vm_compute. repeat split. Qed.

(** C10.  A tick catches every exception of its sampling pass, prints
    it and goes on to call [root.after(1000, self.update_all)]; the
    print and that call are outside the handler.  So [update_all]
    returns normally with its callback appended to the pending timers
    exactly when the print (if any) and the call of [root.after]
    succeed, whatever the pass did; when one of them raises,
    [update_all] raises ([OSError] from the print, [TclError] from Tk)
    and no timer is registered.  Accordingly the main loop has
    [update_all] pending after any number of firings in which each
    tick could schedule, and has nothing pending any more once a tick
    could not.  This holds for the fourth and for the first version.
    [update_temperatures] of the temperature monitor has no handler at
    all: with a Tk that works it registers itself for 2000 ms later,
    whenever it raises it has registered nothing, and it does raise
    when Tk fails. *)
Theorem tick_schedules_the_next_unless_scheduling_fails :
  (forall m : Run.machine V4.SystemCommandCenter,
      (RunFacts.schedules V4.sampling_pass m = true ->
       fst (V4.update_all m) = Py.Ok tt
       /\ Run.timers (snd (V4.update_all m))
          = Run.timers m ++ [(1000, Run.CB_update_all)]
       /\ (fst (V4.sampling_pass m) = Py.Ok tt
           /\ Run.printed (snd (V4.update_all m)) = Run.printed m
           \/ exists e, fst (V4.sampling_pass m) = Py.Raise e
                        /\ Run.printed (snd (V4.update_all m))
                           = Run.printed m ++ [e]))
      /\ (RunFacts.schedules V4.sampling_pass m = false ->
          (fst (V4.update_all m) = Py.Raise Py.TclError
           \/ fst (V4.update_all m) = Py.Raise Py.OSError)
          /\ Run.timers (snd (V4.update_all m)) = Run.timers m))
  /\ (forall (n : nat) (m : Run.machine V4.SystemCommandCenter) (d : Z),
         Run.timers m = [(d, Run.CB_update_all)] ->
         (TickFacts.keeps_ticking n m = true ->
          exists d',
            Run.timers (V4.mainloop n m) = [(d', Run.CB_update_all)])
         /\ (RunFacts.schedules V4.sampling_pass (TickFacts.popped m)
             = false ->
             Run.timers (V4.mainloop (S n) m) = []))
  /\ (forall m : Run.machine V1.SystemCommandCenter,
         (RunFacts.schedules V1.sampling_pass m = true ->
          fst (V1.update_all m) = Py.Ok tt
          /\ Run.timers (snd (V1.update_all m))
             = Run.timers m ++ [(1000, Run.CB_update_all)]
          /\ (fst (V1.sampling_pass m) = Py.Ok tt
              /\ Run.printed (snd (V1.update_all m)) = Run.printed m
              \/ exists e, fst (V1.sampling_pass m) = Py.Raise e
                           /\ Run.printed (snd (V1.update_all m))
                              = Run.printed m ++ [e]))
         /\ (RunFacts.schedules V1.sampling_pass m = false ->
             (fst (V1.update_all m) = Py.Raise Py.TclError
              \/ fst (V1.update_all m) = Py.Raise Py.OSError)
             /\ Run.timers (snd (V1.update_all m)) = Run.timers m))
  /\ (forall m : Run.machine TempMonitor.TemperatureMonitor,
         (InvFacts.calm m ->
          fst (TempMonitor.update_temperatures m) = Py.Ok tt
          /\ TempMonitor.root
               (Run.self (snd (TempMonitor.update_temperatures m)))
             = TempMonitor.root (Run.self m)
               ++ [(2000, TempMonitor.CB_update_temperatures)])
         /\ (forall e,
                fst (TempMonitor.update_temperatures m) = Py.Raise e ->
                TempMonitor.root
                  (Run.self (snd (TempMonitor.update_temperatures m)))
                = TempMonitor.root (Run.self m))
         /\ ((forall n, Sys.tk_error (Run.env m) n = true) ->
             fst (TempMonitor.update_temperatures m)
             = Py.Raise Py.TclError)).
Proof.
  split; [exact TickFacts.update_all_tick | split; [ | split]].
  - intros n m d Ht. split.
    + now apply TickFacts.mainloop_reschedules with d.
    + now apply TickFacts.mainloop_stops with d.
  - exact TickFacts.v1_update_all_tick.
  - intros m. split; [ | split].
    + apply MonitorFacts.update_temperatures_calm.
    + intros e He.
      now apply (MonitorFacts.update_temperatures_failure _ m e).
    + apply MonitorFacts.update_temperatures_tk_gone.
Qed.

(** A system in which every fourth call into Tk fails: the first tick
    printed the [TclError] of its pass and scheduled the next one, and
    after three more ticks [update_all] is still pending. *)
Lemma tick_schedules_the_next_unless_scheduling_fails_witness :
  Run.printed Scenario.tk_fails_started = [Py.TclError]
  /\ Run.timers Scenario.tk_fails_started = [(1000, Run.CB_update_all)]
  /\ exists d',
      Run.timers (V4.mainloop 3%nat Scenario.tk_fails_started)
      = [(d', Run.CB_update_all)].
Proof.
  split; [ | split].
  - destruct (proj1 (proj1 tick_schedules_the_next_unless_scheduling_fails
                           Scenario.tk_fails))
      as (_ & _ & [[Hp _] | (e & He & Hp)]).
    + vm_compute. reflexivity.
    + vm_compute in Hp. discriminate Hp.
    + unfold Scenario.tk_fails_started. rewrite Hp.
      vm_compute in He. injection He as <-. reflexivity.
  - apply (proj1 (proj1 tick_schedules_the_next_unless_scheduling_fails
                        Scenario.tk_fails)).
    vm_compute. reflexivity.
  - apply (proj1 (proj1 (proj2
                           tick_schedules_the_next_unless_scheduling_fails)
                        3%nat Scenario.tk_fails_started 1000
                        ltac:(vm_compute; reflexivity))).
    vm_compute. reflexivity.
Defined.

(* ================================================================== *)
(** * The reads of /proc/stat *)
(* ================================================================== *)

Module StatFacts.
Import Py Sys Run RunFacts TickFacts.
Local Open Scope nat_scope.

Create HintDb selfish discriminated.

#[export] Hint Resolve selfish_ret selfish_raise selfish_lift
  selfish_get_self selfish_modify_self : selfish.

Ltac selfish :=
  repeat first
    [ solve [auto with selfish]
    | apply selfish_bind; [ | intros ? ]
    | apply selfish_try_except; [ | intros ? ]
    | match goal with
      | |- selfish (match ?x with _ => _ end) => destruct x
      end ].

Lemma selfish_core_loop lines cores usages :
  selfish (V4.core_loop lines cores usages).
Proof.
  revert usages. induction cores as [ | i rest IH]; intros usages;
    cbn [V4.core_loop]; selfish.
Qed.

#[export] Hint Resolve selfish_core_loop : selfish.

(** [get_cpu_usage] makes one read of [/proc/stat], at the instant it
    is called, and is determined by what it read. *)
Lemma get_cpu_usage_one_read (m : machine V4.SystemCommandCenter) :
  trace (snd (V4.get_cpu_usage m)) = trace m ++ [(ProcStat, instant m)]
  /\ instant (snd (V4.get_cpu_usage m)) = S (instant m)
  /\ forall m', self m' = self m ->
                proc_stat (env m') (instant m')
                = proc_stat (env m) (instant m) ->
                fst (V4.get_cpu_usage m') = fst (V4.get_cpu_usage m)
                /\ self (snd (V4.get_cpu_usage m'))
                   = self (snd (V4.get_cpu_usage m)).
Proof.
  unfold V4.get_cpu_usage. apply one_read; intros; selfish.
Qed.

Lemma get_per_core_usage_one_read (m : machine V4.SystemCommandCenter) :
  trace (snd (V4.get_per_core_usage m))
  = trace m ++ [(ProcStat, instant m)]
  /\ instant (snd (V4.get_per_core_usage m)) = S (instant m)
  /\ forall m', self m' = self m ->
                proc_stat (env m') (instant m')
                = proc_stat (env m) (instant m) ->
                fst (V4.get_per_core_usage m')
                = fst (V4.get_per_core_usage m)
                /\ self (snd (V4.get_per_core_usage m'))
                   = self (snd (V4.get_per_core_usage m)).
Proof.
  unfold V4.get_per_core_usage. apply one_read; intros; selfish.
Qed.

(** A statement that starts with a sampler's read and goes on with
    steady statements: the read is the first new entry of the trace,
    and time has moved on when it ends. *)
Lemma read_first {S A B} (src : source) (c : M S A) (k : A -> M S B)
      (m : machine S) :
  trace (snd (c m)) = trace m ++ [(src, instant m)] ->
  instant (snd (c m)) = Datatypes.S (instant m) ->
  (forall a, steady (k a)) ->
  instant m < instant (snd (bind c k m))
  /\ exists l, trace (snd (bind c k m))
               = trace m ++ (src, instant m) :: l.
Proof.
  intros Ht Hi Hk. unfold bind.
  destruct (c m) as [[a | e] m1]; cbn [snd] in *.
  - destruct (Hk a m1) as (_ & _ & _ & I & l & L). split; [lia | ].
    exists l. now rewrite L, Ht, <- app_assoc.
  - split; [lia | ]. exists []. exact Ht.
Qed.

Lemma update_cpu_reads_first (m : machine V4.SystemCommandCenter) :
  instant m < instant (snd (V4.update_cpu m))
  /\ exists l, trace (snd (V4.update_cpu m))
               = trace m ++ (ProcStat, instant m) :: l.
Proof.
  destruct (get_cpu_usage_one_read m) as (Ht & Hi & _).
  unfold V4.update_cpu. apply read_first; auto.
  intros usage. steady.
Qed.

Lemma update_cpu_cores_reads_first (m : machine V4.SystemCommandCenter) :
  instant m < instant (snd (V4.update_cpu_cores m))
  /\ exists l, trace (snd (V4.update_cpu_cores m))
               = trace m ++ (ProcStat, instant m) :: l.
Proof.
  destruct (get_per_core_usage_one_read m) as (Ht & Hi & _).
  unfold V4.update_cpu_cores. apply read_first; auto.
  intros usages. steady.
Qed.

End StatFacts.

(** C4 as the specification states it fails: in one tick of a one-core
    system whose [/proc/stat] moves on with every instant, the file is
    read twice, at the instants 14 and 24; the total usage is derived
    from the first read (1014 idle ticks of 2028) and the usage of core
    0 from the second (1024 of 2048), although in any one snapshot the
    two lines agree. *)
Lemma one_tick_reads_proc_stat_twice :
  Run.stat_reads (Run.trace Scenario.moving_ticks_1) = [14; 24]%nat
  /\ V4.last_cpu (Run.self Scenario.moving_ticks_1) = Some (1014, 2028)
  /\ V4.last_core_stats (Run.self Scenario.moving_ticks_1) 0%nat
     = Some (1024, 2048)
  /\ V4.last_core_stats (Run.self Scenario.moving_ticks_1) 0%nat
     <> V4.last_cpu (Run.self Scenario.moving_ticks_1).
Proof.
  split; [vm_compute; reflexivity | ].
  split; [vm_compute; reflexivity | ].
  split; [vm_compute; reflexivity | ].
  vm_compute. intros H. discriminate H.
Qed.

(** C4, amended.  The total usage and the per-core usage each come
    from a read of [/proc/stat] of their own: [get_cpu_usage] reads the
    file once, at the instant it is called, and its result and what it
    stores are determined by that read; so does [get_per_core_usage];
    and within a tick the second read comes strictly after the first,
    since [update_cpu] starts with its read and [update_cpu_cores],
    which follows it, starts with another one at a later instant. *)
Theorem total_and_per_core_usage_read_separately :
  forall m : Run.machine V4.SystemCommandCenter,
    (Run.trace (snd (V4.get_cpu_usage m))
     = Run.trace m ++ [(Sys.ProcStat, Run.instant m)]
     /\ forall m', Run.self m' = Run.self m ->
                   Sys.proc_stat (Run.env m') (Run.instant m')
                   = Sys.proc_stat (Run.env m) (Run.instant m) ->
                   fst (V4.get_cpu_usage m') = fst (V4.get_cpu_usage m)
                   /\ Run.self (snd (V4.get_cpu_usage m'))
                      = Run.self (snd (V4.get_cpu_usage m)))
    /\ (Run.trace (snd (V4.get_per_core_usage m))
        = Run.trace m ++ [(Sys.ProcStat, Run.instant m)]
        /\ forall m', Run.self m' = Run.self m ->
                      Sys.proc_stat (Run.env m') (Run.instant m')
                      = Sys.proc_stat (Run.env m) (Run.instant m) ->
                      fst (V4.get_per_core_usage m')
                      = fst (V4.get_per_core_usage m)
                      /\ Run.self (snd (V4.get_per_core_usage m'))
                         = Run.self (snd (V4.get_per_core_usage m)))
    /\ (let m1 := snd (V4.update_cpu m) in
        let m2 := snd (V4.update_cpu_cores m1) in
        (Run.instant m < Run.instant m1)%nat
        /\ exists l1 l2,
            Run.trace m1
            = Run.trace m ++ (Sys.ProcStat, Run.instant m) :: l1
            /\ Run.trace m2
               = Run.trace m1 ++ (Sys.ProcStat, Run.instant m1) :: l2).
Proof.
  intros m. split; [ | split].
  - destruct (StatFacts.get_cpu_usage_one_read m) as (Ht & _ & Hd).
    split; assumption.
  - destruct (StatFacts.get_per_core_usage_one_read m) as (Ht & _ & Hd).
    split; assumption.
  - cbv zeta.
    destruct (StatFacts.update_cpu_reads_first m) as (Hi & l1 & H1).
    destruct (StatFacts.update_cpu_cores_reads_first
                (snd (V4.update_cpu m))) as (_ & l2 & H2).
    split; [exact Hi | ]. exists l1, l2. split; assumption.
Qed.

(** In the one-core system, [update_cpu] ends at instant 10, and the
    per-core sampler called next reads [/proc/stat] there, not at
    instant 0 where the total was read. *)
Lemma total_and_per_core_usage_read_separately_witness :
  Run.trace (snd (V4.get_per_core_usage
                    (snd (V4.update_cpu Scenario.moving_ticks))))
  = Run.trace (snd (V4.update_cpu Scenario.moving_ticks))
    ++ [(Sys.ProcStat, 10%nat)].
Proof.
  destruct (total_and_per_core_usage_read_separately
              (snd (V4.update_cpu Scenario.moving_ticks)))
    as (_ & (Ht & _) & _).
  rewrite Ht. reflexivity.
Defined.

(* ================================================================== *)
(** * Readings that are absent *)
(* ================================================================== *)

Module AbsentFacts.
Import Py Sys Run.

Lemma read_int_fails {S} (src : source)
      (f : environment -> nat -> file) (m : machine S) :
  (forall z, f (env m) (instant m) <> Holds z) ->
  exists e, @read_int S src f m = (Raise e, advance src m).
Proof.
  intros H. unfold read_int.
  destruct (f (env m) (instant m)) as [ | | z]; eauto.
  now destruct (H z).
Qed.

Lemma get_cpu_temp_absent (m : machine V4.SystemCommandCenter) :
  (forall z, hwmon2_temp1_input (env m) (instant m) <> Holds z) ->
  fst (V4.get_cpu_temp m) = Ok None.
Proof.
  intros H. unfold V4.get_cpu_temp, try_except, bind.
  destruct (read_int_fails CpuTemp hwmon2_temp1_input m H) as [e ->].
  reflexivity.
Qed.

Lemma get_nvme_temp_absent (m : machine V4.SystemCommandCenter) :
  (forall z, hwmon1_temp1_input (env m) (instant m) <> Holds z) ->
  fst (V4.get_nvme_temp m) = Ok None.
Proof.
  intros H. unfold V4.get_nvme_temp, try_except, bind.
  destruct (read_int_fails NvmeTemp hwmon1_temp1_input m H) as [e ->].
  reflexivity.
Qed.

Lemma get_gpu_temps_no_root (m : machine V4.SystemCommandCenter) :
  V4.has_root (self m) = false ->
  V4.get_gpu_temps m = (Ok (None, None), m).
Proof.
  intros H. unfold V4.get_gpu_temps, bind, get_self.
  rewrite H. reflexivity.
Qed.

Lemma get_gpu_temps_unreadable (m : machine V4.SystemCommandCenter) :
  pmt_telem (env m) (instant m) = None ->
  fst (V4.get_gpu_temps m) = Ok (None, None).
Proof.
  intros H. unfold V4.get_gpu_temps, bind, get_self.
  destruct (negb (V4.has_root (self m))); [reflexivity | ].
  unfold try_except, bind, read_text. now rewrite H.
Qed.

Lemma get_gpu_frequency_absent (m : machine V4.SystemCommandCenter) :
  (forall z, gt0_act_freq (env m) (instant m) <> Holds z) ->
  fst (V4.get_gpu_frequency m) = Ok (None, None).
Proof.
  intros H. unfold V4.get_gpu_frequency, try_except, bind.
  destruct (read_int_fails GpuActFreq gt0_act_freq m H) as [e ->].
  reflexivity.
Qed.

Lemma get_cpu_freq_unreadable (m : machine V4.SystemCommandCenter) :
  proc_cpuinfo (env m) (instant m) = None ->
  fst (V4.get_cpu_freq m) = Ok (PInt 0).
Proof.
  intros H. unfold V4.get_cpu_freq, try_except, bind, read_text.
  now rewrite H.
Qed.

Lemma read_fans_absent (ids : list nat) (fans : list num)
      (m : machine V4.SystemCommandCenter) :
  (forall i n z, hwmon3_fan_input (env m) i n <> Holds z) ->
  fst (V4.read_fans ids fans m) = Ok fans.
Proof.
  revert m. induction ids as [ | i rest IH]; intros m H;
    [reflexivity | ].
  cbn [V4.read_fans]. unfold bind at 1, try_except, bind at 1.
  destruct (read_int_fails (Fan i)
              (fun e => hwmon3_fan_input e i) m (H i (instant m)))
    as [e ->].
  cbn [ret]. apply IH. exact H.
Qed.

Lemma get_gpu_fans_absent (m : machine V4.SystemCommandCenter) :
  (forall i n z, hwmon3_fan_input (env m) i n <> Holds z) ->
  fst (V4.get_gpu_fans m) = Ok (PInt 0).
Proof.
  intros H. unfold V4.get_gpu_fans, try_except, bind.
  pose proof (read_fans_absent [1; 2; 3]%nat [] m H) as Hf.
  destruct (V4.read_fans [1; 2; 3]%nat [] m) as [[fans | e] m1];
    cbn [fst] in Hf; [ | discriminate].
  injection Hf as ->. reflexivity.
Qed.

Lemma get_cpu_usage_unreadable (m : machine V4.SystemCommandCenter) :
  proc_stat (env m) (instant m) = None ->
  fst (V4.get_cpu_usage m) = Ok (PInt 0).
Proof.
  intros H. unfold V4.get_cpu_usage, try_except, bind, read_text.
  now rewrite H.
Qed.

End AbsentFacts.

(** C9 as the specification states it fails: the CPU frequency sampler
    and the fan sampler answer an absent source with the number 0, the
    very value they report for a [cpu MHz : 0.000] line and for fans
    that stand still. *)
Lemma absent_frequency_and_fans_read_as_zero :
  fst (V4.get_cpu_freq Scenario.no_sensors) = Py.Ok (Py.PInt 0)
  /\ fst (V4.get_cpu_freq Scenario.zero_readings) = Py.Ok (Py.PInt 0)
  /\ fst (V4.get_gpu_fans Scenario.no_sensors) = Py.Ok (Py.PInt 0)
  /\ fst (V4.get_gpu_fans Scenario.zero_readings) = Py.Ok (Py.PInt 0).
Proof.
  repeat (split; [vm_compute; reflexivity | ]). vm_compute; reflexivity.
Qed.

(** C9, amended.  The temperature samplers (CPU, NVMe, GPU) and the
    GPU frequency sampler return the explicit [None] when their source
    cannot be read; the CPU frequency sampler, the fan sampler and the
    CPU usage sampler return the number 0 on their failure paths. *)
Theorem absent_readings :
  forall m : Run.machine V4.SystemCommandCenter,
    ((forall z, Sys.hwmon2_temp1_input (Run.env m) (Run.instant m)
                <> Sys.Holds z) ->
     fst (V4.get_cpu_temp m) = Py.Ok None)
    /\ ((forall z, Sys.hwmon1_temp1_input (Run.env m) (Run.instant m)
                   <> Sys.Holds z) ->
        fst (V4.get_nvme_temp m) = Py.Ok None)
    /\ (V4.has_root (Run.self m) = false ->
        fst (V4.get_gpu_temps m) = Py.Ok (None, None))
    /\ (Sys.pmt_telem (Run.env m) (Run.instant m) = None ->
        fst (V4.get_gpu_temps m) = Py.Ok (None, None))
    /\ ((forall z, Sys.gt0_act_freq (Run.env m) (Run.instant m)
                   <> Sys.Holds z) ->
        fst (V4.get_gpu_frequency m) = Py.Ok (None, None))
    /\ (Sys.proc_cpuinfo (Run.env m) (Run.instant m) = None ->
        fst (V4.get_cpu_freq m) = Py.Ok (Py.PInt 0))
    /\ ((forall i n z, Sys.hwmon3_fan_input (Run.env m) i n
                       <> Sys.Holds z) ->
        fst (V4.get_gpu_fans m) = Py.Ok (Py.PInt 0))
    /\ (Sys.proc_stat (Run.env m) (Run.instant m) = None ->
        fst (V4.get_cpu_usage m) = Py.Ok (Py.PInt 0)).
Proof.
  intros m.
  split; [apply AbsentFacts.get_cpu_temp_absent | ].
  split; [apply AbsentFacts.get_nvme_temp_absent | ].
  split; [intros H; now rewrite AbsentFacts.get_gpu_temps_no_root | ].
  split; [apply AbsentFacts.get_gpu_temps_unreadable | ].
  split; [apply AbsentFacts.get_gpu_frequency_absent | ].
  split; [apply AbsentFacts.get_cpu_freq_unreadable | ].
  split; [apply AbsentFacts.get_gpu_fans_absent | ].
  apply AbsentFacts.get_cpu_usage_unreadable.
Qed.

(** The system without sensors: no CPU temperature, and 0 MHz, 0 RPM. *)
Lemma absent_readings_witness :
  fst (V4.get_cpu_temp Scenario.no_sensors) = Py.Ok None
  /\ fst (V4.get_cpu_freq Scenario.no_sensors) = Py.Ok (Py.PInt 0)
  /\ fst (V4.get_gpu_fans Scenario.no_sensors) = Py.Ok (Py.PInt 0).
Proof.
  destruct (absent_readings Scenario.no_sensors)
    as (Ht & _ & _ & _ & _ & Hf & Hr & _).
  split; [ | split].
  - apply Ht. intros z H. discriminate H.
  - apply Hf. reflexivity.
  - apply Hr. intros i n z H. discriminate H.
Defined.

(** C8 (the CPU temperature path departs from it).  The CPU sensor
    reads 40 degrees in the first tick and its file is missing in the
    second.  After the second tick the CPU temperature status still
    shows NOMINAL in the nominal colour and the gauge still shows 40.0,
    although the sampler returned [None], which the classifier maps to
    OFFLINE; no exception was printed.  The GPU temperature, which is
    unavailable in both ticks, is marked NO ACCESS in the dim colour and
    its history is still the initial 60 zeros. *)
Theorem lost_cpu_sensor_keeps_its_old_status :
  V4.labels (Run.self Scenario.cpu_sensor_lost_1) V4.cpu_temp_status
  = (V4.NOMINAL, V4.nominal)
  /\ filter (fun ev => match fst ev with
                       | Sys.CpuTemp => true
                       | _ => false
                       end)
            (Run.trace Scenario.cpu_sensor_lost_2)
     = [(Sys.CpuTemp, 15%nat); (Sys.CpuTemp, 62%nat)]
  /\ Sys.hwmon2_temp1_input (Run.env Scenario.cpu_sensor_lost_2) 62
     = Sys.Absent
  /\ V4.labels (Run.self Scenario.cpu_sensor_lost_2) V4.cpu_temp_status
     = (V4.NOMINAL, V4.nominal)
  /\ V4.gauges (Run.self Scenario.cpu_sensor_lost_2) V4.cpu_temp_canvas
     = Some (Py.PFloat (Py.double 40))
  /\ V4.get_temp_color_status None (Py.PInt 55, Py.PInt 75)
     = (V4.text_dim, V4.OFFLINE)
  /\ Run.printed Scenario.cpu_sensor_lost_2 = []
  /\ V4.labels (Run.self Scenario.cpu_sensor_lost_2) V4.gpu_temp_status
     = (V4.NO_ACCESS, V4.text_dim)
  /\ V4.gpu_temp_history (Run.self Scenario.cpu_sensor_lost_2)
     = repeat (Py.PInt 0) 60.
Proof.
  repeat (split; [vm_compute; reflexivity | ]). vm_compute; reflexivity.
Qed.


(* ================================================================== *)
(** * What the samplers and the panels leave alone *)
(* ================================================================== *)

Module FrameFacts.
Import Py Sys Run RunFacts TickFacts InvFacts.

(** [a'] is [a] with other stored samples: every attribute but the
    [last_*] ones is the same. *)
Definition resampled (a a' : V4.SystemCommandCenter) : Prop :=
  exists nrx ntx nt dr dw dt cs cpu,
    a' = V4.set_samples nrx ntx nt dr dw dt cs cpu a.

Lemma resampled_refl (a : V4.SystemCommandCenter) : resampled a a.
Proof.
  exists (V4.last_net_rx a), (V4.last_net_tx a), (V4.last_net_time a),
    (V4.last_disk_read a), (V4.last_disk_write a),
    (V4.last_disk_time a), (V4.last_core_stats a), (V4.last_cpu a).
  now destruct a.
Qed.

Lemma resampled_set_samples a0 a nrx ntx nt dr dw dt cs cpu :
  resampled a0 a ->
  resampled a0 (V4.set_samples nrx ntx nt dr dw dt cs cpu a).
Proof.
  intros (x1 & x2 & x3 & x4 & x5 & x6 & x7 & x8 & ->).
  exists nrx, ntx, nt, dr, dw, dt, cs, cpu. reflexivity.
Qed.

Lemma resampled_set_last_net a0 a rx tx t :
  resampled a0 a -> resampled a0 (V4.set_last_net rx tx t a).
Proof. apply resampled_set_samples. Qed.

Lemma resampled_set_last_disk a0 a r w t :
  resampled a0 a -> resampled a0 (V4.set_last_disk r w t a).
Proof. apply resampled_set_samples. Qed.

Lemma resampled_set_last_cpu a0 a idle total :
  resampled a0 a -> resampled a0 (V4.set_last_cpu idle total a).
Proof. apply resampled_set_samples. Qed.

Lemma resampled_set_last_core a0 a i idle total :
  resampled a0 a -> resampled a0 (V4.set_last_core i idle total a).
Proof. apply resampled_set_samples. Qed.

Create HintDb keeps discriminated.

#[export] Hint Resolve keeps_ret keeps_raise keeps_lift keeps_get_self
  keeps_observe keeps_read_text keeps_read_int keeps_tk keeps_tk_int
  keeps_shell keeps_print keeps_root_after : keeps.

#[export] Hint Resolve resampled_set_last_net resampled_set_last_disk
  resampled_set_last_cpu resampled_set_last_core : keeps.

Ltac keeps :=
  repeat first
    [ solve [auto with keeps]
    | apply keeps_bind; [ | intros ? ]
    | apply keeps_try_except; [ | intros ? ]
    | apply keeps_for_each; intros ?
    | apply keeps_modify_self;
      first [ solve [auto with keeps] | intros ? ?; assumption ]
    | match goal with
      | |- InvFacts.keeps _ (match ?x with _ => _ end) => destruct x
      end ].

(** A sampler only stores samples. *)
Definition resamples {A} (c : M V4.SystemCommandCenter A) : Prop :=
  forall a0, InvFacts.keeps (resampled a0) c.

Lemma resamples_get_gpu_temps : resamples V4.get_gpu_temps.
Proof. intros a0. unfold V4.get_gpu_temps. keeps. Qed.

Lemma resamples_get_gpu_frequency : resamples V4.get_gpu_frequency.
Proof. intros a0. unfold V4.get_gpu_frequency. keeps. Qed.

Lemma resamples_get_gpu_vram : resamples V4.get_gpu_vram.
Proof. intros a0. unfold V4.get_gpu_vram. keeps. Qed.

Lemma resamples_read_fans ids fans : resamples (V4.read_fans ids fans).
Proof.
  intros a0. revert fans.
  induction ids as [ | i rest IH]; intros fans; cbn [V4.read_fans];
    keeps.
Qed.

Lemma resamples_get_gpu_fans : resamples V4.get_gpu_fans.
Proof.
  intros a0. unfold V4.get_gpu_fans.
  apply keeps_try_except; [ | intros ?; keeps].
  apply keeps_bind; [apply resamples_read_fans | intros ?; keeps].
Qed.

Lemma resamples_get_cpu_temp : resamples V4.get_cpu_temp.
Proof. intros a0. unfold V4.get_cpu_temp. keeps. Qed.

Lemma resamples_get_nvme_temp : resamples V4.get_nvme_temp.
Proof. intros a0. unfold V4.get_nvme_temp. keeps. Qed.

Lemma resamples_get_cpu_usage : resamples V4.get_cpu_usage.
Proof. intros a0. unfold V4.get_cpu_usage. keeps. Qed.

Lemma resamples_core_loop lines cores usages :
  resamples (V4.core_loop lines cores usages).
Proof.
  intros a0. revert usages.
  induction cores as [ | i rest IH]; intros usages;
    cbn [V4.core_loop]; keeps.
Qed.

Lemma resamples_get_per_core_usage : resamples V4.get_per_core_usage.
Proof.
  intros a0. unfold V4.get_per_core_usage.
  apply keeps_try_except; [ | intros ?; keeps].
  apply keeps_bind; [keeps | intros lines].
  apply keeps_bind; [keeps | intros s]. apply resamples_core_loop.
Qed.

Lemma resamples_get_cpu_freq : resamples V4.get_cpu_freq.
Proof. intros a0. unfold V4.get_cpu_freq. keeps. Qed.

Lemma resamples_get_cpu_info : resamples V4.get_cpu_info.
Proof. intros a0. unfold V4.get_cpu_info. keeps. Qed.

Lemma resamples_get_disk_io : resamples V4.get_disk_io.
Proof. intros a0. unfold V4.get_disk_io. keeps. Qed.

Lemma resamples_get_network_speed : resamples V4.get_network_speed.
Proof. intros a0. unfold V4.get_network_speed. keeps. Qed.

(** A property of [self] that does not look at the stored samples. *)
Definition sample_blind (P : V4.SystemCommandCenter -> Prop) : Prop :=
  forall a a', resampled a a' -> P a -> P a'.

Lemma keeps_sampler {A} (P : V4.SystemCommandCenter -> Prop)
      (c : M V4.SystemCommandCenter A) :
  sample_blind P -> resamples c -> InvFacts.keeps P c.
Proof.
  intros HP Hc m H.
  apply (HP (self m)); [ | exact H].
  apply (Hc (self m) m). apply resampled_refl.
Qed.

(** What a sampler returned is all that changed outside the samples:
    each attribute below is the one before the call. *)
Lemma sampler_leaves {A} (c : M V4.SystemCommandCenter A)
      (m : machine V4.SystemCommandCenter) :
  resamples c ->
  let a := self m in
  let a' := self (snd (c m)) in
  V4.cpu_history a' = V4.cpu_history a
  /\ V4.gpu_temp_history a' = V4.gpu_temp_history a
  /\ V4.net_rx_history a' = V4.net_rx_history a
  /\ V4.net_tx_history a' = V4.net_tx_history a
  /\ V4.disk_read_history a' = V4.disk_read_history a
  /\ V4.disk_write_history a' = V4.disk_write_history a
  /\ V4.num_cores a' = V4.num_cores a
  /\ V4.has_root a' = V4.has_root a
  /\ V4.is_critical a' = V4.is_critical a
  /\ V4.labels a' = V4.labels a
  /\ V4.gauges a' = V4.gauges a.
Proof.
  intros Hc a a'.
  destruct (Hc a m (resampled_refl a))
    as (x1 & x2 & x3 & x4 & x5 & x6 & x7 & x8 & E).
  unfold a'. rewrite E. repeat split.
Qed.

End FrameFacts.

(* ================================================================== *)
(** * A tick keeps the history buffers full *)
(* ================================================================== *)

Module HistoryFacts.
Import Py Sys Run RunFacts TickFacts InvFacts FrameFacts.

(** Every history buffer has its 60 entries. *)
Definition histories_full (a : V4.SystemCommandCenter) : Prop :=
  List.length (V4.cpu_history a) = 60%nat
  /\ List.length (V4.gpu_temp_history a) = 60%nat
  /\ List.length (V4.net_rx_history a) = 60%nat
  /\ List.length (V4.net_tx_history a) = 60%nat
  /\ List.length (V4.disk_read_history a) = 60%nat
  /\ List.length (V4.disk_write_history a) = 60%nat.

Lemma histories_full_blind : sample_blind histories_full.
Proof.
  intros a a' (x1 & x2 & x3 & x4 & x5 & x6 & x7 & x8 & ->) H. exact H.
Qed.

Lemma init_histories_full t_net t_disk n root :
  histories_full (V4.init t_net t_disk n root).
Proof. repeat split. Qed.

(** One [pop(0)]/[append] on a buffer that [set] writes back. *)
Lemma keeps_pop_append (P : V4.SystemCommandCenter -> Prop) get set v :
  (forall a h, P a -> List.length h = List.length (get a) ->
               P (set h a)) ->
  InvFacts.keeps P (V4.pop_append get set v).
Proof.
  intros Hset m H. unfold V4.pop_append, bind, get_self, lift.
  destruct (V4.push (get (self m)) v) as [h | e] eqn:E; cbn; auto.
  apply Hset; auto. eapply push_length; eauto.
Qed.

Lemma completes_pop_append (P : V4.SystemCommandCenter -> Prop)
      get set v :
  (forall a, P a -> get a <> []) ->
  (forall a h, P a -> List.length h = List.length (get a) ->
               P (set h a)) ->
  completes P (V4.pop_append get set v).
Proof.
  intros Hne Hset m _ H. unfold V4.pop_append, bind, get_self, lift.
  destruct (V4.push (get (self m)) v) as [h | e] eqn:E; cbn.
  - split; [reflexivity | split; [ | eauto]].
    apply Hset; auto. eapply push_length; eauto.
  - destruct (get (self m)) eqn:G; [ | discriminate].
    now destruct (Hne _ H).
Qed.

Ltac full_after_set :=
  let a := fresh "a" in
  let h := fresh "h" in
  let H := fresh "H" in
  let L := fresh "L" in
  intros a h H L; unfold histories_full in *; cbn in *;
  repeat split; try tauto; try (rewrite L; tauto).

Ltac full_nonempty :=
  let a := fresh "a" in
  let H := fresh "H" in
  let E := fresh "E" in
  intros a H E; unfold histories_full in H; rewrite E in H;
  cbn in H; decompose [and] H; discriminate.

Lemma keeps_push_cpu v :
  InvFacts.keeps histories_full
    (V4.pop_append V4.cpu_history V4.set_cpu_history v).
Proof. apply keeps_pop_append. full_after_set. Qed.

Lemma keeps_push_gpu v :
  InvFacts.keeps histories_full
    (V4.pop_append V4.gpu_temp_history V4.set_gpu_temp_history v).
Proof. apply keeps_pop_append. full_after_set. Qed.

Lemma keeps_push_net_rx v :
  InvFacts.keeps histories_full
    (V4.pop_append V4.net_rx_history V4.set_net_rx_history v).
Proof. apply keeps_pop_append. full_after_set. Qed.

Lemma keeps_push_net_tx v :
  InvFacts.keeps histories_full
    (V4.pop_append V4.net_tx_history V4.set_net_tx_history v).
Proof. apply keeps_pop_append. full_after_set. Qed.

Lemma keeps_push_disk_read v :
  InvFacts.keeps histories_full
    (V4.pop_append V4.disk_read_history V4.set_disk_read_history v).
Proof. apply keeps_pop_append. full_after_set. Qed.

Lemma keeps_push_disk_write v :
  InvFacts.keeps histories_full
    (V4.pop_append V4.disk_write_history V4.set_disk_write_history v).
Proof. apply keeps_pop_append. full_after_set. Qed.

Lemma completes_push_cpu v :
  completes histories_full
    (V4.pop_append V4.cpu_history V4.set_cpu_history v).
Proof.
  apply completes_pop_append; [full_nonempty | full_after_set].
Qed.

Lemma completes_push_gpu v :
  completes histories_full
    (V4.pop_append V4.gpu_temp_history V4.set_gpu_temp_history v).
Proof.
  apply completes_pop_append; [full_nonempty | full_after_set].
Qed.

Lemma completes_push_net_rx v :
  completes histories_full
    (V4.pop_append V4.net_rx_history V4.set_net_rx_history v).
Proof.
  apply completes_pop_append; [full_nonempty | full_after_set].
Qed.

Lemma completes_push_net_tx v :
  completes histories_full
    (V4.pop_append V4.net_tx_history V4.set_net_tx_history v).
Proof.
  apply completes_pop_append; [full_nonempty | full_after_set].
Qed.

Lemma completes_push_disk_read v :
  completes histories_full
    (V4.pop_append V4.disk_read_history V4.set_disk_read_history v).
Proof.
  apply completes_pop_append; [full_nonempty | full_after_set].
Qed.

Lemma completes_push_disk_write v :
  completes histories_full
    (V4.pop_append V4.disk_write_history V4.set_disk_write_history v).
Proof.
  apply completes_pop_append; [full_nonempty | full_after_set].
Qed.

Create HintDb full discriminated.

#[export] Hint Resolve keeps_ret keeps_raise keeps_lift keeps_get_self
  keeps_observe keeps_read_text keeps_read_int keeps_tk keeps_tk_int
  keeps_shell keeps_print keeps_root_after
  keeps_push_cpu keeps_push_gpu keeps_push_net_rx keeps_push_net_tx
  keeps_push_disk_read keeps_push_disk_write : full.

Lemma full_sampler {A} (c : M V4.SystemCommandCenter A) :
  resamples c -> InvFacts.keeps histories_full c.
Proof. apply keeps_sampler. apply histories_full_blind. Qed.

Create HintDb samplers discriminated.

#[export] Hint Resolve resamples_get_gpu_temps
  resamples_get_gpu_frequency resamples_get_gpu_vram
  resamples_get_gpu_fans resamples_get_cpu_temp resamples_get_nvme_temp
  resamples_get_cpu_usage resamples_get_per_core_usage
  resamples_get_cpu_freq resamples_get_cpu_info resamples_get_disk_io
  resamples_get_network_speed resamples_core_loop resamples_read_fans
  : samplers.

Ltac full :=
  repeat first
    [ solve [auto with full]
    | apply full_sampler; solve [auto with samplers]
    | apply keeps_bind; [ | intros ? ]
    | apply keeps_try_except; [ | intros ? ]
    | apply keeps_for_each; intros ?
    | apply keeps_modify_self; intros ? ?; assumption
    | match goal with
      | |- InvFacts.keeps _ (match ?x with _ => _ end) => destruct x
      end ].

Lemma full_config l s c : InvFacts.keeps histories_full (V4.config l s c).
Proof. unfold V4.config. full. Qed.

Lemma full_draw_gauge g v :
  InvFacts.keeps histories_full (V4.draw_gauge g v).
Proof. unfold V4.draw_gauge. full. Qed.

#[export] Hint Resolve full_config full_draw_gauge : full.

Lemma full_draw_vram_bar used total :
  InvFacts.keeps histories_full (V4.draw_vram_bar used total).
Proof. unfold V4.draw_vram_bar, V4.render. full. Qed.

#[export] Hint Resolve full_draw_vram_bar : full.

Lemma full_update_gpu : InvFacts.keeps histories_full V4.update_gpu.
Proof. unfold V4.update_gpu, V4.render. full. Qed.

Lemma full_update_cpu : InvFacts.keeps histories_full V4.update_cpu.
Proof. unfold V4.update_cpu, V4.render. full. Qed.

Lemma full_update_cpu_cores :
  InvFacts.keeps histories_full V4.update_cpu_cores.
Proof. unfold V4.update_cpu_cores, V4.render. full. Qed.

Lemma full_update_disk_io :
  InvFacts.keeps histories_full V4.update_disk_io.
Proof. unfold V4.update_disk_io, V4.render. full. Qed.

Lemma full_update_network :
  InvFacts.keeps histories_full V4.update_network.
Proof. unfold V4.update_network, V4.render. full. Qed.

#[export] Hint Resolve full_update_gpu full_update_cpu
  full_update_cpu_cores full_update_disk_io full_update_network : full.

Lemma full_sampling_pass :
  InvFacts.keeps histories_full V4.sampling_pass.
Proof.
  unfold V4.sampling_pass, V4.update_time, V4.update_memory,
    V4.update_storage, V4.update_processes, V4.update_system_status,
    V4.render.
  full.
Qed.

Lemma full_update_all : InvFacts.keeps histories_full V4.update_all.
Proof.
  unfold V4.update_all.
  apply keeps_bind; [ | intros ?; full].
  apply keeps_try_except; [apply full_sampling_pass | intros ?; full].
Qed.

Lemma full_fire (m : machine V4.SystemCommandCenter) :
  histories_full (self m) -> histories_full (self (V4.fire m)).
Proof.
  intros H. unfold V4.fire.
  destruct (timers m) as [ | [d cb] rest]; [exact H | ].
  destruct cb. cbn [V4.run_callback]. now apply full_update_all.
Qed.

Lemma full_mainloop (n : nat) (m : machine V4.SystemCommandCenter) :
  histories_full (self m) -> histories_full (self (V4.mainloop n m)).
Proof.
  revert m. induction n as [ | n IH]; intros m H; [exact H | ].
  cbn [V4.mainloop]. apply IH. now apply full_fire.
Qed.

(** *** What can cut a pass short *)

Create HintDb completes discriminated.

#[export] Hint Resolve completes_ret completes_lift_ok
  completes_get_self completes_observe completes_tk completes_tk_int
  completes_push_cpu completes_push_gpu completes_push_net_rx
  completes_push_net_tx completes_push_disk_read
  completes_push_disk_write : completes.

Ltac completes :=
  repeat first
    [ solve [auto with completes]
    | apply completes_bind; [ | intros ? ]
    | apply completes_try_except;
      [ solve [full] | solve [steady] | intros ? ]
    | apply completes_for_each; intros ?
    | apply completes_modify_self; intros ? ?; assumption
    | match goal with
      | |- InvFacts.completes _ (match ?x with _ => _ end) =>
          destruct x
      end ].

Lemma completes_get_gpu_temps :
  completes histories_full V4.get_gpu_temps.
Proof. unfold V4.get_gpu_temps. completes. Qed.

Lemma completes_get_gpu_frequency :
  completes histories_full V4.get_gpu_frequency.
Proof. unfold V4.get_gpu_frequency. completes. Qed.

Lemma completes_get_gpu_vram :
  completes histories_full V4.get_gpu_vram.
Proof. unfold V4.get_gpu_vram. completes. Qed.

Lemma completes_get_gpu_fans :
  completes histories_full V4.get_gpu_fans.
Proof. unfold V4.get_gpu_fans. completes. Qed.

Lemma completes_get_cpu_temp :
  completes histories_full V4.get_cpu_temp.
Proof. unfold V4.get_cpu_temp. completes. Qed.

Lemma completes_get_nvme_temp :
  completes histories_full V4.get_nvme_temp.
Proof. unfold V4.get_nvme_temp. completes. Qed.

Lemma completes_get_cpu_usage :
  completes histories_full V4.get_cpu_usage.
Proof. unfold V4.get_cpu_usage. completes. Qed.

Lemma completes_get_per_core_usage :
  completes histories_full V4.get_per_core_usage.
Proof. unfold V4.get_per_core_usage. completes. Qed.

Lemma completes_get_cpu_freq :
  completes histories_full V4.get_cpu_freq.
Proof. unfold V4.get_cpu_freq. completes. Qed.

Lemma completes_get_cpu_info :
  completes histories_full V4.get_cpu_info.
Proof. unfold V4.get_cpu_info. completes. Qed.

Lemma completes_get_disk_io :
  completes histories_full V4.get_disk_io.
Proof. unfold V4.get_disk_io. completes. Qed.

Lemma completes_get_network_speed :
  completes histories_full V4.get_network_speed.
Proof. unfold V4.get_network_speed. completes. Qed.

#[export] Hint Resolve completes_get_gpu_temps
  completes_get_gpu_frequency completes_get_gpu_vram
  completes_get_gpu_fans completes_get_cpu_temp
  completes_get_nvme_temp completes_get_cpu_usage
  completes_get_per_core_usage completes_get_cpu_freq
  completes_get_cpu_info completes_get_disk_io
  completes_get_network_speed : completes.

Lemma completes_config l s c :
  completes histories_full (V4.config l s c).
Proof. unfold V4.config. completes. Qed.

Lemma completes_draw_gauge g v :
  completes histories_full (V4.draw_gauge g v).
Proof. unfold V4.draw_gauge. completes. Qed.

#[export] Hint Resolve completes_config completes_draw_gauge
  : completes.

Lemma completes_update_cpu : completes histories_full V4.update_cpu.
Proof. unfold V4.update_cpu, V4.render. completes. Qed.

Lemma completes_update_cpu_cores :
  completes histories_full V4.update_cpu_cores.
Proof. unfold V4.update_cpu_cores, V4.render. completes. Qed.

Lemma completes_update_disk_io :
  completes histories_full V4.update_disk_io.
Proof. unfold V4.update_disk_io, V4.render. completes. Qed.

Lemma completes_update_network :
  completes histories_full V4.update_network.
Proof. unfold V4.update_network, V4.render. completes. Qed.

#[export] Hint Resolve completes_update_cpu
  completes_update_cpu_cores completes_update_disk_io
  completes_update_network : completes.

(** **** The VRAM readings *)

(** A system in which Tk works and the VRAM counter cannot be read. *)
Definition no_vram (e : environment) : Prop :=
  (forall n, tk_error e n = false)
  /\ (forall n z, mem_info_vram_used e n <> Holds z).

(** A system with [no_vram] whose commands ([free], [df], [ps],
    [uptime]) and their panels do not fail either. *)
Definition undisturbed (e : environment) : Prop :=
  no_vram e /\ (forall n, shell_error e n = None).

Lemma no_vram_calm e : no_vram e -> forall n, tk_error e n = false.
Proof. now intros [H _]. Qed.

Lemma undisturbed_calm e :
  undisturbed e -> forall n, tk_error e n = false.
Proof. now intros [[H _] _]. Qed.

Lemma get_gpu_vram_none (m : machine V4.SystemCommandCenter) :
  (forall z, mem_info_vram_used (env m) (instant m) <> Holds z) ->
  V4.get_gpu_vram m = (Ok (None, None), advance VramUsed m).
Proof.
  intros H. unfold V4.get_gpu_vram, try_except, bind, read_int.
  destruct (mem_info_vram_used (env m) (instant m)) as [ | | z];
    try reflexivity.
  now destruct (H z).
Qed.

Lemma get_gpu_vram_holds (m : machine V4.SystemCommandCenter)
      (used total : Z) :
  mem_info_vram_used (env m) (instant m) = Holds used ->
  mem_info_vram_total (env m) (S (instant m)) = Holds total ->
  V4.get_gpu_vram m
  = (Ok (Some (PInt used), Some (PInt total)),
     advance VramTotal (advance VramUsed m)).
Proof.
  intros Hu Ht. unfold V4.get_gpu_vram, try_except, bind, read_int.
  rewrite Hu. cbn. rewrite Ht. reflexivity.
Qed.

(** Without a VRAM reading the panel goes on as with [(None, None)]. *)
Lemma completes_in_vram {B} (E : environment -> Prop)
      (P : V4.SystemCommandCenter -> Prop)
      (k : option num * option num -> M V4.SystemCommandCenter B) :
  (forall e, E e -> no_vram e) ->
  completes_in E P (k (None, None)) ->
  completes_in E P (bind V4.get_gpu_vram k).
Proof.
  intros HE Hk m Hm HP. unfold bind.
  rewrite get_gpu_vram_none
    by (intros z; apply (proj2 (HE _ Hm))).
  apply (Hk (advance VramUsed m)); [exact Hm | exact HP].
Qed.

Ltac completes_in :=
  repeat first
    [ apply completes_in_calm;
      [ solve [auto using no_vram_calm, undisturbed_calm]
      | solve [completes] ]
    | apply completes_in_vram;
      [ solve [auto; intros ? [? ?]; assumption] | cbv beta iota ]
    | apply completes_in_shell; intros ? [? ?]; assumption
    | apply completes_in_bind; [ | intros ? ]
    | match goal with
      | |- InvFacts.completes_in _ _ (match ?x with _ => _ end) =>
          destruct x
      end ].

Lemma completes_update_gpu :
  completes_in no_vram histories_full V4.update_gpu.
Proof. unfold V4.update_gpu, V4.render. completes_in. Qed.

Lemma completes_sampling_pass :
  completes_in undisturbed histories_full V4.sampling_pass.
Proof.
  unfold V4.sampling_pass, V4.update_time, V4.update_memory,
    V4.update_storage, V4.update_processes, V4.update_system_status,
    V4.update_gpu, V4.render.
  completes_in.
Qed.

(** A VRAM reading that does not fit a float stops the GPU panel. *)
Lemma update_gpu_vram_overflow (m : machine V4.SystemCommandCenter)
      (used total : Z) (e : exn) :
  calm m -> histories_full (self m) ->
  (forall n, mem_info_vram_used (env m) n = Holds used) ->
  (forall n, mem_info_vram_total (env m) n = Holds total) ->
  truediv (PInt used) (PInt (1024 ^ 3)) = Raise e ->
  fst (V4.update_gpu m) = Raise e.
Proof.
  intros Hcalm HP Hu Ht Hdiv.
  set (E := fun x : environment => x = env m).
  assert (Ecalm : forall x, E x -> forall n, tk_error x n = false)
    by (intros x ->; exact Hcalm).
  assert (HE : E (env m)) by reflexivity.
  unfold V4.update_gpu, V4.render.
  repeat
    match goal with
    | HE' : E (env ?m0), HP' : histories_full (self ?m0)
      |- context [bind V4.get_gpu_vram ?k ?m0] => fail 1
    | HE' : E (env ?m0), HP' : histories_full (self ?m0)
      |- context [bind ?c ?k ?m0] =>
        let a := fresh "a" in
        let m1 := fresh "m" in
        let R := fresh "R" in
        let HE1 := fresh "HE" in
        let HP1 := fresh "HP" in
        destruct (run_in E histories_full c k m0
                    ltac:(apply (completes_in_calm E _ Ecalm);
                          solve [completes]) HE' HP')
          as (a & m1 & R & HE1 & HP1);
        rewrite R; clear R HE' HP'; cbv beta;
        try (destruct a; cbv beta iota)
    end.
  match goal with
  | HE' : E (env ?m0) |- context [bind V4.get_gpu_vram ?k ?m0] =>
      change (fst (bind V4.get_gpu_vram k m0) = Raise e);
      unfold bind at 1;
      rewrite (get_gpu_vram_holds m0 used total)
        by (rewrite HE'; auto)
  end.
  cbv beta iota. rewrite Hdiv. reflexivity.
Qed.

End HistoryFacts.

(** X1.  The six history buffers always hold 60 entries: they do after
    [__init__], and a tick that starts with full buffers ends with full
    buffers whatever is read and whatever raises, and so does any number
    of timer firings of the main loop. *)
Theorem histories_stay_full :
  (forall t_net t_disk n root,
      HistoryFacts.histories_full (V4.init t_net t_disk n root))
  /\ (forall m : Run.machine V4.SystemCommandCenter,
         HistoryFacts.histories_full (Run.self m) ->
         HistoryFacts.histories_full (Run.self (snd (V4.update_all m)))
         /\ forall n,
             HistoryFacts.histories_full (Run.self (V4.mainloop n m))).
Proof.
  split; [exact HistoryFacts.init_histories_full | ].
  intros m H. split.
  - now apply HistoryFacts.full_update_all.
  - intros n. now apply HistoryFacts.full_mainloop.
Qed.

(** Four ticks of the system whose Tk calls keep failing. *)
Lemma histories_stay_full_witness :
  HistoryFacts.histories_full
    (Run.self (V4.mainloop 3 Scenario.tk_fails_started)).
Proof.
  apply (proj2 histories_stay_full Scenario.tk_fails_started).
  apply (proj2 histories_stay_full Scenario.tk_fails).
  apply (proj1 histories_stay_full).
Defined.

(** X2.  What can cut a sampling pass short.  With a Tk that works and
    full history buffers, the CPU, per-core, disk and network panels
    return normally whatever the sensors, the [/proc] files and the
    clock hold.  The GPU panel does so when the VRAM counter cannot be
    read; when, besides, none of the command-output panels fails, the
    whole pass returns normally and [update_all] returns and prints
    nothing.  A VRAM reading, though, is divided outside any [try]: one
    that is too large for a float makes [update_gpu] raise
    (OverflowError) although Tk works. *)
Theorem panels_are_cut_short_only_by_tk_or_vram :
  forall m : Run.machine V4.SystemCommandCenter,
    (forall n, Sys.tk_error (Run.env m) n = false) ->
    HistoryFacts.histories_full (Run.self m) ->
    (fst (V4.update_cpu m) = Py.Ok tt
     /\ fst (V4.update_cpu_cores m) = Py.Ok tt
     /\ fst (V4.update_disk_io m) = Py.Ok tt
     /\ fst (V4.update_network m) = Py.Ok tt)
    /\ ((forall n z, Sys.mem_info_vram_used (Run.env m) n <> Sys.Holds z) ->
        fst (V4.update_gpu m) = Py.Ok tt
        /\ ((forall n, Sys.shell_error (Run.env m) n = None) ->
            fst (V4.sampling_pass m) = Py.Ok tt
            /\ fst (V4.update_all m) = Py.Ok tt
            /\ Run.printed (snd (V4.update_all m)) = Run.printed m))
    /\ (forall used total e,
           (forall n, Sys.mem_info_vram_used (Run.env m) n
                      = Sys.Holds used) ->
           (forall n, Sys.mem_info_vram_total (Run.env m) n
                      = Sys.Holds total) ->
           Py.truediv (Py.PInt used) (Py.PInt (1024 ^ 3)) = Py.Raise e ->
           fst (V4.update_gpu m) = Py.Raise e).
Proof.
  intros m Hcalm H. split; [ | split].
  - destruct (HistoryFacts.completes_update_cpu m Hcalm H)
      as (_ & _ & [] & H1).
    destruct (HistoryFacts.completes_update_cpu_cores m Hcalm H)
      as (_ & _ & [] & H2).
    destruct (HistoryFacts.completes_update_disk_io m Hcalm H)
      as (_ & _ & [] & H3).
    destruct (HistoryFacts.completes_update_network m Hcalm H)
      as (_ & _ & [] & H4).
    auto.
  - intros Hv. split.
    + destruct (HistoryFacts.completes_update_gpu m (conj Hcalm Hv) H)
        as (_ & _ & [] & Hok).
      exact Hok.
    + intros Hs.
      destruct (HistoryFacts.completes_sampling_pass
                  m (conj (conj Hcalm Hv) Hs) H)
        as (E & _ & [] & Hok).
      split; [exact Hok | ].
      assert (Hsch : RunFacts.schedules V4.sampling_pass m = true).
      { unfold RunFacts.schedules. rewrite Hok, E, Hcalm. reflexivity. }
      destruct (proj1 (TickFacts.update_all_tick m) Hsch)
        as (Hall & _ & [[_ Hp] | (e & He & _)]).
      * split; [exact Hall | exact Hp].
      * rewrite Hok in He. discriminate He.
  - intros used total e Hu Ht Hdiv.
    now apply (HistoryFacts.update_gpu_vram_overflow m used total e).
Qed.

(** The system without any sensor, and the one whose VRAM counter
    reads 10^320 bytes. *)
Lemma panels_are_cut_short_only_by_tk_or_vram_witness :
  (fst (V4.sampling_pass Scenario.no_sensors) = Py.Ok tt
   /\ fst (V4.update_all Scenario.no_sensors) = Py.Ok tt
   /\ Run.printed (snd (V4.update_all Scenario.no_sensors)) = [])
  /\ fst (V4.update_gpu Scenario.huge_vram) = Py.Raise Py.OverflowError.
Proof.
  split.
  - apply (proj1 (proj2 (panels_are_cut_short_only_by_tk_or_vram
                           Scenario.no_sensors
                           (fun n => eq_refl)
                           (HistoryFacts.init_histories_full _ _ _ _)))).
    + intros n z. discriminate.
    + intros n. reflexivity.
  - apply (proj2 (proj2 (panels_are_cut_short_only_by_tk_or_vram
                           Scenario.huge_vram
                           (fun n => eq_refl)
                           (HistoryFacts.init_histories_full _ _ _ _)))
                 (10 ^ 320) (16 * 1024 ^ 3)).
    + intros n. reflexivity.
    + intros n. reflexivity.
    + vm_compute. reflexivity.
Defined.

(* ================================================================== *)
(** * Ranges of what the samplers return *)
(* ================================================================== *)

Module RangeFacts.
Import Py Sys Run PyFacts CpuFacts.

Lemma max2_0_nonneg (x : num) : le (PInt 0) (max2 (PInt 0) x) = true.
Proof.
  unfold max2. destruct (gt x (PInt 0)) eqn:H.
  - now apply gt_le.
  - reflexivity.
Qed.

Lemma network_rates_nonneg (m : machine V4.SystemCommandCenter) :
  exists rx tx,
    fst (V4.get_network_speed m) = Ok (rx, tx)
    /\ le (PInt 0) rx = true /\ le (PInt 0) tx = true.
Proof.
  unfold V4.get_network_speed, try_except, bind, read_text.
  destruct (sys_class_net (env m) (instant m)) as [ifaces | ];
    [ | exists (PInt 0), (PInt 0); repeat split].
  destruct (V4.net_totals ifaces 0 0) as [rx_total tx_total].
  unfold observe, get_self, lift. cbn [self advance].
  destruct (V4.speed rx_total _ _) as [r_rx | ];
    [ | exists (PInt 0), (PInt 0); repeat split].
  destruct (V4.speed tx_total _ _) as [r_tx | ];
    [ | exists (PInt 0), (PInt 0); repeat split].
  exists (max2 (PInt 0) r_rx), (max2 (PInt 0) r_tx).
  split; [reflexivity | split; apply max2_0_nonneg].
Qed.

Lemma disk_rates_nonneg (m : machine V4.SystemCommandCenter) :
  exists rd wr,
    fst (V4.get_disk_io m) = Ok (rd, wr)
    /\ le (PInt 0) rd = true /\ le (PInt 0) wr = true.
Proof.
  unfold V4.get_disk_io, try_except, bind, read_text.
  destruct (proc_diskstats (env m) (instant m)) as [stats | ];
    [ | exists (PInt 0), (PInt 0); repeat split].
  unfold lift at 1.
  destruct (V4.disk_totals stats 0 0) as [[rd_total wr_total] | ];
    [ | exists (PInt 0), (PInt 0); repeat split].
  unfold observe, get_self, lift. cbn [self advance].
  destruct (V4.speed rd_total _ _) as [r_rd | ];
    [ | exists (PInt 0), (PInt 0); repeat split].
  destruct (V4.speed wr_total _ _) as [r_wr | ];
    [ | exists (PInt 0), (PInt 0); repeat split].
  exists (max2 (PInt 0) r_rd), (max2 (PInt 0) r_wr).
  split; [reflexivity | split; apply max2_0_nonneg].
Qed.

Lemma v1_network_rates_nonneg (m : machine V1.SystemCommandCenter) :
  exists rx tx,
    fst (V1.get_network_speed m) = Ok (rx, tx)
    /\ le (PInt 0) rx = true /\ le (PInt 0) tx = true.
Proof.
  unfold V1.get_network_speed, try_except, bind, read_text.
  destruct (sys_class_net (env m) (instant m)) as [ifaces | ];
    [ | exists (PInt 0), (PInt 0); repeat split].
  unfold lift at 1.
  destruct (V1.net_totals ifaces 0 0) as [[rx_total tx_total] | ];
    [ | exists (PInt 0), (PInt 0); repeat split].
  unfold observe, get_self, lift. cbn [self advance].
  destruct (V1.speed rx_total _ _) as [r_rx | ];
    [ | exists (PInt 0), (PInt 0); repeat split].
  destruct (V1.speed tx_total _ _) as [r_tx | ];
    [ | exists (PInt 0), (PInt 0); repeat split].
  exists (max2 (PInt 0) r_rx), (max2 (PInt 0) r_tx).
  split; [reflexivity | split; apply max2_0_nonneg].
Qed.

(** A percentage. *)
Definition percent (u : num) : Prop :=
  le (PInt 0) u = true /\ le u (PInt 100) = true.

Lemma percent_0 : percent (PInt 0).
Proof. split; reflexivity. Qed.

Lemma percent_clamp (u : num) : percent (V4.clamp_percent u).
Proof. apply clamp_percent_range. Qed.

Lemma cpu_usage_percent (m : machine V4.SystemCommandCenter) :
  exists u, fst (V4.get_cpu_usage m) = Ok u /\ percent u.
Proof.
  unfold V4.get_cpu_usage, try_except, bind, read_text.
  destruct (proc_stat (env m) (instant m)) as [lines | ];
    [ | exists (PInt 0); split; [reflexivity | apply percent_0]].
  unfold lift, get_self. cbn [self advance].
  destruct (V4.int_at _ 4);
    [ | exists (PInt 0); split; [reflexivity | apply percent_0]].
  destruct (V4.sum_ints _ 0);
    [ | exists (PInt 0); split; [reflexivity | apply percent_0]].
  match goal with
  | |- context [match ?o with Ok _ => _ | Raise _ => _ end] =>
      destruct o as [usage | ]
  end; [ | exists (PInt 0); split; [reflexivity | apply percent_0]].
  exists (V4.clamp_percent usage).
  split; [reflexivity | apply percent_clamp].
Qed.

Lemma bind_lift {S A B} (o : outcome A) (k : A -> M S B)
      (m : machine S) :
  bind (lift o) k m
  = match o with Ok a => k a m | Raise e => (Raise e, m) end.
Proof. now destruct o. Qed.

Lemma bind_get_self {S B} (k : S -> M S B) (m : machine S) :
  bind get_self k m = k (self m) m.
Proof. reflexivity. Qed.

Lemma bind_modify_self {S B} (f : S -> S) (k : unit -> M S B)
      (m : machine S) :
  bind (modify_self f) k m = k tt (with_self f m).
Proof. reflexivity. Qed.

(** The loop adds one percentage per core and keeps [num_cores]. *)
Lemma core_loop_spec (lines : list line) (cores : list nat)
      (usages : list num) (m : machine V4.SystemCommandCenter) :
  V4.num_cores (self (snd (V4.core_loop lines cores usages m)))
  = V4.num_cores (self m)
  /\ forall us, fst (V4.core_loop lines cores usages m) = Ok us ->
                exists new, us = usages ++ new
                            /\ List.length new = List.length cores
                            /\ Forall percent new.
Proof.
  revert usages m. induction cores as [ | i rest IH]; intros usages m.
  - split; [reflexivity | ]. intros us H. cbn in H. injection H as <-.
    exists []. now rewrite app_nil_r.
  - cbn [V4.core_loop]. rewrite bind_lift.
    destruct (nth_error lines (i + 1)) as [parts | ];
      [ | split; [reflexivity | intros ? H; discriminate H]].
    rewrite bind_lift.
    destruct (V4.int_at parts 4) as [idle | ];
      [ | split; [reflexivity | intros ? H; discriminate H]].
    rewrite bind_lift.
    destruct (V4.sum_ints (tl parts) 0) as [total | ];
      [ | split; [reflexivity | intros ? H; discriminate H]].
    rewrite bind_get_self, bind_lift.
    destruct (match V4.last_core_stats (self m) i with
              | Some (last_idle, last_total) =>
                  V4.usage_of (idle - last_idle) (total - last_total)
              | None => Ok (PInt 0)
              end) as [usage | ];
      [ | split; [reflexivity | intros ? H; discriminate H]].
    rewrite bind_modify_self.
    destruct (IH (usages ++ [V4.clamp_percent usage])
                 (with_self (V4.set_last_core i idle total) m))
      as [Hn Hus].
    split; [exact Hn | ].
    intros us H. destruct (Hus us H) as (new & -> & Hl & Hf).
    exists (V4.clamp_percent usage :: new).
    rewrite <- app_assoc. split; [reflexivity | ].
    split; [cbn; now rewrite Hl | ].
    constructor; [apply percent_clamp | exact Hf].
Qed.

Lemma per_core_usage_percent (m : machine V4.SystemCommandCenter) :
  exists us,
    fst (V4.get_per_core_usage m) = Ok us
    /\ List.length us = V4.num_cores (self m)
    /\ Forall percent us.
Proof.
  unfold V4.get_per_core_usage, try_except, bind at 1, read_text.
  destruct (proc_stat (env m) (instant m)) as [lines | ].
  - unfold bind, get_self at 1. cbn [self advance].
    destruct (core_loop_spec lines (seq 0 (V4.num_cores (self m))) []
                             (advance ProcStat m)) as [Hn Hus].
    destruct (V4.core_loop lines _ [] (advance ProcStat m))
      as [[us | e] m1]; cbn [fst snd] in *.
    + destruct (Hus us eq_refl) as (new & -> & Hl & Hf).
      exists new. rewrite length_seq in Hl. auto.
    + unfold get_self, ret. cbn. rewrite Hn.
      eexists. split; [reflexivity | ].
      split; [apply repeat_length | ].
      apply Forall_forall. intros x Hx.
      apply repeat_spec in Hx. subst. apply percent_0.
  - unfold bind, get_self, ret. cbn.
    eexists. split; [reflexivity | ].
    split; [apply repeat_length | ].
    apply Forall_forall. intros x Hx.
    apply repeat_spec in Hx. subst. apply percent_0.
Qed.

End RangeFacts.

(** X3.  The rates a sampler reports are never negative and never a NaN,
    and a rate sampler never raises: in every system and from every
    state the network and disk samplers of the fourth version and the
    network sampler of the first return two numbers that are [>= 0]. *)
Theorem rates_are_never_negative :
  (forall m : Run.machine V4.SystemCommandCenter,
      exists rx tx,
        fst (V4.get_network_speed m) = Py.Ok (rx, tx)
        /\ Py.le (Py.PInt 0) rx = true /\ Py.le (Py.PInt 0) tx = true)
  /\ (forall m : Run.machine V4.SystemCommandCenter,
         exists rd wr,
           fst (V4.get_disk_io m) = Py.Ok (rd, wr)
           /\ Py.le (Py.PInt 0) rd = true /\ Py.le (Py.PInt 0) wr = true)
  /\ (forall m : Run.machine V1.SystemCommandCenter,
         exists rx tx,
           fst (V1.get_network_speed m) = Py.Ok (rx, tx)
           /\ Py.le (Py.PInt 0) rx = true /\ Py.le (Py.PInt 0) tx = true).
Proof.
  split; [exact RangeFacts.network_rates_nonneg | split].
  - exact RangeFacts.disk_rates_nonneg.
  - exact RangeFacts.v1_network_rates_nonneg.
Qed.

(** X4.  The CPU usage samplers always answer with percentages: in every
    system and from every state [get_cpu_usage] returns a number in
    [0, 100], and [get_per_core_usage] returns exactly [num_cores]
    numbers, each in [0, 100]; neither raises. *)
Theorem cpu_usages_are_percentages :
  forall m : Run.machine V4.SystemCommandCenter,
    (exists u, fst (V4.get_cpu_usage m) = Py.Ok u
               /\ Py.le (Py.PInt 0) u = true
               /\ Py.le u (Py.PInt 100) = true)
    /\ (exists us,
           fst (V4.get_per_core_usage m) = Py.Ok us
           /\ List.length us = V4.num_cores (Run.self m)
           /\ Forall (fun u => Py.le (Py.PInt 0) u = true
                               /\ Py.le u (Py.PInt 100) = true) us).
Proof.
  intros m. split.
  - destruct (RangeFacts.cpu_usage_percent m) as (u & Hu & H0 & H100).
    eauto.
  - exact (RangeFacts.per_core_usage_percent m).
Qed.

(* ================================================================== *)
(** * GPU telemetry and fans *)
(* ================================================================== *)

Module GpuFacts.
Import Py Sys Run PyFacts.

Lemma unpack_short (b : list Byte.byte) :
  List.length b <> 4%nat -> V4.unpack_u32_le b = Raise StructError.
Proof.
  destruct b as [ | b0 [ | b1 [ | b2 [ | b3 [ | b4 t]]]]]; cbn;
    intros H; try reflexivity. now destruct H.
Qed.

Lemma gpu_temps_shape (m : machine V4.SystemCommandCenter) :
  fst (V4.get_gpu_temps m) = Ok (None, None)
  \/ exists t1 t2,
      fst (V4.get_gpu_temps m) = Ok (Some (PInt t1), Some (PInt t2))
      /\ 0 < t1 < 120 /\ 0 < t2 < 120.
Proof.
  remember (fst (V4.get_gpu_temps m)) as r eqn:Hr.
  unfold V4.get_gpu_temps in Hr. rewrite RangeFacts.bind_get_self in Hr.
  destruct (negb (V4.has_root (self m))); [now left | ].
  unfold try_except, bind at 1, read_text in Hr.
  destruct (pmt_telem (env m) (instant m)) as [data | ]; [ | now left].
  rewrite RangeFacts.bind_lift in Hr.
  destruct (V4.unpack_u32_le (V4.slice 164 168 data)) as [t1 | ];
    [ | now left].
  rewrite RangeFacts.bind_lift in Hr.
  destruct (V4.unpack_u32_le (V4.slice 168 172 data)) as [t2 | ];
    [ | now left].
  destruct ((0 <? t1) && (t1 <? 120) && ((0 <? t2) && (t2 <? 120)))
    eqn:E; [ | now left].
  right. exists t1, t2. split; [exact Hr | ].
  apply andb_prop in E. destruct E as [E1 E2].
  apply andb_prop in E1. apply andb_prop in E2.
  destruct E1 as [A B], E2 as [C D].
  apply Z.ltb_lt in A, B, C, D. lia.
Qed.

Lemma gpu_temps_short_region (m : machine V4.SystemCommandCenter)
      (data : list Byte.byte) :
  pmt_telem (env m) (instant m) = Some data ->
  (List.length data < 172)%nat ->
  fst (V4.get_gpu_temps m) = Ok (None, None).
Proof.
  intros Hd Hl.
  unfold V4.get_gpu_temps. rewrite RangeFacts.bind_get_self.
  destruct (negb (V4.has_root (self m))); [reflexivity | ].
  unfold try_except, bind at 1, read_text. rewrite Hd.
  rewrite RangeFacts.bind_lift.
  destruct (V4.unpack_u32_le (V4.slice 164 168 data)) as [t1 | ];
    [ | reflexivity].
  rewrite RangeFacts.bind_lift.
  rewrite unpack_short; [reflexivity | ].
  unfold V4.slice. rewrite length_firstn, length_skipn. lia.
Qed.

(** [max] of two ints is the larger int. *)
Lemma max2_int (a b : Z) : max2 (PInt a) (PInt b) = PInt (Z.max a b).
Proof.
  unfold max2, gt, compare. cbn [value xcompare].
  unfold Qcompare. cbn [inject_Z Qnum Qden]. rewrite !Z.mul_1_r.
  destruct (Z.compare_spec b a); f_equal; lia.
Qed.

Lemma bind_try_read_fan (i : nat) (fans : list num)
      (k : list num -> M V4.SystemCommandCenter (list num))
      (m : machine V4.SystemCommandCenter) :
  bind (try_except
          (bind (read_int (Fan i) (fun e => hwmon3_fan_input e i))
                (fun rpm => ret (fans ++ [PInt rpm])))
          (fun _ => ret fans)) k m
  = k (match hwmon3_fan_input (env m) i (instant m) with
       | Holds rpm => fans ++ [PInt rpm]
       | _ => fans
       end) (advance (Fan i) m).
Proof.
  unfold bind, try_except, read_int, ret.
  now destruct (hwmon3_fan_input (env m) i (instant m)).
Qed.

Lemma gpu_fans_fastest (m : machine V4.SystemCommandCenter) :
  let f1 := hwmon3_fan_input (env m) 1 (instant m) in
  let f2 := hwmon3_fan_input (env m) 2 (S (instant m)) in
  let f3 := hwmon3_fan_input (env m) 3 (S (S (instant m))) in
  exists r,
    fst (V4.get_gpu_fans m) = Ok (PInt r)
    /\ (forall z, f1 = Holds z \/ f2 = Holds z \/ f3 = Holds z ->
                  z <= r)
    /\ (f1 = Holds r \/ f2 = Holds r \/ f3 = Holds r
        \/ (r = 0 /\ (forall z, f1 <> Holds z)
            /\ (forall z, f2 <> Holds z)
            /\ (forall z, f3 <> Holds z))).
Proof.
  intros f1 f2 f3.
  unfold V4.get_gpu_fans, try_except. cbn [V4.read_fans].
  rewrite RangeFacts.bind_lift || idtac.
  unfold bind at 1. rewrite !bind_try_read_fan.
  cbn [instant advance env ret fst snd app].
  fold f1. fold f2. fold f3.
  destruct f1 as [ | | z1], f2 as [ | | z2], f3 as [ | | z3];
    cbn [app lift max_list fold_left fst];
    rewrite ?max2_int;
    eexists; (split; [reflexivity | ]);
    (split;
     [ intros z [H | [H | H]]; try discriminate H;
       injection H as <-; lia
     | ]);
    try (right; right; right; repeat split; intros z H;
         discriminate H).
  all: try (destruct (Z.max_spec z1 z2) as [[_ ->] | [_ ->]]; tauto).
  all: try (destruct (Z.max_spec z1 z3) as [[_ ->] | [_ ->]]; tauto).
  all: try (destruct (Z.max_spec z2 z3) as [[_ ->] | [_ ->]]; tauto).
  all: try tauto.
  destruct (Z.max_spec z1 z2) as [[_ E] | [_ E]]; rewrite E;
    [destruct (Z.max_spec z2 z3) as [[_ ->] | [_ ->]]
    | destruct (Z.max_spec z1 z3) as [[_ ->] | [_ ->]]]; tauto.
Qed.

End GpuFacts.

(** X5.  The GPU temperature sampler never raises and returns either no
    temperature at all or both, each strictly between 0 and 120 (a raw
    value of 0, 120 or more makes both unavailable).  Without root it
    does not touch the telemetry region at all; a region too short to
    hold the two fields at offsets 0xa4 and 0xa8 gives no temperature
    rather than an exception. *)
Theorem gpu_temperatures_are_plausible :
  forall m : Run.machine V4.SystemCommandCenter,
    (fst (V4.get_gpu_temps m) = Py.Ok (None, None)
     \/ exists t1 t2,
         fst (V4.get_gpu_temps m)
         = Py.Ok (Some (Py.PInt t1), Some (Py.PInt t2))
         /\ 0 < t1 < 120 /\ 0 < t2 < 120)
    /\ (V4.has_root (Run.self m) = false ->
        V4.get_gpu_temps m = (Py.Ok (None, None), m))
    /\ (forall data,
           Sys.pmt_telem (Run.env m) (Run.instant m) = Some data ->
           (List.length data < 172)%nat ->
           fst (V4.get_gpu_temps m) = Py.Ok (None, None)).
Proof.
  intros m. split; [apply GpuFacts.gpu_temps_shape | split].
  - apply AbsentFacts.get_gpu_temps_no_root.
  - apply GpuFacts.gpu_temps_short_region.
Qed.

(** The unprivileged system reads nothing; the privileged one with a
    region of 100 bytes gets no temperature. *)
Lemma gpu_temperatures_are_plausible_witness :
  V4.get_gpu_temps Scenario.no_sensors
  = (Py.Ok (None, None), Scenario.no_sensors)
  /\ fst (V4.get_gpu_temps Scenario.short_telemetry)
     = Py.Ok (None, None).
Proof.
  split.
  - apply (proj1 (proj2 (gpu_temperatures_are_plausible
                           Scenario.no_sensors))).
    reflexivity.
  - apply (proj2 (proj2 (gpu_temperatures_are_plausible
                           Scenario.short_telemetry))
                 (repeat Byte.x00 100)).
    + reflexivity.
    + rewrite repeat_length. lia.
Defined.

(** X6.  The fan sampler never raises and reports the fastest of the fans
    it could read: its result is at least every fan speed that was
    readable (fan 1, 2 and 3 are read one after the other) and is one
    of them, or 0 when no fan file could be read. *)
Theorem fan_speed_is_the_fastest_readable_fan :
  forall m : Run.machine V4.SystemCommandCenter,
    let f1 := Sys.hwmon3_fan_input (Run.env m) 1 (Run.instant m) in
    let f2 := Sys.hwmon3_fan_input (Run.env m) 2 (S (Run.instant m)) in
    let f3 := Sys.hwmon3_fan_input (Run.env m) 3
                (S (S (Run.instant m))) in
    exists r,
      fst (V4.get_gpu_fans m) = Py.Ok (Py.PInt r)
      /\ (forall z, f1 = Sys.Holds z \/ f2 = Sys.Holds z
                    \/ f3 = Sys.Holds z -> z <= r)
      /\ (f1 = Sys.Holds r \/ f2 = Sys.Holds r \/ f3 = Sys.Holds r
          \/ (r = 0 /\ (forall z, f1 <> Sys.Holds z)
              /\ (forall z, f2 <> Sys.Holds z)
              /\ (forall z, f3 <> Sys.Holds z))).
Proof. exact GpuFacts.gpu_fans_fastest. Qed.

(** Fans at 1200 and 900 RPM around an unreadable one: 1200. *)
Lemma fan_speed_is_the_fastest_readable_fan_witness :
  fst (V4.get_gpu_fans Scenario.three_fans) = Py.Ok (Py.PInt 1200).
Proof.
  destruct (fan_speed_is_the_fastest_readable_fan Scenario.three_fans)
    as (r & Hr & Hle & [H | [H | [H | (_ & H & _)]]]).
  - rewrite Hr. injection H as <-. reflexivity.
  - discriminate H.
  - pose proof (Hle 1200 (or_introl eq_refl)) as L.
    injection H as <-. exfalso. revert L. clear. intros L.
    apply L. reflexivity.
  - destruct (H 1200). reflexivity.
Defined.

(* ================================================================== *)
(** * Totals of counters *)
(* ================================================================== *)

Module TotalFacts.
Import Py Sys Run.

(** The lines of [/proc/diskstats] that count. *)
Definition nvme_line (parts : line) : bool :=
  (14 <=? List.length parts)%nat
  && token_startswith "nvme" (nth 2 parts (TNum 0)).

Lemma disk_totals_filter (lines : list line) (r w : Z) :
  V4.disk_totals (filter nvme_line lines) r w
  = V4.disk_totals lines r w.
Proof.
  revert r w. induction lines as [ | parts rest IH]; intros r w;
    [reflexivity | ].
  cbn [filter V4.disk_totals]. unfold nvme_line at 1.
  destruct ((14 <=? List.length parts)%nat
            && token_startswith "nvme" (nth 2 parts (TNum 0))) eqn:E.
  - cbn [V4.disk_totals]. rewrite E.
    destruct (V4.int_at parts 5); [ | reflexivity].
    destruct (V4.int_at parts 9); [ | reflexivity]. apply IH.
  - apply IH.
Qed.

Lemma disk_totals_sectors (lines : list line) (r w r' w' : Z) :
  V4.disk_totals lines r w = Ok (r', w') ->
  exists sr sw, r' = r + 512 * sr /\ w' = w + 512 * sw.
Proof.
  revert r w. induction lines as [ | parts rest IH]; intros r w H.
  - injection H as <- <-. exists 0, 0. lia.
  - cbn [V4.disk_totals] in H.
    destruct ((14 <=? List.length parts)%nat
              && token_startswith "nvme" (nth 2 parts (TNum 0))).
    + destruct (V4.int_at parts 5) as [x | ]; [ | discriminate].
      destruct (V4.int_at parts 9) as [y | ]; [ | discriminate].
      destruct (IH _ _ H) as (sr & sw & -> & ->).
      exists (x + sr), (y + sw). lia.
    + now apply IH.
Qed.

Lemma disk_totals_app (l1 l2 : list line) (r w : Z) :
  V4.disk_totals (l1 ++ l2) r w
  = match V4.disk_totals l1 r w with
    | Ok (r1, w1) => V4.disk_totals l2 r1 w1
    | Raise e => Raise e
    end.
Proof.
  revert r w. induction l1 as [ | parts rest IH]; intros r w;
    [reflexivity | ].
  cbn [app V4.disk_totals].
  destruct ((14 <=? List.length parts)%nat
            && token_startswith "nvme" (nth 2 parts (TNum 0)));
    [ | apply IH].
  destruct (V4.int_at parts 5); [ | reflexivity].
  destruct (V4.int_at parts 9); [ | reflexivity]. apply IH.
Qed.

Lemma net_totals_filter (ifaces : list iface) (rx tx : Z) :
  V4.net_totals
    (filter (fun i => V4.counted (iface_name i)) ifaces) rx tx
  = V4.net_totals ifaces rx tx.
Proof.
  revert rx tx. induction ifaces as [ | i rest IH]; intros rx tx;
    [reflexivity | ].
  cbn [filter V4.net_totals].
  destruct (V4.counted (iface_name i)) eqn:E; [ | apply IH].
  cbn [V4.net_totals]. rewrite E.
  destruct (rx_bytes i); try apply IH.
  destruct (tx_bytes i); apply IH.
Qed.

Lemma net_totals_app (l1 l2 : list iface) (rx tx : Z) :
  V4.net_totals (l1 ++ l2) rx tx
  = let '(rx1, tx1) := V4.net_totals l1 rx tx in
    V4.net_totals l2 rx1 tx1.
Proof.
  revert rx tx. induction l1 as [ | i rest IH]; intros rx tx;
    [cbn; reflexivity | ].
  cbn [app V4.net_totals].
  destruct (V4.counted (iface_name i)); [ | apply IH].
  destruct (rx_bytes i); try apply IH.
  destruct (tx_bytes i); apply IH.
Qed.

Lemma net_totals_shift (ifaces : list iface) (rx tx : Z) :
  V4.net_totals ifaces rx tx
  = (rx + fst (V4.net_totals ifaces 0 0),
     tx + snd (V4.net_totals ifaces 0 0)).
Proof.
  revert rx tx. induction ifaces as [ | i rest IH]; intros rx tx.
  - cbn. f_equal; lia.
  - cbn [V4.net_totals].
    destruct (V4.counted (iface_name i)); [ | apply IH].
    destruct (rx_bytes i) as [ | | r]; try apply IH.
    destruct (tx_bytes i) as [ | | t].
    + rewrite IH, (IH (0 + r) 0). cbn [fst snd]. f_equal; lia.
    + rewrite IH, (IH (0 + r) 0). cbn [fst snd]. f_equal; lia.
    + rewrite IH, (IH (0 + r) (0 + t)). cbn [fst snd]. f_equal; lia.
Qed.

(** What one interface adds to the two totals. *)
Definition contribution (i : iface) : Z * Z :=
  if V4.counted (iface_name i) then
    match rx_bytes i, tx_bytes i with
    | Holds rx, Holds tx => (rx, tx)
    | Holds rx, _ => (rx, 0)
    | _, _ => (0, 0)
    end
  else (0, 0).

Lemma net_totals_cons (i : iface) (l : list iface) (rx tx : Z) :
  V4.net_totals (i :: l) rx tx
  = V4.net_totals l (rx + fst (contribution i))
                  (tx + snd (contribution i)).
Proof.
  cbn [V4.net_totals]. unfold contribution.
  destruct (V4.counted (iface_name i)), (rx_bytes i), (tx_bytes i);
    cbn [fst snd]; rewrite ?Z.add_0_r; reflexivity.
Qed.

Lemma not_counted_names :
  V4.counted "lo" = false /\ V4.counted "docker0" = false
  /\ forall suffix, V4.counted ("veth" ++ suffix) = false.
Proof.
  split; [reflexivity | split; [reflexivity | ]].
  intros suffix. unfold V4.counted.
  replace (String.prefix "veth" ("veth" ++ suffix)) with true;
    [now rewrite andb_false_r | now destruct suffix].
Qed.

End TotalFacts.

(** X7.  Disk traffic is counted in whole 512-byte sectors, and only from
    the lines of [/proc/diskstats] that have at least 14 fields and a
    device name starting with [nvme]: the totals grow by multiples of
    512, and every other line -- whatever it holds -- can be dropped
    without changing the result or making it fail. *)
Theorem disk_totals_count_nvme_sectors :
  (forall lines r w r' w',
      V4.disk_totals lines r w = Py.Ok (r', w') ->
      exists sr sw, r' = r + 512 * sr /\ w' = w + 512 * sw)
  /\ (forall lines r w,
         V4.disk_totals (filter TotalFacts.nvme_line lines) r w
         = V4.disk_totals lines r w)
  /\ (forall l1 l2 r w,
         V4.disk_totals (l1 ++ l2) r w
         = match V4.disk_totals l1 r w with
           | Py.Ok (r1, w1) => V4.disk_totals l2 r1 w1
           | Py.Raise e => Py.Raise e
           end).
Proof.
  split; [exact TotalFacts.disk_totals_sectors | split].
  - exact TotalFacts.disk_totals_filter.
  - exact TotalFacts.disk_totals_app.
Qed.

(** One NVMe line with 50 sectors read and 70 written, between a
    loop device and an empty line. *)
Lemma disk_totals_count_nvme_sectors_witness :
  V4.disk_totals
    [[Sys.TNum 7; Sys.TNum 0; Sys.TWord "loop0"; Sys.TWord "?"];
     Scenario.nvme0n1 50 70; []] 0 0
  = Py.Ok (512 * 50, 512 * 70).
Proof.
  rewrite <- (proj1 (proj2 disk_totals_count_nvme_sectors)).
  reflexivity.
Defined.

Section NetTotals.
Import Py Sys Run TotalFacts.

Lemma net_totals_perm (l l' : list iface) :
  Permutation l l' ->
  forall rx tx, V4.net_totals l rx tx = V4.net_totals l' rx tx.
Proof.
  induction 1 as [ | i l l' _ IH | i j l | l l' l'' _ IH1 _ IH2];
    intros rx tx.
  - reflexivity.
  - cbn [V4.net_totals].
    destruct (V4.counted (iface_name i)); [ | apply IH].
    destruct (rx_bytes i); try apply IH.
    destruct (tx_bytes i); apply IH.
  - rewrite !net_totals_cons. f_equal; lia.
  - now rewrite IH1, IH2.
Qed.

End NetTotals.

(** X8.  The network totals do not depend on the order in which the
    directory lists the interfaces, and [lo], [docker0] and every
    [veth...] interface can be dropped from the listing without changing
    them. *)
Theorem network_totals_ignore_order_and_virtual_interfaces :
  (forall l l', Permutation l l' ->
                V4.net_totals l 0 0 = V4.net_totals l' 0 0)
  /\ (forall l,
         V4.net_totals
           (filter (fun i => V4.counted (Sys.iface_name i)) l) 0 0
         = V4.net_totals l 0 0)
  /\ V4.counted "lo" = false /\ V4.counted "docker0" = false
  /\ (forall suffix, V4.counted ("veth" ++ suffix) = false).
Proof.
  split; [ | split].
  - intros l l' H. now apply net_totals_perm.
  - intros l. apply TotalFacts.net_totals_filter.
  - exact TotalFacts.not_counted_names.
Qed.

(** Two listings of the same three interfaces. *)
Lemma network_totals_ignore_order_and_virtual_interfaces_witness :
  V4.net_totals
    [Scenario.eth0 10 20;
     {| Sys.iface_name := "lo";
        Sys.rx_bytes := Sys.Holds 1; Sys.tx_bytes := Sys.Holds 1 |};
     Scenario.eth0 5 6] 0 0
  = V4.net_totals
      [{| Sys.iface_name := "lo";
          Sys.rx_bytes := Sys.Holds 1; Sys.tx_bytes := Sys.Holds 1 |};
       Scenario.eth0 5 6; Scenario.eth0 10 20] 0 0.
Proof.
  apply (proj1 network_totals_ignore_order_and_virtual_interfaces).
  apply Permutation_cons_append.
Defined.

(* ================================================================== *)
(** * Samples that fail *)
(* ================================================================== *)

Module FailFacts.
Import Py Sys Run.

Lemma network_read_fails (m : machine V4.SystemCommandCenter) :
  sys_class_net (env m) (instant m) = None ->
  V4.get_network_speed m = (Ok (PInt 0, PInt 0), advance NetDir m).
Proof.
  intros H. unfold V4.get_network_speed, try_except, bind, read_text.
  now rewrite H.
Qed.

Lemma disk_read_fails (m : machine V4.SystemCommandCenter) :
  proc_diskstats (env m) (instant m) = None
  \/ (exists stats e,
         proc_diskstats (env m) (instant m) = Some stats
         /\ V4.disk_totals stats 0 0 = Raise e) ->
  V4.get_disk_io m = (Ok (PInt 0, PInt 0), advance DiskStats m).
Proof.
  intros [H | (stats & e & H & Ht)];
    unfold V4.get_disk_io, try_except, bind at 1, read_text;
    rewrite H; [reflexivity | ].
  rewrite RangeFacts.bind_lift, Ht. reflexivity.
Qed.

Lemma cpu_read_fails (m : machine V4.SystemCommandCenter) :
  proc_stat (env m) (instant m) = None
  \/ (exists lines e,
         proc_stat (env m) (instant m) = Some lines
         /\ (V4.int_at (nth 0 lines []) 4 = Raise e
             \/ V4.sum_ints (tl (nth 0 lines [])) 0 = Raise e)) ->
  V4.get_cpu_usage m = (Ok (PInt 0), advance ProcStat m).
Proof.
  intros [H | (lines & e & H & Hp)];
    unfold V4.get_cpu_usage, try_except, bind at 1, read_text;
    rewrite H; [reflexivity | ].
  rewrite RangeFacts.bind_lift.
  destruct Hp as [Hp | Hp].
  - now rewrite Hp.
  - destruct (V4.int_at (nth 0 lines []) 4); [ | reflexivity].
    rewrite RangeFacts.bind_lift, Hp. reflexivity.
Qed.

End FailFacts.

(** X9.  A sample that cannot be taken reports 0 and leaves the stored
    previous sample as it was: when the network directory, the disk
    statistics or [/proc/stat] cannot be read or parsed, the sampler
    returns 0 and nothing of [self] changes (the clock is not even
    read), so the next good sample is measured against the last good
    one. *)
Theorem failed_sample_keeps_the_previous_one :
  forall m : Run.machine V4.SystemCommandCenter,
    (Sys.sys_class_net (Run.env m) (Run.instant m) = None ->
     V4.get_network_speed m
     = (Py.Ok (Py.PInt 0, Py.PInt 0), Run.advance Sys.NetDir m))
    /\ (Sys.proc_diskstats (Run.env m) (Run.instant m) = None
        \/ (exists stats e,
               Sys.proc_diskstats (Run.env m) (Run.instant m)
               = Some stats
               /\ V4.disk_totals stats 0 0 = Py.Raise e) ->
        V4.get_disk_io m
        = (Py.Ok (Py.PInt 0, Py.PInt 0), Run.advance Sys.DiskStats m))
    /\ (Sys.proc_stat (Run.env m) (Run.instant m) = None
        \/ (exists lines e,
               Sys.proc_stat (Run.env m) (Run.instant m) = Some lines
               /\ (V4.int_at (nth 0 lines []) 4 = Py.Raise e
                   \/ V4.sum_ints (tl (nth 0 lines [])) 0 = Py.Raise e)) ->
        V4.get_cpu_usage m
        = (Py.Ok (Py.PInt 0), Run.advance Sys.ProcStat m)).
Proof.
  intros m. split; [apply FailFacts.network_read_fails | split].
  - apply FailFacts.disk_read_fails.
  - apply FailFacts.cpu_read_fails.
Qed.

(** After a good disk sample, a statistics file with a word in place
    of the sectors read: the sample is (0, 0) and the stored counters
    are still those of the good sample. *)
Lemma failed_sample_keeps_the_previous_one_witness :
  fst (V4.get_disk_io Scenario.garbled_diskstats)
  = Py.Ok (Py.PInt 0, Py.PInt 0)
  /\ V4.last_disk_read
       (Run.self (snd (V4.get_disk_io Scenario.garbled_diskstats)))
     = 25600.
Proof.
  rewrite (proj1 (proj2 (failed_sample_keeps_the_previous_one
                           Scenario.garbled_diskstats))).
  - split; reflexivity.
  - right. eexists _, Py.ValueError. split; reflexivity.
Defined.

(* ================================================================== *)
(** * What a sampler stores *)
(* ================================================================== *)

Module SamplerFacts.
Import Py Sys Run RunFacts TickFacts InvFacts FrameFacts.

(** [c] returns normally, whatever the system and the state. *)
Definition never_raises {S A} (c : M S A) : Prop :=
  forall m, exists a, fst (c m) = Ok a.

Lemma try_returning {S A} (c : M S A) (x : A) :
  never_raises (try_except c (fun _ => ret x)).
Proof.
  intros m. unfold try_except, ret.
  destruct (c m) as [[a | e] m1]; cbn; eauto.
Qed.

Lemma never_raises_get_gpu_temps : never_raises V4.get_gpu_temps.
Proof.
  intros m. unfold V4.get_gpu_temps. rewrite RangeFacts.bind_get_self.
  destruct (negb (V4.has_root (self m))); [cbn; eauto | ].
  apply try_returning.
Qed.

Lemma never_raises_get_per_core_usage :
  never_raises V4.get_per_core_usage.
Proof.
  intros m. destruct (RangeFacts.per_core_usage_percent m)
    as (us & H & _). eauto.
Qed.

Lemma never_raises_get_cpu_info : never_raises V4.get_cpu_info.
Proof. intros m. cbn. eauto. Qed.

(** [c] changes nothing of [self]. *)
Definition stores_nothing {A} (c : M V4.SystemCommandCenter A) : Prop :=
  forall m, self (snd (c m)) = self m.

Lemma stores_nothing_of_keeps {A} (c : M V4.SystemCommandCenter A) :
  (forall a0, InvFacts.keeps (fun a => a = a0) c) -> stores_nothing c.
Proof. intros H m. now apply (H (self m) m). Qed.

Ltac stores_nothing :=
  apply stores_nothing_of_keeps; intros ?; FrameFacts.keeps.

Lemma get_gpu_temps_stores_nothing : stores_nothing V4.get_gpu_temps.
Proof. unfold V4.get_gpu_temps. stores_nothing. Qed.

Lemma get_gpu_frequency_stores_nothing :
  stores_nothing V4.get_gpu_frequency.
Proof. unfold V4.get_gpu_frequency. stores_nothing. Qed.

Lemma get_gpu_vram_stores_nothing : stores_nothing V4.get_gpu_vram.
Proof. unfold V4.get_gpu_vram. stores_nothing. Qed.

Lemma read_fans_keeps_self ids fans a0 :
  InvFacts.keeps (fun a => a = a0) (V4.read_fans ids fans).
Proof.
  revert fans. induction ids as [ | i rest IH]; intros fans;
    cbn [V4.read_fans]; FrameFacts.keeps.
Qed.

Lemma get_gpu_fans_stores_nothing : stores_nothing V4.get_gpu_fans.
Proof.
  apply stores_nothing_of_keeps. intros a0. unfold V4.get_gpu_fans.
  apply keeps_try_except; [ | intros ?; FrameFacts.keeps].
  apply keeps_bind; [apply read_fans_keeps_self | ].
  intros ?; FrameFacts.keeps.
Qed.

Lemma get_cpu_temp_stores_nothing : stores_nothing V4.get_cpu_temp.
Proof. unfold V4.get_cpu_temp. stores_nothing. Qed.

Lemma get_nvme_temp_stores_nothing : stores_nothing V4.get_nvme_temp.
Proof. unfold V4.get_nvme_temp. stores_nothing. Qed.

Lemma get_cpu_freq_stores_nothing : stores_nothing V4.get_cpu_freq.
Proof. unfold V4.get_cpu_freq. stores_nothing. Qed.

Lemma get_cpu_info_stores_nothing : stores_nothing V4.get_cpu_info.
Proof. unfold V4.get_cpu_info. stores_nothing. Qed.

(** The four samplers with a memory store their own sample only. *)
Lemma get_network_speed_stores (m : machine V4.SystemCommandCenter) :
  let a := self m in
  let a' := self (snd (V4.get_network_speed m)) in
  a' = a \/ exists rx tx t, a' = V4.set_last_net rx tx t a.
Proof.
  cbv zeta.
  unfold V4.get_network_speed, try_except, bind, read_text.
  destruct (sys_class_net (env m) (instant m)) as [ifaces | ];
    [ | now left].
  destruct (V4.net_totals ifaces 0 0) as [rx_total tx_total].
  unfold observe, get_self, lift. cbn [self advance].
  destruct (V4.speed rx_total _ _) as [r_rx | ]; [ | now left].
  destruct (V4.speed tx_total _ _) as [r_tx | ]; [ | now left].
  right. cbn. eauto.
Qed.

Lemma get_disk_io_stores (m : machine V4.SystemCommandCenter) :
  let a := self m in
  let a' := self (snd (V4.get_disk_io m)) in
  a' = a \/ exists r w t, a' = V4.set_last_disk r w t a.
Proof.
  cbv zeta.
  unfold V4.get_disk_io, try_except, bind, read_text.
  destruct (proc_diskstats (env m) (instant m)) as [stats | ];
    [ | now left].
  unfold lift at 1.
  destruct (V4.disk_totals stats 0 0) as [[rd_total wr_total] | ];
    [ | now left].
  unfold observe, get_self, lift. cbn [self advance].
  destruct (V4.speed rd_total _ _) as [r_rd | ]; [ | now left].
  destruct (V4.speed wr_total _ _) as [r_wr | ]; [ | now left].
  right. cbn. eauto.
Qed.

Lemma get_cpu_usage_stores (m : machine V4.SystemCommandCenter) :
  let a := self m in
  let a' := self (snd (V4.get_cpu_usage m)) in
  a' = a \/ exists idle total, a' = V4.set_last_cpu idle total a.
Proof.
  cbv zeta.
  unfold V4.get_cpu_usage, try_except, bind, read_text.
  destruct (proc_stat (env m) (instant m)) as [lines | ];
    [ | now left].
  unfold lift, get_self. cbn [self advance].
  destruct (V4.int_at _ 4); [ | now left].
  destruct (V4.sum_ints _ 0); [ | now left].
  match goal with
  | |- context [match ?o with Ok _ => _ | Raise _ => _ end] =>
      destruct o as [usage | ]
  end; [ | now left].
  right. cbn. eauto.
Qed.

(** Only [last_core_stats] differs. *)
Definition cores_resampled (a a' : V4.SystemCommandCenter) : Prop :=
  exists cs,
    a' = V4.set_samples (V4.last_net_rx a) (V4.last_net_tx a)
           (V4.last_net_time a) (V4.last_disk_read a)
           (V4.last_disk_write a) (V4.last_disk_time a) cs
           (V4.last_cpu a) a.

Lemma cores_resampled_refl a : cores_resampled a a.
Proof. exists (V4.last_core_stats a). now destruct a. Qed.

Lemma cores_resampled_set a0 a i idle total :
  cores_resampled a0 a ->
  cores_resampled a0 (V4.set_last_core i idle total a).
Proof. intros [cs ->]. eexists. reflexivity. Qed.

#[export] Hint Resolve cores_resampled_set : keeps.

Lemma core_loop_cores_resampled lines cores usages a0 :
  InvFacts.keeps (cores_resampled a0)
                 (V4.core_loop lines cores usages).
Proof.
  revert usages. induction cores as [ | i rest IH]; intros usages;
    cbn [V4.core_loop]; FrameFacts.keeps.
Qed.

Lemma get_per_core_usage_stores (m : machine V4.SystemCommandCenter) :
  cores_resampled (self m) (self (snd (V4.get_per_core_usage m))).
Proof.
  assert (H : InvFacts.keeps (cores_resampled (self m))
                             V4.get_per_core_usage).
  { unfold V4.get_per_core_usage.
    apply keeps_try_except; [ | intros ?; FrameFacts.keeps].
    apply keeps_bind; [FrameFacts.keeps | intros lines].
    apply keeps_bind; [FrameFacts.keeps | intros s].
    apply core_loop_cores_resampled. }
  apply H. apply cores_resampled_refl.
Qed.

End SamplerFacts.

(** X10.  A sampler stores nothing but its own previous sample.  The GPU,
    temperature, frequency and fan samplers leave [self] as it is; the
    network sampler changes at most [last_net_rx], [last_net_tx] and
    [last_net_time], the disk sampler at most its three attributes, the
    CPU sampler at most [last_cpu_idle] and [last_cpu_total], and the
    per-core sampler at most [last_core_stats]: no sampler touches a
    history buffer, a label, a gauge or the critical flag. *)
Theorem samplers_store_only_their_own_sample :
  forall m : Run.machine V4.SystemCommandCenter,
    Run.self (snd (V4.get_gpu_temps m)) = Run.self m
    /\ Run.self (snd (V4.get_gpu_frequency m)) = Run.self m
    /\ Run.self (snd (V4.get_gpu_vram m)) = Run.self m
    /\ Run.self (snd (V4.get_gpu_fans m)) = Run.self m
    /\ Run.self (snd (V4.get_cpu_temp m)) = Run.self m
    /\ Run.self (snd (V4.get_nvme_temp m)) = Run.self m
    /\ Run.self (snd (V4.get_cpu_freq m)) = Run.self m
    /\ (Run.self (snd (V4.get_network_speed m)) = Run.self m
        \/ exists rx tx t,
            Run.self (snd (V4.get_network_speed m))
            = V4.set_last_net rx tx t (Run.self m))
    /\ (Run.self (snd (V4.get_disk_io m)) = Run.self m
        \/ exists r w t,
            Run.self (snd (V4.get_disk_io m))
            = V4.set_last_disk r w t (Run.self m))
    /\ (Run.self (snd (V4.get_cpu_usage m)) = Run.self m
        \/ exists idle total,
            Run.self (snd (V4.get_cpu_usage m))
            = V4.set_last_cpu idle total (Run.self m))
    /\ (exists cs,
           Run.self (snd (V4.get_per_core_usage m))
           = V4.set_samples
               (V4.last_net_rx (Run.self m)) (V4.last_net_tx (Run.self m))
               (V4.last_net_time (Run.self m))
               (V4.last_disk_read (Run.self m))
               (V4.last_disk_write (Run.self m))
               (V4.last_disk_time (Run.self m)) cs
               (V4.last_cpu (Run.self m)) (Run.self m)).
Proof.
  intros m.
  split; [apply SamplerFacts.get_gpu_temps_stores_nothing | ].
  split; [apply SamplerFacts.get_gpu_frequency_stores_nothing | ].
  split; [apply SamplerFacts.get_gpu_vram_stores_nothing | ].
  split; [apply SamplerFacts.get_gpu_fans_stores_nothing | ].
  split; [apply SamplerFacts.get_cpu_temp_stores_nothing | ].
  split; [apply SamplerFacts.get_nvme_temp_stores_nothing | ].
  split; [apply SamplerFacts.get_cpu_freq_stores_nothing | ].
  split; [apply SamplerFacts.get_network_speed_stores | ].
  split; [apply SamplerFacts.get_disk_io_stores | ].
  split; [apply SamplerFacts.get_cpu_usage_stores | ].
  apply SamplerFacts.get_per_core_usage_stores.
Qed.

(* ================================================================== *)
(** * From a sampler to its panel *)
(* ================================================================== *)

Module PanelFacts.
Import Py Sys Run RunFacts TickFacts InvFacts FrameFacts HistoryFacts
  SamplerFacts.
Local Open Scope run_scope.

Section Triples.
Context {S : Type}.

(** In a calm system and from a [self] with [P], [c] returns some
    [a] normally, in the same system and with [Q a] for [self]. *)
Definition triple {A} (P : S -> Prop) (c : M S A)
           (Q : A -> S -> Prop) : Prop :=
  forall m, calm m -> P (self m) ->
            exists a, fst (c m) = Ok a /\ env (snd (c m)) = env m
                      /\ Q a (self (snd (c m))).

Lemma triple_ret {A} (P : S -> Prop) (a : A) (Q : A -> S -> Prop) :
  (forall s, P s -> Q a s) -> triple P (ret a) Q.
Proof. intros H m _ HP. exists a. cbn. auto. Qed.

Lemma triple_modify_self (P : S -> Prop) (f : S -> S)
      (Q : unit -> S -> Prop) :
  (forall s, P s -> Q tt (f s)) -> triple P (modify_self f) Q.
Proof. intros H m _ HP. exists tt. cbn. auto. Qed.

Lemma triple_tk (P : S -> Prop) (Q : unit -> S -> Prop) :
  (forall s, P s -> Q tt s) -> triple P tk Q.
Proof.
  intros H m Hc HP. exists tt. unfold tk. rewrite Hc. cbn. auto.
Qed.

Lemma triple_bind {A B} (P : S -> Prop) (R : A -> S -> Prop)
      (Q : B -> S -> Prop) (c : M S A) (k : A -> M S B) :
  (forall a, triple (R a) (k a) Q) -> triple P c R ->
  triple P (bind c k) Q.
Proof.
  intros Hk Hc m Hcalm HP.
  destruct (Hc m Hcalm HP) as (a & Ha & E & HR).
  unfold bind. destruct (c m) as [[a' | e] m1]; cbn in *;
    [ | discriminate].
  injection Ha as ->.
  destruct (Hk a m1) as (b & Hb & E' & HQ); auto.
  { intros n. rewrite E. apply Hcalm. }
  exists b. split; [exact Hb | split; [congruence | exact HQ]].
Qed.

Lemma triple_option {A B} (o : option A) (P : S -> Prop)
      (P1 : A -> S -> Prop) (P0 : S -> Prop)
      (f : A -> M S B) (g : M S B) (Q : B -> S -> Prop) :
  (forall t, triple (P1 t) (f t) Q) -> triple P0 g Q ->
  (forall s, P s -> match o with
                    | Some t => P1 t s
                    | None => P0 s
                    end) ->
  triple P (match o with Some t => f t | None => g end) Q.
Proof.
  intros Hf Hg H m Hc HP. specialize (H _ HP).
  destruct o; [eapply Hf | eapply Hg]; eauto.
Qed.

Lemma triple_if {B} (b : bool) (P P1 P0 : S -> Prop)
      (c1 c0 : M S B) (Q : B -> S -> Prop) :
  triple P1 c1 Q -> triple P0 c0 Q ->
  (forall s, P s -> if b then P1 s else P0 s) ->
  triple P (if b then c1 else c0) Q.
Proof.
  intros H1 H0 H m Hc HP. specialize (H _ HP).
  destruct b; [eapply H1 | eapply H0]; eauto.
Qed.

Lemma triple_get_self (P : S -> Prop) (Q : S -> S -> Prop) :
  (forall s, P s -> Q s s) -> triple P get_self Q.
Proof. intros H m _ HP. exists (self m). cbn. auto. Qed.

Lemma triple_lift {A} (P : S -> Prop) (o : outcome A)
      (Q : A -> S -> Prop) :
  (forall s, P s -> match o with
                    | Ok a => Q a s
                    | Raise _ => False
                    end) ->
  triple P (lift o) Q.
Proof.
  intros H m _ HP. specialize (H _ HP).
  destruct o as [a | e]; [ | contradiction].
  exists a. cbn. auto.
Qed.

Lemma triple_weaken {A} (P P' : S -> Prop) (c : M S A)
      (Q : A -> S -> Prop) :
  triple P' c Q -> (forall s, P s -> P' s) -> triple P c Q.
Proof. intros H HP m Hc Hm. apply H; auto. Qed.

End Triples.

(** [h.pop(0); h.append(v)] on a buffer that is not empty. *)
Lemma triple_pop_append (P : V4.SystemCommandCenter -> Prop)
      get set v (Q : unit -> V4.SystemCommandCenter -> Prop) :
  (forall s, P s -> get s <> [] /\ Q tt (set (tl (get s) ++ [v]) s)) ->
  triple P (V4.pop_append get set v) Q.
Proof.
  intros H m _ HP. destruct (H _ HP) as [Hne HQ]. exists tt.
  unfold V4.pop_append, bind, get_self, lift.
  destruct (get (self m)) as [ | x h]; [now destruct Hne | ].
  cbn in *. auto.
Qed.

(** A sampler in the middle of a panel: whatever it returns and
    stores. *)
Lemma triple_sampler {A} (P : V4.SystemCommandCenter -> Prop)
      (c : M V4.SystemCommandCenter A)
      (Q : A -> V4.SystemCommandCenter -> Prop) :
  resamples c -> steady c -> never_raises c ->
  (forall s, P s -> forall a s', resampled s s' -> Q a s') ->
  triple P c Q.
Proof.
  intros Hr Hs Hn H m _ HP. destruct (Hn m) as [a Ha]. exists a.
  split; [exact Ha | ]. split; [apply Hs | ].
  eapply H; eauto. apply (Hr (self m) m). apply resampled_refl.
Qed.

(** [c, s = self.get_temp_color_status(..); lbl.config(text=s, fg=c)] *)
Lemma triple_classified (P : V4.SystemCommandCenter -> Prop)
      l t thresholds (Q : unit -> V4.SystemCommandCenter -> Prop) :
  triple P (V4.config l
              (snd (V4.get_temp_color_status t thresholds))
              (fst (V4.get_temp_color_status t thresholds))) Q ->
  triple P (let '(c, s) := V4.get_temp_color_status t thresholds in
            V4.config l s c) Q.
Proof. now destruct (V4.get_temp_color_status t thresholds). Qed.

Create HintDb never discriminated.

Lemma never_raises_get_gpu_frequency :
  never_raises V4.get_gpu_frequency.
Proof. apply try_returning. Qed.

Lemma never_raises_get_gpu_vram : never_raises V4.get_gpu_vram.
Proof. apply try_returning. Qed.

Lemma never_raises_get_gpu_fans : never_raises V4.get_gpu_fans.
Proof. apply try_returning. Qed.

Lemma never_raises_get_cpu_temp : never_raises V4.get_cpu_temp.
Proof. apply try_returning. Qed.

Lemma never_raises_get_nvme_temp : never_raises V4.get_nvme_temp.
Proof. apply try_returning. Qed.

Lemma never_raises_get_cpu_freq : never_raises V4.get_cpu_freq.
Proof. apply try_returning. Qed.

#[export] Hint Resolve never_raises_get_gpu_frequency
  never_raises_get_gpu_vram never_raises_get_gpu_fans
  never_raises_get_cpu_temp never_raises_get_nvme_temp
  never_raises_get_cpu_freq never_raises_get_cpu_info
  never_raises_get_gpu_temps never_raises_get_per_core_usage : never.

Ltac wp_side :=
  let s := fresh "s" in
  let H := fresh "H" in
  intros s H; exact H.

(** The precondition of a straight piece of panel code, computed
    backwards from its postcondition. *)
Ltac wp :=
  cbv beta;
  lazymatch goal with
  | |- triple _ (bind _ _) _ =>
      eapply triple_bind; [ intros ?; wp | wp ]
  | |- triple _ (ret _) _ => apply triple_ret; wp_side
  | |- triple _ (modify_self _) _ => apply triple_modify_self; wp_side
  | |- triple _ tk _ => apply triple_tk; wp_side
  | |- triple _ get_self _ => apply triple_get_self; wp_side
  | |- triple _ (lift _) _ => apply triple_lift; wp_side
  | |- triple _ V4.render _ => apply triple_tk; wp_side
  | |- triple _ (V4.config _ _ _) _ => unfold V4.config; wp
  | |- triple _ (V4.draw_gauge _ _) _ => unfold V4.draw_gauge; wp
  | |- triple _ (V4.pop_append _ _ _) _ =>
      apply triple_pop_append; wp_side
  | |- triple _ (match ?x with _ => _ end) _ =>
      let T := type of x in
      lazymatch eval hnf in T with
      | option _ =>
          eapply triple_option; [ intros ?; wp | wp | wp_side ]
      | bool => eapply triple_if; [ wp | wp | wp_side ]
      | prod _ _ => apply triple_classified; wp
      end
  | |- triple _ _ _ =>
      apply triple_sampler;
      [ solve [auto with samplers] | solve [auto with steady]
      | solve [auto with never] | wp_side ]
  end.

(** The panel of a sampler [c]: what [c] returned goes through the
    rest of the panel. *)
Lemma first_sample {A B} (c : M V4.SystemCommandCenter A)
      (k : A -> M V4.SystemCommandCenter B)
      (P : V4.SystemCommandCenter -> Prop)
      (Q : B -> V4.SystemCommandCenter -> Prop)
      (m : machine V4.SystemCommandCenter) (a : A) :
  resamples c -> steady c -> calm m -> fst (c m) = Ok a ->
  triple P (k a) Q ->
  (forall s', resampled (self m) s' -> P s') ->
  exists b, fst (bind c k m) = Ok b
            /\ Q b (self (snd (bind c k m))).
Proof.
  intros Hr Hs Hcalm Ha Ht HP. unfold bind.
  pose proof (Hr (self m) m (resampled_refl _)) as R.
  destruct (Hs m) as (E & _).
  destruct (c m) as [[a' | e] m1]; cbn in *; [ | discriminate].
  injection Ha as ->.
  destruct (Ht m1) as (b & Hb & _ & HQ); eauto.
  intros n. rewrite E. apply Hcalm.
Qed.

(** *** A panel that may stop half-way *)

(** From a [self] with [P] in a calm system, [c] ends with [Q] for
    [self], whether it returns or raises; in a system with [E] it
    returns. *)
Definition settles {S A} (E : environment -> Prop) (P : S -> Prop)
           (c : M S A) (Q : S -> Prop) : Prop :=
  forall m, calm m -> P (self m) ->
            Q (self (snd (c m)))
            /\ (E (env m) -> exists a, fst (c m) = Ok a).

Lemma settles_bind {S A B} (E : environment -> Prop) (P : S -> Prop)
      (R : A -> S -> Prop) (Q : S -> Prop)
      (c : M S A) (k : A -> M S B) :
  (forall a, settles E (R a) (k a) Q) -> triple P c R ->
  settles E P (bind c k) Q.
Proof.
  intros Hk Hc m Hcalm HP.
  destruct (Hc m Hcalm HP) as (a & Ha & Henv & HR).
  unfold bind. destruct (c m) as [[a' | e] m1]; cbn in *;
    [ | discriminate].
  injection Ha as ->. rewrite <- Henv. apply Hk; [ | exact HR].
  intros n. rewrite Henv. apply Hcalm.
Qed.

(** The end of the panel: statements that leave [Q] alone. *)
Lemma settles_end {S A} (E : environment -> Prop) (P Q : S -> Prop)
      (c : M S A) :
  InvFacts.keeps Q c -> completes_in E Q c ->
  (forall s, P s -> Q s) -> settles E P c Q.
Proof.
  intros Hk Hc H m _ HP. split.
  - apply Hk. now apply H.
  - intros HE. apply (Hc m HE). now apply H.
Qed.

Lemma first_sample_settles {A B} (c : M V4.SystemCommandCenter A)
      (k : A -> M V4.SystemCommandCenter B)
      (E : environment -> Prop)
      (P Q : V4.SystemCommandCenter -> Prop)
      (m : machine V4.SystemCommandCenter) (a : A) :
  resamples c -> steady c -> calm m -> fst (c m) = Ok a ->
  settles E P (k a) Q ->
  (forall s', resampled (self m) s' -> P s') ->
  Q (self (snd (bind c k m)))
  /\ (E (env m) -> exists b, fst (bind c k m) = Ok b).
Proof.
  intros Hr Hs Hcalm Ha Ht HP. unfold bind.
  pose proof (Hr (self m) m (resampled_refl _)) as R.
  destruct (Hs m) as (Henv & _).
  destruct (c m) as [[a' | e] m1]; cbn in *; [ | discriminate].
  injection Ha as ->. rewrite <- Henv. apply Ht; [ | now apply HP].
  intros n. rewrite Henv. apply Hcalm.
Qed.

(** A sampler that returns in a calm system. *)
Lemma completes_sampler {A} (P : V4.SystemCommandCenter -> Prop)
      (c : M V4.SystemCommandCenter A) :
  sample_blind P -> resamples c -> steady c -> never_raises c ->
  completes P c.
Proof.
  intros Hb Hr Hs Hn m _ HP. split; [apply Hs | ].
  split; [now apply (keeps_sampler P c Hb Hr) | apply Hn].
Qed.

Ltac resampled_pre :=
  let s := fresh "s" in
  intros s (?x1 & ?x2 & ?x3 & ?x4 & ?x5 & ?x6 & ?x7 & ?x8 & ->).

(** Every case of a computed precondition. *)
Ltac settle :=
  repeat (cbv beta iota;
          match goal with
          | |- forall _, _ => intro
          | H : resampled _ _ |- _ =>
              destruct H as (? & ? & ? & ? & ? & ? & ? & ? & ->)
          | |- _ /\ _ => split
          | |- match ?x with _ => _ end => destruct x eqn:?
          end).

Lemma update_network_pushes (m : machine V4.SystemCommandCenter)
      rx tx x hr y ht :
  calm m -> fst (V4.get_network_speed m) = Ok (rx, tx) ->
  V4.net_rx_history (self m) = x :: hr ->
  V4.net_tx_history (self m) = y :: ht ->
  exists b, fst (V4.update_network m) = Ok b
    /\ (V4.net_rx_history (self (snd (V4.update_network m)))
        = hr ++ [rx]
        /\ V4.net_tx_history (self (snd (V4.update_network m)))
           = ht ++ [tx]).
Proof.
  intros Hcalm Hget Hrx Htx. unfold V4.update_network.
  eapply (first_sample _ _ _
            (fun _ s => V4.net_rx_history s = hr ++ [rx]
                        /\ V4.net_tx_history s = ht ++ [tx]));
    [ apply resamples_get_network_speed
    | apply steady_get_network_speed | exact Hcalm | exact Hget
    | cbv beta iota; wp | ].
  resampled_pre. cbn. rewrite Hrx, Htx. cbn.
  repeat split; discriminate.
Qed.

Lemma update_disk_io_pushes (m : machine V4.SystemCommandCenter)
      rd wr x hr y hw :
  calm m -> fst (V4.get_disk_io m) = Ok (rd, wr) ->
  V4.disk_read_history (self m) = x :: hr ->
  V4.disk_write_history (self m) = y :: hw ->
  exists b, fst (V4.update_disk_io m) = Ok b
    /\ (V4.disk_read_history (self (snd (V4.update_disk_io m)))
        = hr ++ [rd]
        /\ V4.disk_write_history (self (snd (V4.update_disk_io m)))
           = hw ++ [wr]).
Proof.
  intros Hcalm Hget Hrd Hwr. unfold V4.update_disk_io.
  eapply (first_sample _ _ _
            (fun _ s => V4.disk_read_history s = hr ++ [rd]
                        /\ V4.disk_write_history s = hw ++ [wr]));
    [ apply resamples_get_disk_io
    | apply steady_get_disk_io | exact Hcalm | exact Hget
    | cbv beta iota; wp | ].
  resampled_pre. cbn. rewrite Hrd, Hwr. cbn.
  repeat split; discriminate.
Qed.

(** What the CPU panel shows of a usage [u]. *)
Definition cpu_shown (h : list num) (u : num) (crit : bool)
           (s : V4.SystemCommandCenter) : Prop :=
  V4.cpu_history s = h ++ [u]
  /\ V4.current_cpu_usage s = u
  /\ V4.gauges s V4.cpu_usage_canvas = Some u
  /\ (crit = true -> V4.is_critical s = true).

Lemma update_cpu_shows (m : machine V4.SystemCommandCenter) u x h :
  calm m -> fst (V4.get_cpu_usage m) = Ok u ->
  V4.cpu_history (self m) = x :: h ->
  exists b, fst (V4.update_cpu m) = Ok b
    /\ cpu_shown h u (V4.is_critical (self m))
                 (self (snd (V4.update_cpu m))).
Proof.
  intros Hcalm Hget Hh. unfold V4.update_cpu.
  eapply (first_sample _ _ _
            (fun _ s => cpu_shown h u (V4.is_critical (self m)) s));
    [ apply resamples_get_cpu_usage
    | apply steady_get_cpu_usage | exact Hcalm | exact Hget
    | cbv beta iota; wp | ].
  resampled_pre. cbn.
  intros temp s1 (?x1 & ?x2 & ?x3 & ?x4 & ?x5 & ?x6 & ?x7 & ?x8 & ->).
  intros nvme s2 (?x1 & ?x2 & ?x3 & ?x4 & ?x5 & ?x6 & ?x7 & ?x8 & ->).
  intros freq s3 (?x1 & ?x2 & ?x3 & ?x4 & ?x5 & ?x6 & ?x7 & ?x8 & ->).
  intros info s4 (?x1 & ?x2 & ?x3 & ?x4 & ?x5 & ?x6 & ?x7 & ?x8 & ->).
  cbn. rewrite Hh. split; [discriminate | ].
  unfold cpu_shown.
  destruct temp as [t | ]; [destruct (gt t (PInt 75)) | ];
    destruct nvme; cbn; auto.
Qed.

(** [t > limit] for a temperature that may be unavailable. *)
Definition above (t : option num) (limit : Z) : bool :=
  match t with
  | Some t => gt t (PInt limit)
  | None => false
  end.

(** The text and colour of a GPU status label. *)
Definition gpu_label (t : option num) (thresholds : num * num)
  : V4.status * V4.color :=
  match t with
  | Some t =>
      (snd (V4.get_temp_color_status (Some t) thresholds),
       fst (V4.get_temp_color_status (Some t) thresholds))
  | None => (V4.NO_ACCESS, V4.text_dim)
  end.

Definition gpu_shown (h0 : list num) (t1 t2 : option num)
           (s : V4.SystemCommandCenter) : Prop :=
  V4.is_critical s = above t1 80 || above t2 85
  /\ V4.labels s V4.gpu_temp_status = gpu_label t1 (PInt 55, PInt 80)
  /\ V4.labels s V4.gpu_hotspot_status
     = gpu_label t2 (PInt 60, PInt 85)
  /\ V4.gpu_temp_history s
     = match t1 with
       | Some t => tl h0 ++ [t]
       | None => h0
       end.

Lemma gpu_shown_blind h0 t1 t2 : sample_blind (gpu_shown h0 t1 t2).
Proof.
  intros a a' (x1 & x2 & x3 & x4 & x5 & x6 & x7 & x8 & ->) H. exact H.
Qed.

(** The statements of [update_gpu] after the temperatures and the
    frequency: VRAM, fans and the graph. *)
Definition update_gpu_rest : V4.app :=
  vram <- V4.get_gpu_vram ;;
  match vram with
  | (Some used, Some total) =>
      lift (truediv used (PInt (1024 ^ 3))) ;;
      lift (truediv total (PInt (1024 ^ 3))) ;;
      V4.render ;;
      V4.draw_vram_bar used total
  | (Some _, None) => raise TypeError
  | (None, _) => ret tt
  end ;;
  rpm <- V4.get_gpu_fans ;;
  V4.render ;;
  (if gt rpm (PInt 0) then V4.config V4.fan_status V4.ACTIVE
                                     V4.accent_teal
   else V4.config V4.fan_status V4.IDLE V4.text_dim) ;;
  V4.render.

Lemma keeps_update_gpu_rest h0 t1 t2 :
  InvFacts.keeps (gpu_shown h0 t1 t2) update_gpu_rest.
Proof.
  unfold update_gpu_rest.
  repeat first
    [ apply keeps_sampler;
      [ apply gpu_shown_blind | solve [auto with samplers] ]
    | apply keeps_tk | apply keeps_tk_int | apply keeps_lift
    | apply keeps_ret | apply keeps_raise
    | apply keeps_modify_self; intros ? H; exact H
    | apply keeps_bind; [ | intros ? ]
    | apply keeps_for_each; intros ?
    | match goal with
      | |- InvFacts.keeps _ (match ?x with _ => _ end) => destruct x
      end
    | progress unfold V4.config, V4.draw_vram_bar, V4.render ].
Qed.

Lemma completes_update_gpu_rest h0 t1 t2 :
  completes_in no_vram (gpu_shown h0 t1 t2) update_gpu_rest.
Proof.
  unfold update_gpu_rest.
  apply completes_in_vram; [auto | cbv beta iota].
  apply completes_in_calm; [exact no_vram_calm | ].
  repeat first
    [ apply completes_sampler;
      [ apply gpu_shown_blind | solve [auto with samplers]
      | solve [auto with steady] | solve [auto with never] ]
    | apply completes_ret | apply completes_tk
    | apply completes_modify_self; intros ? H; exact H
    | apply completes_bind; [ | intros ? ]
    | match goal with
      | |- InvFacts.completes _ (match ?x with _ => _ end) =>
          destruct x
      end
    | progress unfold V4.config, V4.render ].
Qed.

Ltac settles n :=
  cbv beta;
  lazymatch n with
  | O =>
      apply settles_end;
      [ apply keeps_update_gpu_rest | apply completes_update_gpu_rest
      | wp_side ]
  | S ?k => eapply settles_bind; [ intros ?; settles k | wp ]
  end.

Lemma update_gpu_shows (m : machine V4.SystemCommandCenter) t1 t2 :
  calm m -> fst (V4.get_gpu_temps m) = Ok (t1, t2) ->
  V4.gpu_temp_history (self m) <> [] ->
  gpu_shown (V4.gpu_temp_history (self m)) t1 t2
            (self (snd (V4.update_gpu m)))
  /\ (no_vram (env m) -> exists b, fst (V4.update_gpu m) = Ok b).
Proof.
  intros Hcalm Hget Hh.
  change V4.update_gpu
    with (temps <- V4.get_gpu_temps ;;
          let '(t1, t2) := temps in
          modify_self (V4.set_is_critical false) ;;
          match t1 with
          | Some t1 =>
              modify_self (V4.set_current_gpu_temp t1) ;;
              V4.draw_gauge V4.gpu_temp_canvas t1 ;;
              (let '(c, s) := V4.get_temp_color_status (Some t1)
                                (PInt 55, PInt 80) in
               V4.config V4.gpu_temp_status s c) ;;
              V4.pop_append V4.gpu_temp_history
                            V4.set_gpu_temp_history t1 ;;
              if gt t1 (PInt 80)
              then modify_self (V4.set_is_critical true)
              else ret tt
          | None =>
              V4.draw_gauge V4.gpu_temp_canvas (PInt 0) ;;
              V4.config V4.gpu_temp_status V4.NO_ACCESS V4.text_dim
          end ;;
          match t2 with
          | Some t2 =>
              V4.draw_gauge V4.gpu_hotspot_canvas t2 ;;
              (let '(c, s) := V4.get_temp_color_status (Some t2)
                                (PInt 60, PInt 85) in
               V4.config V4.gpu_hotspot_status s c) ;;
              if gt t2 (PInt 85)
              then modify_self (V4.set_is_critical true)
              else ret tt
          | None =>
              V4.draw_gauge V4.gpu_hotspot_canvas (PInt 0) ;;
              V4.config V4.gpu_hotspot_status V4.NO_ACCESS V4.text_dim
          end ;;
          freq <- V4.get_gpu_frequency ;;
          match fst freq with
          | Some _ => V4.render ;; V4.render
          | None => ret tt
          end ;;
          update_gpu_rest).
  eapply (first_sample_settles _ _ no_vram _
            (gpu_shown (V4.gpu_temp_history (self m)) t1 t2));
    [ apply resamples_get_gpu_temps
    | apply steady_get_gpu_temps | exact Hcalm | exact Hget
    | cbv beta iota; settles 5%nat | ].
  resampled_pre. unfold gpu_shown, above, gpu_label.
  settle; try exact Hh; repeat split; reflexivity.
Qed.

End PanelFacts.

(** X11.  The network and disk panels record what their sampler returned.
    With a Tk that works and history buffers that are not empty, the
    panel update returns normally and each of its two buffers has lost
    its oldest entry and ends with the rate the sampler returned on
    this tick: download and upload for [update_network], read and write
    for [update_disk_io]. *)
Theorem rate_panels_record_the_sampled_rates :
  forall m : Run.machine V4.SystemCommandCenter,
    InvFacts.calm m ->
    (forall rx tx x hr y ht,
        fst (V4.get_network_speed m) = Py.Ok (rx, tx) ->
        V4.net_rx_history (Run.self m) = x :: hr ->
        V4.net_tx_history (Run.self m) = y :: ht ->
        fst (V4.update_network m) = Py.Ok tt
        /\ V4.net_rx_history (Run.self (snd (V4.update_network m)))
           = hr ++ [rx]
        /\ V4.net_tx_history (Run.self (snd (V4.update_network m)))
           = ht ++ [tx])
    /\ (forall rd wr x hr y hw,
           fst (V4.get_disk_io m) = Py.Ok (rd, wr) ->
           V4.disk_read_history (Run.self m) = x :: hr ->
           V4.disk_write_history (Run.self m) = y :: hw ->
           fst (V4.update_disk_io m) = Py.Ok tt
           /\ V4.disk_read_history (Run.self (snd (V4.update_disk_io m)))
              = hr ++ [rd]
           /\ V4.disk_write_history
                (Run.self (snd (V4.update_disk_io m)))
              = hw ++ [wr]).
Proof.
  intros m Hcalm. split.
  - intros rx tx x hr y ht Hget Hrx Htx.
    destruct (PanelFacts.update_network_pushes m rx tx x hr y ht
                Hcalm Hget Hrx Htx) as ([] & Hok & H).
    split; [exact Hok | exact H].
  - intros rd wr x hr y hw Hget Hrd Hwr.
    destruct (PanelFacts.update_disk_io_pushes m rd wr x hr y hw
                Hcalm Hget Hrd Hwr) as ([] & Hok & H).
    split; [exact Hok | exact H].
Qed.

(** One second after a sample of 1000 and 500 bytes the counters read
    3000 and 1500: the panel appends 2000.0 and 1000.0 to its 59
    remaining zeros. *)
Lemma rate_panels_record_the_sampled_rates_witness :
  fst (V4.update_network Scenario.stalled_clock_1) = Py.Ok tt
  /\ V4.net_rx_history
       (Run.self (snd (V4.update_network Scenario.stalled_clock_1)))
     = repeat (Py.PInt 0) 59 ++ [Py.PFloat (Py.double 2000)]
  /\ V4.net_tx_history
       (Run.self (snd (V4.update_network Scenario.stalled_clock_1)))
     = repeat (Py.PInt 0) 59 ++ [Py.PFloat (Py.double 1000)].
Proof.
  apply (proj1 (rate_panels_record_the_sampled_rates
                  Scenario.stalled_clock_1
                  (fun n => eq_refl))
               (Py.PFloat (Py.double 2000)) (Py.PFloat (Py.double 1000))
               (Py.PInt 0) (repeat (Py.PInt 0) 59)
               (Py.PInt 0) (repeat (Py.PInt 0) 59)).
  - vm_compute. reflexivity.
  - reflexivity.
  - reflexivity.
Defined.

(** X12.  The CPU panel shows the usage its sampler returned.  With a Tk that
    works and a CPU history that is not empty, [update_cpu] returns
    normally; the history has lost its oldest entry and ends with the
    sampled usage, which is also [current_cpu_usage] and the value on
    the usage gauge.  The panel never clears the critical flag: a flag
    raised before it (by the GPU panel) is still raised after it. *)
Theorem cpu_panel_shows_the_sampled_usage :
  forall (m : Run.machine V4.SystemCommandCenter) u x h,
    InvFacts.calm m ->
    fst (V4.get_cpu_usage m) = Py.Ok u ->
    V4.cpu_history (Run.self m) = x :: h ->
    fst (V4.update_cpu m) = Py.Ok tt
    /\ V4.cpu_history (Run.self (snd (V4.update_cpu m))) = h ++ [u]
    /\ V4.current_cpu_usage (Run.self (snd (V4.update_cpu m))) = u
    /\ V4.gauges (Run.self (snd (V4.update_cpu m))) V4.cpu_usage_canvas
       = Some u
    /\ (V4.is_critical (Run.self m) = true ->
        V4.is_critical (Run.self (snd (V4.update_cpu m))) = true).
Proof.
  intros m u x h Hcalm Hget Hh.
  destruct (PanelFacts.update_cpu_shows m u x h Hcalm Hget Hh)
    as ([] & Hok & H).
  split; [exact Hok | exact H].
Qed.

(** After the counters (idle 1000, total 2000) the panel samples (idle
    1400, total 2500): the history ends with 19.999999999999996. *)
Lemma cpu_panel_shows_the_sampled_usage_witness :
  V4.cpu_history (Run.self (snd (V4.update_cpu Scenario.cpu_ticks_1)))
  = repeat (Py.PInt 0) 59
    ++ [Py.PFloat (S754_finite false 5629499534213119 (-48))]
  /\ V4.gauges (Run.self (snd (V4.update_cpu Scenario.cpu_ticks_1)))
               V4.cpu_usage_canvas
     = Some (Py.PFloat (S754_finite false 5629499534213119 (-48))).
Proof.
  destruct (cpu_panel_shows_the_sampled_usage
              Scenario.cpu_ticks_1
              (Py.PFloat (S754_finite false 5629499534213119 (-48)))
              (Py.PInt 0) (repeat (Py.PInt 0) 59)
              (fun n => eq_refl))
    as (_ & Hh & _ & Hg & _).
  - vm_compute. reflexivity.
  - reflexivity.
  - split; [exact Hh | exact Hg].
Defined.

(** X13.  The GPU panel resets the critical flag and raises it for a
    temperature strictly above its limit.  With a Tk that works and a
    GPU history that is not empty, [update_gpu] leaves [is_critical]
    true exactly when the edge temperature is above 80 or the hotspot
    above 85, whatever the flag was before; the two status labels show
    the classification of the temperatures at (55, 80) and (60, 85), or
    NO ACCESS for a missing one; and the GPU history is pushed only when
    there is an edge temperature.  All this is done before the VRAM
    readings are looked at, so it holds whether the panel then returns
    or raises on them; the panel returns normally when the VRAM counter
    cannot be read.  At exactly 80 the label reads CRITICAL while the
    flag stays down. *)
Theorem gpu_panel_flags_overheating :
  forall (m : Run.machine V4.SystemCommandCenter) t1 t2,
    InvFacts.calm m ->
    fst (V4.get_gpu_temps m) = Py.Ok (t1, t2) ->
    V4.gpu_temp_history (Run.self m) <> [] ->
    let a' := Run.self (snd (V4.update_gpu m)) in
    (V4.is_critical a'
     = PanelFacts.above t1 80 || PanelFacts.above t2 85
     /\ V4.labels a' V4.gpu_temp_status
        = PanelFacts.gpu_label t1 (Py.PInt 55, Py.PInt 80)
     /\ V4.labels a' V4.gpu_hotspot_status
        = PanelFacts.gpu_label t2 (Py.PInt 60, Py.PInt 85)
     /\ V4.gpu_temp_history a'
        = match t1 with
          | Some t => tl (V4.gpu_temp_history (Run.self m)) ++ [t]
          | None => V4.gpu_temp_history (Run.self m)
          end)
    /\ ((forall n z, Sys.mem_info_vram_used (Run.env m) n <> Sys.Holds z) ->
        fst (V4.update_gpu m) = Py.Ok tt).
Proof.
  intros m t1 t2 Hcalm Hget Hh a'.
  destruct (PanelFacts.update_gpu_shows m t1 t2 Hcalm Hget Hh)
    as (H & Hok).
  split; [exact H | ].
  intros Hv. destruct (Hok (conj Hcalm Hv)) as ([] & Hb). exact Hb.
Qed.

(** Telemetry of 80 and 70 degrees: the edge label reads CRITICAL,
    the flag is down and 80 enters the history, and the panel returns;
    the flag, the label and the history are the same when the panel
    stops on a VRAM counter of 10^320 bytes. *)
Lemma gpu_panel_flags_overheating_witness :
  (V4.is_critical (Run.self (snd (V4.update_gpu Scenario.hot_gpu)))
   = false
   /\ V4.labels (Run.self (snd (V4.update_gpu Scenario.hot_gpu)))
                V4.gpu_temp_status
      = (V4.CRITICAL, V4.critical)
   /\ V4.gpu_temp_history
        (Run.self (snd (V4.update_gpu Scenario.hot_gpu)))
      = repeat (Py.PInt 0) 59 ++ [Py.PInt 80]
   /\ fst (V4.update_gpu Scenario.hot_gpu) = Py.Ok tt)
  /\ V4.labels (Run.self (snd (V4.update_gpu Scenario.huge_vram)))
               V4.gpu_temp_status
     = (V4.NO_ACCESS, V4.text_dim).
Proof.
  split.
  - destruct (gpu_panel_flags_overheating
                Scenario.hot_gpu (Some (Py.PInt 80)) (Some (Py.PInt 70))
                (fun n => eq_refl))
      as ((Hc & Hl & _ & Hh) & Hok).
    + vm_compute. reflexivity.
    + discriminate.
    + split; [exact Hc | ]. split; [exact Hl | ]. split; [exact Hh | ].
      apply Hok. intros n z. discriminate.
  - destruct (gpu_panel_flags_overheating
                Scenario.huge_vram None None (fun n => eq_refl))
      as ((_ & Hl & _) & _).
    + vm_compute. reflexivity.
    + discriminate.
    + exact Hl.
Defined.

(* ================================================================== *)
(** * The animation loop *)
(* ================================================================== *)

Module AnimationFacts.
Import Py Sys Run RunFacts InvFacts PanelFacts.
Import V4Animation.
Local Open Scope run_scope.

(** The frames on which the idle status dot has its bright colour. *)
Definition bright (pulse_state : Z) : bool :=
  (pulse_state <=? 4) || (16 <=? pulse_state).

(** [abs(10 - q) / 10 > 0.5] evaluates, and says [bright q]. *)
Definition pulse_check (q : Z) : bool :=
  match truediv (PInt (Z.abs (10 - q))) (PInt 10) with
  | Ok f => Bool.eqb (gt f half) (bright q)
  | Raise _ => false
  end.

Lemma pulse_bright (q : Z) :
  0 <= q < 20 ->
  exists f, truediv (PInt (Z.abs (10 - q))) (PInt 10) = Ok f
            /\ gt f half = bright q.
Proof.
  intros H.
  assert (A : forallb pulse_check (map Z.of_nat (seq 0 20)) = true)
    by (vm_compute; reflexivity).
  rewrite forallb_forall in A.
  assert (I : In q (map Z.of_nat (seq 0 20))).
  { apply in_map_iff. exists (Z.to_nat q).
    split; [lia | apply in_seq; lia]. }
  specialize (A q I). unfold pulse_check in A.
  destruct (truediv (PInt (Z.abs (10 - q))) (PInt 10)) as [f | e];
    [ | discriminate].
  exists f. split; [reflexivity | ]. now apply Bool.eqb_prop.
Qed.

(** What a frame does to the attributes. *)
Definition frame (w : Z) (a a' : SystemCommandCenter) : Prop :=
  pulse_state a' = (pulse_state a + 1) mod 20
  /\ alert_flash a' = negb (alert_flash a)
  /\ scan_line_pos a' = (scan_line_pos a + 3) mod (w + 100)
  /\ is_critical a' = is_critical a
  /\ status_dot a'
     = (if is_critical a
        then if alert_flash a' then critical else bg_panel
        else if bright (pulse_state a') then nominal else glow_green)
  /\ status_text a'
     = (if is_critical a && alert_flash a' then critical
        else status_text a)
  /\ root a' = root a ++ [(50, CB_animate)].

Ltac fields :=
  cbn [pulse_state alert_flash scan_line_pos is_critical status_dot
       status_text root set_pulse_state set_alert_flash
       set_scan_line_pos set_status_dot set_status_text after
       andb negb] in *.

Lemma animate_frame (w : Z) (m : machine SystemCommandCenter) :
  calm m -> w + 100 <> 0 ->
  exists b, fst (animate w m) = Ok b
            /\ frame w (self m) (self (snd (animate w m))).
Proof.
  intros Hcalm Hw.
  assert (T : triple (fun s => s = self m) (animate w)
                     (fun _ s => frame w (self m) s)).
  { eapply triple_weaken;
      [unfold animate, V4Animation.root_after; wp | ].
    intros s ->. cbv beta.
    destruct (self m) as [p f pos c dot txt r]. unfold frame. fields.
    unfold mod_. destruct (w + 100 =? 0) eqn:E; [lia | ].
    destruct (pulse_bright ((p + 1) mod 20)) as (v & -> & Hv);
      [apply Z.mod_pos_bound; lia | ].
    rewrite Hv.
    destruct c, f, (bright ((p + 1) mod 20)); fields;
      repeat split. }
  destruct (T m Hcalm eq_refl) as (b & Hb & _ & HQ). eauto.
Qed.

Lemma animate_failure (w : Z) (r : list (Z * callback)) :
  on_raise (fun a => root a = r) (animate w).
Proof.
  unfold animate, V4Animation.root_after.
  repeat (apply on_raise_bind; [solve [kept] | intros ?]).
  apply on_raise_modify_self.
Qed.

Lemma animate_first_call_fails (w : Z)
      (m : machine SystemCommandCenter) :
  tk_error (env m) (instant m) = true ->
  fst (animate w m) = Raise TclError
  /\ pulse_state (self (snd (animate w m)))
     = (pulse_state (self m) + 1) mod 20.
Proof.
  intros H.
  unfold animate, V4Animation.root_after, bind, modify_self, get_self,
    tk.
  cbn. rewrite H. split; reflexivity.
Qed.

End AnimationFacts.

(** X14.  The animation reschedules itself only when the frame went through.
    With a Tk that works (and a width other than -100) [animate]
    returns normally and has registered itself with [root.after] for
    50 ms later.  It has no handler of its own: whenever it raises, no
    timer has been registered, so the animation is not run again; and a
    failure of its first call into Tk does make it raise [TclError],
    after the pulse counter was already advanced. *)
Theorem animation_reschedules_only_on_success :
  forall (w : Z) (m : Run.machine V4Animation.SystemCommandCenter),
    (InvFacts.calm m -> w + 100 <> 0 ->
     fst (V4Animation.animate w m) = Py.Ok tt
     /\ V4Animation.root (Run.self (snd (V4Animation.animate w m)))
        = V4Animation.root (Run.self m)
          ++ [(50, V4Animation.CB_animate)])
    /\ (forall e,
           fst (V4Animation.animate w m) = Py.Raise e ->
           V4Animation.root (Run.self (snd (V4Animation.animate w m)))
           = V4Animation.root (Run.self m))
    /\ (Sys.tk_error (Run.env m) (Run.instant m) = true ->
        fst (V4Animation.animate w m) = Py.Raise Py.TclError
        /\ V4Animation.pulse_state
             (Run.self (snd (V4Animation.animate w m)))
           = (V4Animation.pulse_state (Run.self m) + 1) mod 20).
Proof.
  intros w m. split; [ | split].
  - intros Hcalm Hw.
    destruct (AnimationFacts.animate_frame w m Hcalm Hw)
      as ([] & Hok & F).
    split; [exact Hok | apply F].
  - intros e He.
    now apply (AnimationFacts.animate_failure w _ m e).
  - apply AnimationFacts.animate_first_call_fails.
Qed.

(** A header 1450 pixels wide: the first frame registers the next one;
    with the window gone it raises and registers nothing. *)
Lemma animation_reschedules_only_on_success_witness :
  V4Animation.root
    (Run.self (snd (V4Animation.animate 1450 Scenario.header)))
  = [(50, V4Animation.CB_animate)]
  /\ fst (V4Animation.animate 1450 Scenario.header_destroyed)
     = Py.Raise Py.TclError
  /\ V4Animation.root
       (Run.self
          (snd (V4Animation.animate 1450 Scenario.header_destroyed)))
     = [].
Proof.
  split; [ | split].
  - apply (proj1 (animation_reschedules_only_on_success
                    1450 Scenario.header)).
    + intros n. reflexivity.
    + lia.
  - apply (proj2 (proj2 (animation_reschedules_only_on_success
                           1450 Scenario.header_destroyed))).
    reflexivity.
  - apply (proj1 (proj2 (animation_reschedules_only_on_success
                           1450 Scenario.header_destroyed))
                 Py.TclError).
    reflexivity.
Defined.

(** X15.  What a frame shows.  With a Tk that works, [animate] advances the
    pulse counter modulo 20 (so it lies in 0..19 whatever it was),
    flips [alert_flash], moves the scan line by 3 modulo the width plus
    100 and leaves [is_critical] alone.  While the critical flag is up
    the status dot alternates between the critical colour and the
    panel background from one frame to the next, and the status text
    turns critical on the lit frames; otherwise the dot is [nominal] on
    the frames whose counter is in 0..4 or 16..19 and [glow_green] on
    the frames 5..15 (the test [abs(10 - pulse_state) / 10 > 0.5]). *)
Theorem status_dot_blinks :
  forall (w : Z) (m : Run.machine V4Animation.SystemCommandCenter),
    InvFacts.calm m -> w + 100 <> 0 ->
    let a := Run.self m in
    let a' := Run.self (snd (V4Animation.animate w m)) in
    0 <= V4Animation.pulse_state a' < 20
    /\ V4Animation.pulse_state a'
       = (V4Animation.pulse_state a + 1) mod 20
    /\ V4Animation.alert_flash a' = negb (V4Animation.alert_flash a)
    /\ V4Animation.scan_line_pos a'
       = (V4Animation.scan_line_pos a + 3) mod (w + 100)
    /\ V4Animation.is_critical a' = V4Animation.is_critical a
    /\ V4Animation.status_dot a'
       = (if V4Animation.is_critical a
          then if V4Animation.alert_flash a'
               then V4Animation.critical else V4Animation.bg_panel
          else if (V4Animation.pulse_state a' <=? 4)
                  || (16 <=? V4Animation.pulse_state a')
               then V4Animation.nominal else V4Animation.glow_green)
    /\ V4Animation.status_text a'
       = (if V4Animation.is_critical a && V4Animation.alert_flash a'
          then V4Animation.critical
          else V4Animation.status_text a).
Proof.
  intros w m Hcalm Hw a a'.
  destruct (AnimationFacts.animate_frame w m Hcalm Hw)
    as (b & _ & Hp & Hf & Hs & Hc & Hd & Ht & _).
  fold a a' in Hp, Hf, Hs, Hc, Hd, Ht.
  split; [rewrite Hp; apply Z.mod_pos_bound; lia | ].
  repeat (split; [assumption | ]). exact Ht.
Qed.

(** The first frame after start-up: counter 1, dot in the nominal
    colour. *)
Lemma status_dot_blinks_witness :
  V4Animation.pulse_state
    (Run.self (snd (V4Animation.animate 1450 Scenario.header))) = 1
  /\ V4Animation.status_dot
       (Run.self (snd (V4Animation.animate 1450 Scenario.header)))
     = V4Animation.nominal.
Proof.
  destruct (status_dot_blinks 1450 Scenario.header)
    as (_ & Hp & _ & _ & _ & Hd & _).
  - intros n. reflexivity.
  - lia.
  - split; [exact Hp | exact Hd].
Defined.

(* ================================================================== *)
(** * The storage panel *)
(* ================================================================== *)

Module StorageFacts.
Import Py V4Storage.

Lemma mem_In (x : string) (seen : list string) :
  mem x seen = true <-> In x seen.
Proof.
  unfold mem. rewrite existsb_exists. split.
  - intros (y & Hy & E). apply String.eqb_eq in E. now subst.
  - intros H. exists x. split; [exact H | apply String.eqb_refl].
Qed.

Lemma NoDup_snoc {A} (l : list A) (x : A) :
  NoDup l -> ~ In x l -> NoDup (l ++ [x]).
Proof.
  induction l as [ | y t IH]; intros Hl Hx; cbn.
  - constructor; [intros [] | constructor].
  - inversion Hl as [ | ? ? Hy Ht]; subst. constructor.
    + rewrite in_app_iff. intros [H | [H | []]]; [now apply Hy | ].
      subst. apply Hx. now left.
    + apply IH; [exact Ht | ]. intros H. apply Hx. now right.
Qed.

Lemma length_append (s1 s2 : string) :
  String.length (s1 ++ s2) = (String.length s1 + String.length s2)%nat.
Proof. induction s1 as [ | c s IH]; cbn; [reflexivity | now rewrite IH]. Qed.

Lemma length_substring (n : nat) (s : string) :
  (n <= String.length s)%nat ->
  String.length (substring 0 n s) = n.
Proof.
  revert s. induction n as [ | n IH]; intros s H.
  - now destruct s.
  - destruct s as [ | c s]; cbn in *; [lia | ].
    rewrite IH; [reflexivity | lia].
Qed.

Lemma mount_text_fits (m : string) :
  (String.length (mount_text m) <= 15)%nat.
Proof.
  unfold mount_text.
  destruct (String.length m <=? 15)%nat eqn:E.
  - now apply Nat.leb_le.
  - apply Nat.leb_gt in E. rewrite length_append, length_substring.
    + cbn. lia.
    + lia.
Qed.

Section Parsing.
Variable int : string -> option Z.

(** The entry [d] is what the line [p] says. *)
Definition entry_of (p : list string) (d : disk) : Prop :=
  (6 <= List.length p)%nat
  /\ device d = last_component EmptyString (field 0 p)
  /\ int (field 1 p) = Some (total d)
  /\ int (field 2 p) = Some (used d)
  /\ mount d = field 5 p
  /\ int (strip_percent (field 4 p)) = Some (percent d).

(** The three numbers of the line [p] can be read. *)
Definition readable (p : list string) : Prop :=
  int (field 1 p) <> None /\ int (field 2 p) <> None
  /\ int (strip_percent (field 4 p)) <> None.

Lemma scan_spec (lines : list (list string)) :
  forall seen disks r,
    scan int lines seen disks = Ok r ->
    NoDup (map mount disks) ->
    (forall x, In x (map mount disks) <-> In x seen) ->
    NoDup (map mount r)
    /\ (forall d, In d r ->
                  In d disks \/ exists p, In p lines /\ entry_of p d)
    /\ (forall p, In p lines -> (6 <= List.length p)%nat ->
                  In (field 5 p) (map mount r))
    /\ (forall d, In d disks -> In d r).
Proof.
  induction lines as [ | p rest IH]; intros seen disks r H Hnd Hseen.
  - cbn in H. injection H as <-.
    split; [exact Hnd | ]. split; [now left | ].
    split; [intros p [] | auto].
  - cbn [scan] in H.
    destruct ((6 <=? List.length p)%nat
              && negb (mem (field 5 p) seen)) eqn:C.
    + apply andb_true_iff in C. destruct C as [Cw Cm].
      apply Nat.leb_le in Cw. apply negb_true_iff in Cm.
      destruct (int (field 1 p)) as [t | ] eqn:E1; [ | discriminate].
      destruct (int (field 2 p)) as [u | ] eqn:E2; [ | discriminate].
      destruct (int (strip_percent (field 4 p))) as [pct | ] eqn:E4;
        [ | discriminate].
      match type of H with
      | scan _ _ _ (_ ++ [?d0]) = _ => set (d := d0) in *
      end.
      assert (Hfresh : ~ In (field 5 p) (map mount disks)).
      { intros Hin. apply Hseen in Hin. apply mem_In in Hin.
        congruence. }
      destruct (IH _ _ _ H) as (N & Prov & Cov & Mono).
      { rewrite map_app. cbn. now apply NoDup_snoc. }
      { intros x. rewrite map_app, in_app_iff. cbn.
        rewrite Hseen. tauto. }
      split; [exact N | ]. split; [ | split].
      * intros d' Hd'. destruct (Prov d' Hd') as [Hin | (q & Hq & He)].
        -- apply in_app_iff in Hin. destruct Hin as [Hin | [<- | []]].
           ++ now left.
           ++ right. exists p. split; [now left | ].
              repeat split; assumption.
        -- right. exists q. split; [now right | exact He].
      * intros q [<- | Hq] Hw.
        -- change (field 5 p) with (mount d). apply in_map.
           apply Mono. apply in_app_iff. right. now left.
        -- now apply Cov.
      * intros d' Hd'. apply Mono. apply in_app_iff. now left.
    + destruct (IH _ _ _ H Hnd Hseen) as (N & Prov & Cov & Mono).
      split; [exact N | ]. split; [ | split].
      * intros d' Hd'. destruct (Prov d' Hd') as [Hin | (q & Hq & He)].
        -- now left.
        -- right. exists q. split; [now right | exact He].
      * intros q [<- | Hq] Hw.
        -- apply andb_false_iff in C. destruct C as [C | C].
           ++ apply Nat.leb_gt in C. lia.
           ++ apply negb_false_iff in C. apply mem_In in C.
              apply Hseen in C. apply in_map_iff in C.
              destruct C as (d' & Hm & Hd').
              rewrite <- Hm. apply in_map. now apply Mono.
        -- now apply Cov.
      * exact Mono.
Qed.

Lemma scan_readable (lines : list (list string)) :
  (forall p, In p lines -> (6 <= List.length p)%nat -> readable p) ->
  forall seen disks, exists r, scan int lines seen disks = Ok r.
Proof.
  induction lines as [ | p rest IH]; intros Hr seen disks.
  - cbn. eauto.
  - cbn [scan].
    destruct ((6 <=? List.length p)%nat
              && negb (mem (field 5 p) seen)) eqn:C.
    + apply andb_true_iff in C. destruct C as [Cw _].
      apply Nat.leb_le in Cw.
      destruct (Hr p (or_introl eq_refl) Cw) as (R1 & R2 & R4).
      destruct (int (field 1 p)); [ | now destruct R1].
      destruct (int (field 2 p)); [ | now destruct R2].
      destruct (int (strip_percent (field 4 p)));
        [ | now destruct R4].
      apply IH. intros q Hq. apply Hr. now right.
    + apply IH. intros q Hq. apply Hr. now right.
Qed.

(** A line that is taken and cannot be read ends the scan. *)
Lemma scan_unreadable (pre : list (list string)) :
  forall p post seen disks,
    (6 <= List.length p)%nat ->
    ~ In (field 5 p) seen ->
    (forall q, In q pre -> (6 <= List.length q)%nat ->
               field 5 q <> field 5 p) ->
    ~ readable p ->
    exists e, scan int (pre ++ p :: post) seen disks = Raise e.
Proof.
  induction pre as [ | q pre IH];
    intros p post seen disks Hw Hs Hpre Hu.
  - cbn [app scan].
    assert (C : (6 <=? List.length p)%nat
                && negb (mem (field 5 p) seen) = true).
    { apply andb_true_iff. split; [now apply Nat.leb_le | ].
      apply negb_true_iff. destruct (mem (field 5 p) seen) eqn:M;
        [ | reflexivity].
      apply mem_In in M. now destruct Hs. }
    rewrite C.
    destruct (int (field 1 p)) eqn:E1; [ | eauto].
    destruct (int (field 2 p)) eqn:E2; [ | eauto].
    destruct (int (strip_percent (field 4 p))) eqn:E4; [ | eauto].
    destruct Hu. unfold readable. rewrite E1, E2, E4.
    repeat split; discriminate.
  - cbn [app scan].
    destruct ((6 <=? List.length q)%nat
              && negb (mem (field 5 q) seen)) eqn:C.
    + apply andb_true_iff in C. destruct C as [Cw _].
      apply Nat.leb_le in Cw.
      destruct (int (field 1 q)); [ | eauto].
      destruct (int (field 2 q)); [ | eauto].
      destruct (int (strip_percent (field 4 q))); [ | eauto].
      apply IH; auto.
      * intros [H | H]; [ | now apply Hs].
        apply (Hpre q (or_introl eq_refl) Cw). exact H.
      * intros q' Hq'. apply Hpre. now right.
    + apply IH; auto. intros q' Hq'. apply Hpre. now right.
Qed.

End Parsing.

End StorageFacts.

(** X16.  The storage list names each mount point once.  Whatever the [df]
    output and whatever [int] accepts, the mount points of the entries
    [get_storage_info] returns are pairwise distinct, and each entry is
    what some line of at least six fields says: its device is what
    follows the last slash of the first field, its sizes and its
    percentage (without the percent sign) are the numbers of the second,
    third and fifth field and its mount point is the sixth.  The panel
    then shows at most four rows, and no mount label is longer than
    the 15 characters of its column. *)
Theorem storage_lists_each_mount_once :
  forall (int : string -> option Z) (output : list (list string)),
    let disks := V4Storage.get_storage_info int output in
    NoDup (map V4Storage.mount disks)
    /\ (forall d, In d disks ->
                  exists p, In p output /\ StorageFacts.entry_of int p d)
    /\ (List.length (V4Storage.rows disks) <= 4)%nat
    /\ (forall text pct c,
           In (text, pct, c) (V4Storage.rows disks) ->
           (String.length text <= 15)%nat).
Proof.
  intros int output disks.
  assert (H : NoDup (map V4Storage.mount disks)
              /\ (forall d, In d disks ->
                    exists p, In p output
                              /\ StorageFacts.entry_of int p d)).
  { unfold disks, V4Storage.get_storage_info.
    destruct (V4Storage.scan int output [] []) as [r | e] eqn:E.
    - destruct (StorageFacts.scan_spec int output [] [] r E)
        as (N & Prov & _ & _).
      + constructor.
      + intros x. reflexivity.
      + split; [exact N | ]. intros d Hd.
        destruct (Prov d Hd) as [[] | Hp]. exact Hp.
    - split; [constructor | intros d []]. }
  destruct H as [N Prov]. split; [exact N | ]. split; [exact Prov | ].
  split.
  - unfold V4Storage.rows. rewrite length_map, length_firstn. lia.
  - intros text pct c Hin. unfold V4Storage.rows in Hin.
    apply in_map_iff in Hin. destruct Hin as (d & E & _).
    injection E as <- _ _. apply StorageFacts.mount_text_fits.
Qed.

(** X17.  When every line of at least six fields has readable numbers, every
    such line's mount point is in the list: nothing is dropped, and by
    the distinctness above it is listed exactly once. *)
Theorem storage_lists_every_mount :
  forall (int : string -> option Z) (output : list (list string)),
    (forall p, In p output -> (6 <= List.length p)%nat ->
               StorageFacts.readable int p) ->
    forall p, In p output -> (6 <= List.length p)%nat ->
              In (V4Storage.field 5 p)
                 (map V4Storage.mount
                      (V4Storage.get_storage_info int output)).
Proof.
  intros int output Hr p Hp Hw. unfold V4Storage.get_storage_info.
  destruct (StorageFacts.scan_readable int output Hr [] []) as [r E].
  rewrite E.
  destruct (StorageFacts.scan_spec int output [] [] r E)
    as (_ & _ & Cov & _).
  - constructor.
  - intros x. reflexivity.
  - now apply Cov.
Qed.

(** The home partition of a three-line output is listed. *)
Lemma storage_lists_every_mount_witness :
  In "/home"%string
     (map V4Storage.mount
          (V4Storage.get_storage_info Scenario.decimal
                                      Scenario.df_output)).
Proof.
  apply (storage_lists_every_mount
           Scenario.decimal Scenario.df_output)
    with (p := ["/dev/sda1"; "900000"; "855000"; "45000"; "95%";
                "/home"]%string).
  - intros p [<- | [<- | [<- | []]]] _;
      repeat split; discriminate.
  - right. right. left. reflexivity.
  - cbn. lia.
Defined.

(** X18.  One unreadable line empties the list.  If a line of at least six
    fields, whose mount point no earlier such line has, carries a size
    or a percentage that [int] refuses, [get_storage_info] returns the
    empty list: the entries of all the other lines are lost with it. *)
Theorem unreadable_line_empties_the_storage_list :
  forall (int : string -> option Z) (pre post : list (list string))
         (p : list string),
    (6 <= List.length p)%nat ->
    (forall q, In q pre -> (6 <= List.length q)%nat ->
               V4Storage.field 5 q <> V4Storage.field 5 p) ->
    ~ StorageFacts.readable int p ->
    V4Storage.get_storage_info int (pre ++ p :: post) = [].
Proof.
  intros int pre post p Hw Hpre Hu. unfold V4Storage.get_storage_info.
  destruct (StorageFacts.scan_unreadable int pre p post [] [] Hw)
    as [e E]; auto.
  now rewrite E.
Qed.

(** A dash for the size of the home partition: the root file system
    is not listed either. *)
Lemma unreadable_line_empties_the_storage_list_witness :
  V4Storage.get_storage_info Scenario.decimal Scenario.df_output_garbled
  = [].
Proof.
  apply (unreadable_line_empties_the_storage_list
           Scenario.decimal
           [["/dev/nvme0n1p2"; "500000"; "200000"; "300000"; "40%";
             "/"]]%string
           []
           ["/dev/sda1"; "-"; "855000"; "45000"; "95%"; "/home"]%string).
  - cbn. lia.
  - intros q [<- | []] _. discriminate.
  - intros (H & _). apply H. reflexivity.
Defined.
